(** * gobin: versioned document store behind capability tokens

    A shallow embedding of the HTTP handlers of gobin (package [gobin],
    file [routes.go]) together with the parts of the Go standard library
    they call, and of the document store and token layer they sit on.

    Two snapshots of [routes.go] are embedded:
    - [RoutesA]: [src/gobin/routes.go];
    - [RoutesB]: the [package gobin] file kept in [src/cmd/version.go]
      (server-side rendering, one handler for latest and versioned reads).

    Handlers are functions from a request, the response writer and the
    database to the new response writer and database.  What the handlers
    receive from outside (clock readings, generated ids, the JSON decoder,
    the signer, the lexer library, the rate limiter's verdict) is gathered
    in the record [Env]. *)

From stdpp Require Import gmap strings list fin_maps sorting.
From Stdlib Require Import ZArith Ascii String DecimalString.

Local Open Scope string_scope.
Local Open Scope Z_scope.

(* ===================================================================== *)
(** ** Go standard library: strconv, fmt, time *)
(* ===================================================================== *)

Module strconv.

Inductive NumError := ErrSyntax | ErrRange.

Definition maxUint64 : Z := 2 ^ 64 - 1.

(** value of a base-10 digit byte, ['0' <= c && c <= '9'] *)
Definition digit (c : ascii) : option Z :=
  let n := Z.of_nat (nat_of_ascii c) in
  if (48 <=? n) && (n <=? 57) then Some (n - 48) else None.

(** the digit loop of [ParseUint(s, 10, 64)]: a byte that is no digit is
    a syntax error, an overflow of uint64 a range error, whichever the
    loop meets first. *)
Fixpoint parseUintLoop (n : Z) (s : string) : NumError + Z :=
  match s with
  | EmptyString => inr n
  | String c s' =>
      match digit c with
      | None => inl ErrSyntax
      | Some d =>
          if maxUint64 / 10 + 1 <=? n then inl ErrRange
          else
            let n1 := n * 10 + d in
            if maxUint64 <? n1 then inl ErrRange else parseUintLoop n1 s'
      end
  end.

Definition ParseUint (s : string) : NumError + Z :=
  match s with
  | EmptyString => inl ErrSyntax
  | _ => parseUintLoop 0 s
  end.

(** [strconv.ParseInt(s, 10, 64)]: an optional sign, then [ParseUint],
    then the check against the int64 range. *)
Definition ParseInt (s : string) : NumError + Z :=
  match s with
  | EmptyString => inl ErrSyntax
  | String c rest =>
      let '(neg, digits) :=
        if Ascii.eqb c "+" then (false, rest)
        else if Ascii.eqb c "-" then (true, rest)
        else (false, s) in
      match ParseUint digits with
      | inl ErrSyntax => inl ErrSyntax
      | inl ErrRange => inl ErrRange
      | inr un =>
          let cutoff := 2 ^ 63 in
          if negb neg && (cutoff <=? un) then inl ErrRange
          else if neg && (cutoff <? un) then inl ErrRange
          else inr (if neg then - un else un)
      end
  end.

(** [strconv.Itoa] and the [%d] verb of [fmt]: decimal, [-] for negatives. *)
Definition Itoa (n : Z) : string := NilZero.string_of_int (Z.to_int n).

End strconv.

Module time.

(** A [time.Location] gives the offset from UTC, in seconds, in force at
    an instant. *)
Definition Location := Z -> Z.

Definition UTC : Location := fun _ => 0.

(** A [time.Time] of second resolution: the instant in Unix seconds and
    the location it is displayed in. *)
Record Time := mkTime { unixSec : Z; loc : Location }.

(** [time.Unix(sec, 0)], displayed in the location [l] ([time.Local]). *)
Definition Unix (l : Location) (sec : Z) : Time := mkTime sec l.

(** seconds since the epoch on the wall clock of the time's location *)
Definition abs (t : Time) : Z := unixSec t + loc t (unixSec t).

(** Civil date of a day number counted from 1970-01-01 (proleptic
    Gregorian calendar), as (year, month, day). *)
Definition civil (days : Z) : Z * Z * Z :=
  let z := days + 719468 in
  let era := z / 146097 in
  let doe := z - era * 146097 in
  let yoe := (doe - doe / 1460 + doe / 36524 - doe / 146096) / 365 in
  let doy := doe - (365 * yoe + yoe / 4 - yoe / 100) in
  let mp := (5 * doy + 2) / 153 in
  let d := doy - (153 * mp + 2) / 5 + 1 in
  let m := if mp <? 10 then mp + 3 else mp - 9 in
  let y := yoe + era * 400 + (if m <=? 2 then 1 else 0) in
  (y, m, d).

Definition Year (t : Time) : Z := fst (fst (civil (abs t / 86400))).
Definition Month (t : Time) : Z := snd (fst (civil (abs t / 86400))).
Definition Day (t : Time) : Z := snd (civil (abs t / 86400)).
Definition Hour (t : Time) : Z := (abs t mod 86400) / 3600.
Definition Minute (t : Time) : Z := (abs t mod 3600) / 60.
Definition Second (t : Time) : Z := abs t mod 60.

(** [appendInt]: decimal, padded with zeros to [width] digits. *)
Definition pad (width : nat) (n : Z) : string :=
  let digits := strconv.Itoa (Z.abs n) in
  let zeros := concat "" (replicate (width - String.length digits) "0") in
  (if n <? 0 then "-" else "") +:+ zeros +:+ digits.

(** [t.Format("02/01/2006 15:04:05")] *)
Definition Format (t : Time) : string :=
  pad 2 (Day t) +:+ "/" +:+ pad 2 (Month t) +:+ "/" +:+ pad 4 (Year t) +:+ " "
  +:+ pad 2 (Hour t) +:+ ":" +:+ pad 2 (Minute t) +:+ ":" +:+ pad 2 (Second t).

End time.

(* ===================================================================== *)
(** ** The token layer (jwt.go is not part of the sources) *)
(* ===================================================================== *)

Module Tokens.

(** Modelled from the spec: the type [Permission] and its constants are
    declared in jwt.go, which is missing.  "Permissions are a closed
    enumeration {write, delete, share}"; the share handler decodes them
    from JSON strings, so a request can name any string. *)
Definition Permission := string.

Definition PermissionWrite : Permission := "write".
Definition PermissionDelete : Permission := "delete".
Definition PermissionShare : Permission := "share".

(** Modelled from the spec: [Permission.IsValid] is declared in jwt.go,
    which is missing; a permission is valid when it is one of the three
    of the enumeration. *)
Definition IsValid (p : Permission) : bool :=
  bool_decide (p = PermissionWrite) || bool_decide (p = PermissionDelete)
  || bool_decide (p = PermissionShare).

(** Modelled from the spec: the claims type is declared in jwt.go, which
    is missing; a token asserts "{subject = document ID, permissions =
    subset of {write, delete, share}}". *)
Record Claims := mkClaims { Subject : string; Permissions : list Permission }.

(** Modelled from the spec: "a missing/absent token verifies to an
    empty-claims object (not an error)" (the middleware is in jwt.go,
    which is missing). *)
Definition EmptyClaims : Claims := mkClaims "" [].

(** [slices.Contains] *)
Definition Contains (l : list Permission) (p : Permission) : bool :=
  bool_decide (p ∈ l).

End Tokens.

(* ===================================================================== *)
(** ** The document store (db.go is not part of the sources) *)
(* ===================================================================== *)

Module db.

(** Modelled from the spec: the struct [Document] is declared in db.go,
    which is missing. "Fields: ID, version, content, language", the
    version a Unix timestamp; the handlers read the four fields. *)
Record Document := mkDocument {
  ID : string;
  Version : Z;
  Content : string;
  Language : string
}.

(** The zero value [Document{}]. *)
Definition zeroDocument : Document := mkDocument "" 0 "" "".

(** Modelled from the spec: the errors of the store (db.go is missing).
    The handlers tell [sql.ErrNoRows], the spec's NotFound, from any other
    failure of the persistence engine, the spec's StorageError, of which
    the model has one: the violation of the primary key, "surfaced as a
    conflict error". *)
Inductive Error := ErrNoRows | ErrConflict.

(** Modelled from the spec: the table of db.go, which is missing.
    "Persisted row shape (document table): primary key = (id, version);
    columns id, version, content, language" (and the CREATE TABLE
    statement of the sources): a finite map from the key (id, version)
    to (content, language). *)
Abbreviation DB := (gmap (string * Z) (string * string)).

(** Modelled from the spec: the rows of the table (db.go is missing),
    read as documents, and the rows of one document, the result of
    SELECT ... WHERE id = ?. *)
Definition documents (st : DB) : list Document :=
  (fun kv => mkDocument kv.1.1 kv.1.2 kv.2.1 kv.2.2) <$> map_to_list st.

Definition documentsOf (st : DB) (id : string) : list Document :=
  filter (fun d => ID d = id) (documents st).

(** Modelled from the spec: "Latest = maximum version for that ID among
    rows not deleted" (db.go is missing). The row to keep of the best one
    so far and the next one, and the row of greatest version of a list
    of rows. *)
Definition pick (best : option Document) (d : Document) : option Document :=
  match best with
  | None => Some d
  | Some b => if bool_decide (Version b ≤ Version d) then Some d else Some b
  end.

Definition latest (ds : list Document) : option Document := foldl pick None ds.

(** Modelled from the spec: [get_latest] (db.go is missing). "returns
    the row with the maximum version for id; fails with NotFound if no
    rows exist for id". *)
Definition GetDocument (st : DB) (id : string) : Error + Document :=
  match latest (documentsOf st id) with
  | Some d => inr d
  | None => inl ErrNoRows
  end.

(** Modelled from the spec: [get_version] (db.go is missing).
    "exact-match lookup; fails with NotFound if absent". *)
Definition GetDocumentVersion (st : DB) (id : string) (version : Z) : Error + Document :=
  match st !! (id, version) with
  | Some cl => inr (mkDocument id version cl.1 cl.2)
  | None => inl ErrNoRows
  end.

(** Modelled from the spec: the order of [list_versions], "ordered by
    version ascending" (db.go is missing). *)
Definition versionLe (a b : Document) : Prop := Version a ≤ Version b.

#[global] Instance versionLe_dec a b : Decision (versionLe a b) :=
  decide (Version a ≤ Version b).

(** Modelled from the spec: [list_versions] (db.go is missing).
    "ordered by version ascending; omits content payload when
    include_content is false; returns an empty sequence (not an error)
    when the ID is unknown". *)
Definition GetDocumentVersions (st : DB) (id : string) (withContent : bool) : list Document :=
  (fun d => if withContent then d else mkDocument (ID d) (Version d) "" (Language d))
    <$> merge_sort versionLe (documentsOf st id).

(** Modelled from the spec: the INSERT statement of create and update
    (db.go is missing). "every successful create or update produces a new
    row, never overwriting a prior version"; "composite-key uniqueness
    enforced by the persistence engine, surfaced as a conflict error if
    violated": the primary key rejects a second row with the key of an
    existing one, which is left as it is. *)
Definition insertDocument (st : DB) (d : Document) : Error + (Document * DB) :=
  match st !! (ID d, Version d) with
  | Some _ => inl ErrConflict
  | None => inr (d, <[(ID d, Version d) := (Content d, Language d)]> st)
  end.

(** Modelled from the spec: the Version Clock (db.go is missing).
    "next_version() -> integer, returns the current time as a Unix
    timestamp". *)
Definition nextVersion (now : time.Time) : Z := time.unixSec now.

(** Modelled from the spec: [create] (db.go is missing). "assigns a
    fresh unique ID, stamps version = current version-clock value,
    persists; fails with StorageError on persistence failure".  The id
    comes from the generator and the time from the clock. *)
Definition CreateDocument (st : DB) (newID : string) (now : time.Time)
    (content language : string) : Error + (Document * DB) :=
  insertDocument st (mkDocument newID (nextVersion now) content language).

(** Modelled from the spec: [update] (db.go is missing). "equivalent to
    create but bound to the existing ID rather than minting a new one;
    fails with NotFound if id has zero existing versions". *)
Definition UpdateDocument (st : DB) (id : string) (now : time.Time)
    (content language : string) : Error + (Document * DB) :=
  match documentsOf st id with
  | [] => inl ErrNoRows
  | _ => insertDocument st (mkDocument id (nextVersion now) content language)
  end.

(** Modelled from the spec: [delete_all] (db.go is missing). "removes
    every version row for id; fails with NotFound if none existed". *)
Definition DeleteDocument (st : DB) (id : string) : Error + DB :=
  match documentsOf st id with
  | [] => inl ErrNoRows
  | _ => inr (filter (fun kv => kv.1.1 ≠ id) st)
  end.

(** Modelled from the spec: [delete_version] (db.go is missing).
    "removes exactly one row; fails with NotFound if that (id, version)
    pair does not exist; does not cascade". *)
Definition DeleteDocumentByVersion (st : DB) (id : string) (version : Z) : Error + DB :=
  match st !! (id, version) with
  | Some _ => inr (delete (id, version) st)
  | None => inl ErrNoRows
  end.

(** Modelled from the spec: [count_versions] (db.go is missing). *)
Definition GetVersionCount (st : DB) (id : string) : Z :=
  Z.of_nat (List.length (documentsOf st id)).

End db.

(** The operations of the store with what each receives, and the table
    an operation leaves behind. *)
Module StoreOps.

Import db.

Inductive Op :=
| Create (newID : string) (now : time.Time) (content language : string)
| GetLatest (id : string)
| GetVersion (id : string) (version : Z)
| ListVersions (id : string) (withContent : bool)
| Update (id : string) (now : time.Time) (content language : string)
| DeleteAll (id : string)
| DeleteVersion (id : string) (version : Z)
| CountVersions (id : string).

Definition isDelete (op : Op) : bool :=
  match op with
  | DeleteAll _ | DeleteVersion _ _ => true
  | _ => false
  end.

(** The table after the operation; an operation that fails leaves the
    table as it was. The reads return no table. *)
Definition after (st : DB) (op : Op) : DB :=
  match op with
  | Create newID now content language =>
      match CreateDocument st newID now content language with
      | inr (_, st') => st'
      | inl _ => st
      end
  | Update id now content language =>
      match UpdateDocument st id now content language with
      | inr (_, st') => st'
      | inl _ => st
      end
  | DeleteAll id =>
      match DeleteDocument st id with
      | inr st' => st'
      | inl _ => st
      end
  | DeleteVersion id version =>
      match DeleteDocumentByVersion st id version with
      | inr st' => st'
      | inl _ => st
      end
  | GetLatest _ | GetVersion _ _ | ListVersions _ _ | CountVersions _ => st
  end.

(** The row an operation writes, if it writes one. *)
Definition written (op : Op) : option Document :=
  match op with
  | Create id now content language | Update id now content language =>
      Some (mkDocument id (nextVersion now) content language)
  | _ => None
  end.

End StoreOps.

(* ===================================================================== *)
(** ** net/http: requests and the response writer *)
(* ===================================================================== *)

Module http.

Definition StatusOK : Z := 200.
Definition StatusNoContent : Z := 204.
Definition StatusSeeOther : Z := 303.
Definition StatusNotModified : Z := 304.
Definition StatusBadRequest : Z := 400.
Definition StatusUnauthorized : Z := 401.
Definition StatusForbidden : Z := 403.
Definition StatusNotFound : Z := 404.
Definition StatusMethodNotAllowed : Z := 405.
Definition StatusTooManyRequests : Z := 429.
Definition StatusInternalServerError : Z := 500.

Definition MethodGet := "GET".
Definition MethodHead := "HEAD".
Definition MethodPost := "POST".
Definition MethodPatch := "PATCH".
Definition MethodDelete := "DELETE".

(** [Get] on headers, query values, cookies and chi's URL parameters:
    the value of the first entry of that name, [""] when there is none. *)
Fixpoint assoc (k : string) (l : list (string * string)) : string :=
  match l with
  | [] => ""
  | (k', v) :: l' => if bool_decide (k' = k) then v else assoc k l'
  end.

Record Request := mkRequest {
  Method : string;
  Path : list string;                  (* the segments of r.URL.Path *)
  Query : list (string * string);      (* r.URL.Query() *)
  Header : list (string * string);
  Cookies : list (string * string);
  Body : option string;                (* None: reading r.Body fails *)
  Host : string;
  RequestID : string;                  (* middleware.GetReqID *)
  URLParams : list (string * string);  (* chi's route context *)
  Claims : Tokens.Claims               (* put in the context by JWTMiddleware *)
}.

Definition withParams (r : Request) (ps : list (string * string)) : Request :=
  mkRequest (Method r) (Path r) (Query r) (Header r) (Cookies r) (Body r)
            (Host r) (RequestID r) ps (Claims r).

Definition withClaims (r : Request) (c : Tokens.Claims) : Request :=
  mkRequest (Method r) (Path r) (Query r) (Header r) (Cookies r) (Body r)
            (Host r) (RequestID r) (URLParams r) c.

(** [chi.URLParam(r, name)] *)
Definition URLParam (r : Request) (name : string) : string := assoc name (URLParams r).

(** The response writer, parametric in the values [V] written to it:
    the status line once written, the headers, the values written to
    the body. *)
Record ResponseWriter (V : Type) := mkWriter {
  status : option Z;
  headers : list (string * string);
  written : list V
}.
Arguments mkWriter {V}.
Arguments status {V}.
Arguments headers {V}.
Arguments written {V}.

Definition newWriter {V} : ResponseWriter V := mkWriter None [] [].

(** [w.Header().Set(k, v)]: without effect once the header is written *)
Definition SetHeader {V} (k v : string) (w : ResponseWriter V) : ResponseWriter V :=
  match status w with
  | Some _ => w
  | None => mkWriter None ((k, v) :: filter (fun kv => kv.1 ≠ k) (headers w)) (written w)
  end.

(** [w.WriteHeader(code)]: a second call is ignored *)
Definition WriteHeader {V} (code : Z) (w : ResponseWriter V) : ResponseWriter V :=
  match status w with
  | Some _ => w
  | None => mkWriter (Some code) (headers w) (written w)
  end.

Definition bodyAllowedForStatus (code : Z) : bool :=
  negb (((100 <=? code) && (code <=? 199)) || (code =? StatusNoContent)
        || (code =? StatusNotModified)).

(** [w.Write(v)]: writes the header with 200 when none was written; the
    write fails (and nothing is sent) when the status allows no body. *)
Definition Write {V} (v : V) (w : ResponseWriter V) : ResponseWriter V :=
  let w1 := WriteHeader StatusOK w in
  match status w1 with
  | Some code =>
      if bodyAllowedForStatus code
      then mkWriter (status w1) (headers w1) (written w1 ++ [v])
      else w1
  | None => w1
  end.

(** What the client receives as status: 200 when the handler returned
    without writing a header. *)
Definition StatusCode {V} (w : ResponseWriter V) : Z :=
  match status w with
  | Some code => code
  | None => StatusOK
  end.

End http.

(* ===================================================================== *)
(** ** package gobin: what both snapshots of routes.go share *)
(* ===================================================================== *)

Module gobin.

Import Tokens.

(** The error values the handlers report. The first five are the [var]
    block of routes.go; the next three are declared in jwt.go; the rest
    stand for the errors returned by the store, the JSON decoder, the
    body reader, the signer and the highlighting library. *)
Inductive error :=
| ErrDocumentNotFound
| ErrUnauthorized
| ErrRateLimit
| ErrEmptyBody
| ErrContentTooLarge (maxLength : Z)
| ErrNoPermissions
| ErrUnknownPermission (p : Permission)
| ErrPermissionDenied (p : Permission)
| ErrStore (e : db.Error)
| ErrDecode
| ErrRead
| ErrSign
| ErrHighlight.

Module DocumentVersion.
Record t := mk { Version : Z; Label : string; Time : string }.
End DocumentVersion.

(** The response structs. [RoutesB] adds the fields [Formatted] and
    [CSS] to [DocumentResponse] and [Formatted], [CSS], [Style] and
    [Theme] to [TemplateVariables]; [RoutesA] leaves them empty, which
    the JSON encoding omits. The lists of lexers and styles handed to
    the template are constants of the highlighting library and are
    left out. *)
Module DocumentResponse.
Record t := mk {
  Key : string;
  Version : Z;
  VersionLabel : string;
  VersionTime : string;
  Data : string;
  Formatted : string;
  CSS : string;
  Language : string;
  Token : string
}.
End DocumentResponse.

Module TemplateVariables.
Record t := mk {
  ID : string;
  Version : Z;
  Content : string;
  Formatted : string;
  CSS : string;
  Language : string;
  Versions : list DocumentVersion.t;
  Style : string;
  Theme : string;
  Host : string
}.
End TemplateVariables.

Module ErrorResponse.
Record t := mk {
  Message : error;
  Status : Z;
  Path : list string;
  RequestID : string
}.
End ErrorResponse.

(** What a handler writes to the response body. *)
Inductive Value :=
| VError (e : ErrorResponse.t)
| VDocument (d : DocumentResponse.t)
| VDocuments (ds : list DocumentResponse.t)
| VShare (token : string)                      (* ShareResponse *)
| VDelete (versions : Z)                       (* DeleteResponse *)
| VBytes (content : string)
| VTemplate (name : string) (vars : TemplateVariables.t)
| VErrorTemplate (e : ErrorResponse.t)
| VAsset (path : list string)                  (* http.FileServer *)
| VProfiler.                                   (* middleware.Profiler *)

Module RateLimitConfig.
Record t := mk { Requests : Z; Duration : Z }.
End RateLimitConfig.

Module Config.
Record t := mk {
  DevMode : bool;
  Debug : bool;
  ListenAddr : string;
  MaxDocumentSize : Z;
  RateLimit : option RateLimitConfig.t;      (* a pointer: nil when unset *)
  JWTSecret : string
}.
End Config.

Record Server := mkServer {
  version : string;
  cfg : Config.t;
  db : db.DB
}.

(** What a request meets outside of the program. *)
Record Env := mkEnv {
  Now : time.Time;                 (* time.Now() as read by the handler *)
  StoreNow : time.Time;            (* time.Now() as read by the store *)
  Local : time.Location;           (* time.Local *)
  randomID : string;               (* the id generated for a new document *)
  decodeShareRequest : string -> option (list Permission);
                                   (* encoding/json on a ShareRequest *)
  sign : Claims -> option string;  (* the jose.Signer *)
  verify : string -> option Claims;
  runeCount : string -> Z;         (* len([]rune(content)) *)
  lexersAnalyse : string -> option string;   (* name of the lexer found *)
  lexersGet : string -> option string;
  lexersFallback : string;
  stylesGet : string -> string;    (* name of the style, fallback applied *)
  highlight : string -> string -> string -> string -> option (string * string);
                                   (* lexer, style, formatter, content:
                                      the markup and its style sheet *)
  contextDone : bool;              (* r.Context().Done() is closed *)
  limitReached : bool              (* httprate's verdict on the request *)
}.

Definition Result : Type := http.ResponseWriter Value * db.DB.

Section Shared.

Variable E : Env.

(** Modelled from the spec: [GetClaims] is declared in jwt.go, which
    is missing; it returns the claims of the request's token, the
    empty claims when there is none. *)
Definition GetClaims (r : http.Request) : Claims := http.Claims r.

(** Modelled from the spec: [NewToken] is declared in jwt.go, which
    is missing. "issue(document_id, permissions) -> token", a signed
    assertion of {subject = document ID, permissions}. *)
Definition NewToken (documentID : string) (permissions : list Permission) : option string :=
  sign E (mkClaims documentID permissions).

Definition json (w : http.ResponseWriter Value) (r : http.Request) (v : Value) (status : Z)
    : http.ResponseWriter Value :=
  let w := http.SetHeader "Content-Type" "application/json" w in
  let w := http.WriteHeader status w in
  if bool_decide (http.Method r = http.MethodHead) then w
  else http.Write v w.

Definition ok (w : http.ResponseWriter Value) (r : http.Request) (v : Value) :=
  json w r v http.StatusOK.

(** [s.error]; the line written to the log is left out. *)
Definition error_ (w : http.ResponseWriter Value) (r : http.Request) (err : error) (status : Z) :=
  json w r (VError (ErrorResponse.mk err status (http.Path r) (http.RequestID r))) status.

Definition prettyError (w : http.ResponseWriter Value) (r : http.Request) (err : error) (status : Z) :=
  let w := http.WriteHeader status w in
  http.Write (VErrorTemplate (ErrorResponse.mk err status (http.Path r) (http.RequestID r))) w.

(** [http.Redirect(w, r, "/", http.StatusSeeOther)] *)
Definition redirectRoot (w : http.ResponseWriter Value) (r : http.Request) :=
  http.WriteHeader http.StatusSeeOther (http.SetHeader "Location" "/" w).

Definition unauthorized (w : http.ResponseWriter Value) (r : http.Request) :=
  error_ w r ErrUnauthorized http.StatusUnauthorized.

Definition documentNotFound (w : http.ResponseWriter Value) (r : http.Request) :=
  error_ w r ErrDocumentNotFound http.StatusNotFound.

Definition rateLimit (w : http.ResponseWriter Value) (r : http.Request) :=
  error_ w r ErrRateLimit http.StatusTooManyRequests.

(** [s.readBody]: the content read, [""] after an error was written *)
Definition readBody (w : http.ResponseWriter Value) (r : http.Request)
    : http.ResponseWriter Value * string :=
  match http.Body r with
  | None => (error_ w r ErrRead http.StatusInternalServerError, "")
  | Some content =>
      if bool_decide (String.length content = 0%nat)
      then (error_ w r ErrEmptyBody http.StatusBadRequest, "")
      else (w, content)
  end.

Definition exceedsMaxDocumentSize (s : Server) (w : http.ResponseWriter Value)
    (r : http.Request) (content : string) : http.ResponseWriter Value * bool :=
  if (0 <? Config.MaxDocumentSize (cfg s))
     && (Config.MaxDocumentSize (cfg s) <? runeCount E content)
  then (error_ w r (ErrContentTooLarge (Config.MaxDocumentSize (cfg s))) http.StatusBadRequest, true)
  else (w, false).

(** [fmt.Sprintf("%d <unit> ago", n)] *)
Definition ago (n : Z) (unit : string) : string :=
  strconv.Itoa n +:+ " " +:+ unit +:+ " ago".

Definition FormatDocumentVersion (now : time.Time) (versionRaw : Z) : string * string :=
  let version := time.Unix (Local E) versionRaw in
  let timeStr := time.Format version in
  if time.Year version <? time.Year now then
    (ago (time.Year now - time.Year version) "years", timeStr)
  else if time.Month version <? time.Month now then
    (ago (time.Month now - time.Month version) "months", timeStr)
  else if time.Day version <? time.Day now then
    (ago (time.Day now - time.Day version) "days", timeStr)
  else if time.Hour version <? time.Hour now then
    (ago (time.Hour now - time.Hour version) "hours", timeStr)
  else if time.Minute version <? time.Minute now then
    (ago (time.Minute now - time.Minute version) "minutes", timeStr)
  else
    (ago (time.Second now - time.Second version) "seconds", timeStr).

Definition DocumentVersions (s : Server) (r : http.Request) (w : http.ResponseWriter Value) : Result :=
  let documentID := http.URLParam r "documentID" in
  let withContent := bool_decide (http.assoc "withData" (http.Query r) = "true") in
  let versions := db.GetDocumentVersions (db s) documentID withContent in
  if bool_decide (List.length versions = 0%nat) then (documentNotFound w r, db s)
  else
    let response :=
      (fun version =>
         DocumentResponse.mk "" (db.Version version) "" "" (db.Content version)
                             "" "" (db.Language version) "") <$> versions in
    (ok w r (VDocuments response), db s).

(** The same text in both snapshots. The two loops over the requested
    permissions return at the first permission that fails the test. *)
Definition PostDocumentShare (s : Server) (r : http.Request) (w : http.ResponseWriter Value) : Result :=
  let documentID := http.URLParam r "documentID" in
  match http.Body r ≫= decodeShareRequest E with
  | None => (error_ w r ErrDecode http.StatusBadRequest, db s)
  | Some permissions =>
      if bool_decide (List.length permissions = 0%nat) then
        (error_ w r ErrNoPermissions http.StatusBadRequest, db s)
      else
        match List.find (fun permission => negb (IsValid permission)) permissions with
        | Some permission =>
            (error_ w r (ErrUnknownPermission permission) http.StatusBadRequest, db s)
        | None =>
            let claims := GetClaims r in
            if negb (bool_decide (Subject claims = documentID))
               || negb (Contains (Permissions claims) PermissionShare)
            then (documentNotFound w r, db s)
            else
              match List.find (fun permission =>
                                 negb (Contains (Permissions claims) permission))
                              permissions with
              | Some permission =>
                  (error_ w r (ErrPermissionDenied permission) http.StatusForbidden, db s)
              | None =>
                  match NewToken documentID permissions with
                  | None => (error_ w r ErrSign http.StatusInternalServerError, db s)
                  | Some token => (ok w r (VShare token), db s)
                  end
              end
        end
  end.

Definition GetVersion (s : Server) (r : http.Request) (w : http.ResponseWriter Value) : Result :=
  (http.Write (VBytes (version s)) w, db s).

(** The body of [GetRawDocument] and [GetRawDocumentVersion] once the
    document is found. *)
Definition writeRaw (r : http.Request) (w : http.ResponseWriter Value) (content : string)
    : http.ResponseWriter Value :=
  let w := http.SetHeader "Content-Type" "text/plain; charset=UTF-8" w in
  if bool_decide (http.Method r = http.MethodHead) then
    http.WriteHeader http.StatusOK
      (http.SetHeader "Content-Length" (strconv.Itoa (Z.of_nat (String.length content))) w)
  else http.Write (VBytes content) w.

(** The loop of [GetPrettyDocument] over the versions of the document. *)
Definition versionLabels (now : time.Time) (documents : list db.Document)
    : list DocumentVersion.t :=
  (fun documentVersion =>
     let '(label, timeStr) := FormatDocumentVersion now (db.Version documentVersion) in
     DocumentVersion.mk (db.Version documentVersion) label timeStr) <$> documents.

(** *** The router and the middleware in front of the handlers *)

(** A segment of a route pattern: a literal or a [{parameter}]. *)
Inductive Seg := Lit (s : string) | Par (name : string).

Fixpoint bind (pattern : list Seg) (path : list string) : option (list (string * string)) :=
  match pattern, path with
  | [], [] => Some []
  | Lit s :: pattern', x :: path' =>
      if bool_decide (s = x) then bind pattern' path' else None
  | Par name :: pattern', x :: path' =>
      (fun ps => (name, x) :: ps) <$> bind pattern' path'
  | _, _ => None
  end.

Inductive Route (H : Type) :=
| Found (h : H) (params : list (string * string))
| MethodNotAllowed
| NoRoute.
Arguments Found {H}.
Arguments MethodNotAllowed {H}.
Arguments NoRoute {H}.

(** The first entry whose pattern binds the path and that serves the
    method; when patterns bind the path but none serves the method,
    the method is not allowed. *)
Fixpoint findRoute {H} (table : list (list string * list Seg * H))
    (method : string) (path : list string) (bound : bool) : Route H :=
  match table with
  | [] => if bound then MethodNotAllowed else NoRoute
  | (methods, pattern, h) :: table' =>
      match bind pattern path with
      | Some ps =>
          if bool_decide (method ∈ methods) then Found h ps
          else findRoute table' method path true
      | None => findRoute table' method path bound
      end
  end.

(** The two conditions of [Routes] on the rate limiter: it is
    installed when the configuration has a budget and a window, and
    [middleware.Maybe] hands it the POST, PATCH and DELETE requests. *)
Definition rateLimiterInstalled (s : Server) : bool :=
  match Config.RateLimit (cfg s) with
  | Some rl => (0 <? RateLimitConfig.Requests rl) && (0 <? RateLimitConfig.Duration rl)
  | None => false
  end.

Definition rateLimited (r : http.Request) : bool :=
  bool_decide (http.Method r = http.MethodPost)
  || bool_decide (http.Method r = http.MethodPatch)
  || bool_decide (http.Method r = http.MethodDelete).

(** [middleware.Heartbeat("/ping")] *)
Definition isHeartbeat (r : http.Request) : bool :=
  (bool_decide (http.Method r = http.MethodGet) || bool_decide (http.Method r = http.MethodHead))
  && bool_decide (http.Path r = ["ping"]).

(** Modelled from the spec: [JWTMiddleware] is declared in jwt.go,
    which is missing. "verify(token) -> claims | AuthError"; "a
    missing/absent token verifies to an empty-claims object (not an
    error)". The claims are handed to the next handler in the
    request; a token that does not verify ends the request, in the
    model with [unauthorized], the one helper of routes.go that no
    handler of routes.go calls. *)
Definition JWTMiddleware (r : http.Request) (w : http.ResponseWriter Value) (s : Server)
    (next : http.Request -> http.ResponseWriter Value -> Result) : Result :=
  let tokenString := http.assoc "Authorization" (http.Header r) in
  if bool_decide (tokenString = "") then next (http.withClaims r EmptyClaims) w
  else
    match verify E tokenString with
    | Some claims => next (http.withClaims r claims) w
    | None => (unauthorized w r, db s)
    end.

(** The chain of [r.Use] in [Routes], the same in both snapshots, in
    front of the dispatch [mux] of the snapshot. RealIP, RequestID,
    Timeout, Compress, Logger, Recoverer (and CleanPath) neither
    answer a request nor choose its handler and are left out. *)
Definition middlewares (s : Server) (r : http.Request) (w : http.ResponseWriter Value)
    (mux : http.Request -> http.ResponseWriter Value -> Result) : Result :=
  if isHeartbeat r then
    (http.Write (VBytes ".") (http.WriteHeader http.StatusOK
        (http.SetHeader "Content-Type" "text/plain" w)), db s)
  else
    JWTMiddleware r w s (fun r w =>
      if rateLimiterInstalled s && rateLimited r then
        if limitReached E then (rateLimit w r, db s) else mux r w
      else mux r w).

End Shared.

Arguments Found {H}.
Arguments MethodNotAllowed {H}.
Arguments NoRoute {H}.

End gobin.

(* ===================================================================== *)
(** ** [RoutesA]: src/gobin/routes.go *)
(* ===================================================================== *)

Module RoutesA.

Import Tokens gobin.

Section Handlers.

Variable E : Env.

Definition parseDocumentVersion (r : http.Request) (w : http.ResponseWriter Value)
    : http.ResponseWriter Value * (string * Z) :=
  let documentID := http.URLParam r "documentID" in
  let version := http.URLParam r "version" in
  if bool_decide (documentID = "") || bool_decide (version = "") then
    (documentNotFound w r, ("", -1))
  else
    match strconv.ParseInt version with
    | inl _ => (documentNotFound w r, ("", -1))
    | inr int64Version => (w, (documentID, int64Version))
    end.

Definition GetDocumentVersion (s : Server) (r : http.Request) (w : http.ResponseWriter Value) : Result :=
  let '(w, (documentID, version)) := parseDocumentVersion r w in
  if bool_decide (documentID = "") then (w, db s)
  else
    match db.GetDocumentVersion (db s) documentID version with
    | inl db.ErrNoRows => (documentNotFound w r, db s)
    | inl e => (error_ w r (ErrStore e) http.StatusInternalServerError, db s)
    | inr document =>
        (ok w r (VDocument (DocumentResponse.mk (db.ID document) (db.Version document) "" ""
                              (db.Content document) "" "" (db.Language document) "")), db s)
    end.

(** This snapshot calls [DeleteDocumentByVersion(ctx, version,
    documentID)]; the store of the model takes the id first. *)
Definition DeleteDocumentVersion (s : Server) (r : http.Request) (w : http.ResponseWriter Value) : Result :=
  let '(w, (documentID, version)) := parseDocumentVersion r w in
  if bool_decide (documentID = "") then (w, db s)
  else
    match db.DeleteDocumentByVersion (db s) documentID version with
    | inl db.ErrNoRows => (documentNotFound w r, db s)
    | inl e => (error_ w r (ErrStore e) http.StatusInternalServerError, db s)
    | inr st =>
        let count := db.GetVersionCount st documentID in
        (ok w r (VDelete count), st)
    end.

Definition GetRawDocumentVersion (s : Server) (r : http.Request) (w : http.ResponseWriter Value) : Result :=
  let '(w, (documentID, version)) := parseDocumentVersion r w in
  if bool_decide (documentID = "") then (w, db s)
  else
    match db.GetDocumentVersion (db s) documentID version with
    | inl db.ErrNoRows => (documentNotFound w r, db s)
    | inl e => (error_ w r (ErrStore e) http.StatusInternalServerError, db s)
    | inr document => (writeRaw r w (db.Content document), db s)
    end.

(** [s.getDocument]: the document, or [None] for the nil pointer
    returned after an error was written. *)
Definition getDocument (s : Server) (r : http.Request) (w : http.ResponseWriter Value)
    : http.ResponseWriter Value * option db.Document :=
  let documentID := http.URLParam r "documentID" in
  if bool_decide (documentID = "") then (w, Some db.zeroDocument)
  else
    match db.GetDocument (db s) documentID with
    | inl db.ErrNoRows => (documentNotFound w r, None)
    | inl e => (error_ w r (ErrStore e) http.StatusInternalServerError, None)
    | inr document => (w, Some document)
    end.

Definition GetPrettyDocument (s : Server) (r : http.Request) (w : http.ResponseWriter Value) : Result :=
  let documentID := http.URLParam r "documentID" in
  let found :=
    if bool_decide (documentID = "") then inr (db.zeroDocument, [])
    else
      match db.GetDocument (db s) documentID with
      | inl e => inl e
      | inr document => inr (document, db.GetDocumentVersions (db s) documentID false)
      end in
  match found with
  | inl db.ErrNoRows => (redirectRoot w r, db s)
  | inl e => (prettyError w r (ErrStore e) http.StatusInternalServerError, db s)
  | inr (document, documents) =>
      let w := http.WriteHeader http.StatusOK w in
      if bool_decide (http.Method r = http.MethodHead) then (w, db s)
      else
        let versions := versionLabels E (Now E) documents in
        let vars :=
          TemplateVariables.mk (db.ID document) (db.Version document) (db.Content document)
            "" "" (db.Language document) versions "" "" (http.Host r) in
        (http.Write (VTemplate "document.gohtml" vars) w, db s)
  end.

Definition GetRawDocument (s : Server) (r : http.Request) (w : http.ResponseWriter Value) : Result :=
  match getDocument s r w with
  | (w, None) => (w, db s)
  | (w, Some document) => (writeRaw r w (db.Content document), db s)
  end.

Definition GetDocument (s : Server) (r : http.Request) (w : http.ResponseWriter Value) : Result :=
  match getDocument s r w with
  | (w, None) => (w, db s)
  | (w, Some document) =>
      let w := http.WriteHeader http.StatusOK w in
      if bool_decide (http.Method r = http.MethodHead) then (w, db s)
      else
        (ok w r (VDocument (DocumentResponse.mk (db.ID document) (db.Version document) "" ""
                              (db.Content document) "" "" (db.Language document) "")), db s)
  end.

Definition PostDocument (s : Server) (r : http.Request) (w : http.ResponseWriter Value) : Result :=
  let language := http.assoc "Language" (http.Header r) in
  let '(w, content) := readBody w r in
  if bool_decide (content = "") then (w, db s)
  else
    let '(w, exceeds) := exceedsMaxDocumentSize E s w r content in
    if exceeds then (w, db s)
    else
      match db.CreateDocument (db s) (randomID E) (StoreNow E) content language with
      | inl e => (error_ w r (ErrStore e) http.StatusInternalServerError, db s)
      | inr (document, st) =>
          match NewToken E (db.ID document)
                  [PermissionWrite; PermissionDelete; PermissionShare] with
          | None => (error_ w r ErrSign http.StatusInternalServerError, st)
          | Some token =>
              let '(versionLabel, versionTime) :=
                FormatDocumentVersion E (Now E) (db.Version document) in
              (ok w r (VDocument (DocumentResponse.mk (db.ID document) (db.Version document)
                                    versionLabel versionTime "" "" "" "" token)), st)
          end
      end.

Definition PatchDocument (s : Server) (r : http.Request) (w : http.ResponseWriter Value) : Result :=
  let documentID := http.URLParam r "documentID" in
  let language := http.assoc "Language" (http.Header r) in
  let claims := GetClaims r in
  if negb (bool_decide (Subject claims = documentID))
     || negb (Contains (Permissions claims) PermissionWrite)
  then (documentNotFound w r, db s)
  else
    let '(w, content) := readBody w r in
    if bool_decide (content = "") then (w, db s)
    else
      let '(w, exceeds) := exceedsMaxDocumentSize E s w r content in
      if exceeds then (w, db s)
      else
        match db.UpdateDocument (db s) documentID (StoreNow E) content language with
        | inl db.ErrNoRows => (documentNotFound w r, db s)
        | inl e => (error_ w r (ErrStore e) http.StatusInternalServerError, db s)
        | inr (document, st) =>
            let '(versionLabel, versionTime) :=
              FormatDocumentVersion E (Now E) (db.Version document) in
            (ok w r (VDocument (DocumentResponse.mk (db.ID document) (db.Version document)
                                  versionLabel versionTime "" "" "" "" "")), st)
        end.

Definition DeleteDocument (s : Server) (r : http.Request) (w : http.ResponseWriter Value) : Result :=
  let documentID := http.URLParam r "documentID" in
  let claims := GetClaims r in
  if negb (bool_decide (Subject claims = documentID))
     || negb (Contains (Permissions claims) PermissionDelete)
  then (documentNotFound w r, db s)
  else
    match db.DeleteDocument (db s) documentID with
    | inl db.ErrNoRows => (documentNotFound w r, db s)
    | inl e => (error_ w r (ErrStore e) http.StatusInternalServerError, db s)
    | inr st => (http.WriteHeader http.StatusNoContent w, st)
    end.

(** The handlers [Routes] registers; the file server and the profiler
    are library handlers. *)
Inductive Handler :=
| HAssets | HProfiler
| HGetRawDocument | HGetRawDocumentVersion
| HPostDocument | HGetDocument | HPatchDocument | HDeleteDocument
| HPostDocumentShare | HDocumentVersions
| HGetDocumentVersion | HDeleteDocumentVersion
| HGetVersion | HGetPrettyDocument.

(** The routes registered by [Routes], by mount point. *)
Definition documentsRoutes : list (list string * list Seg * Handler) :=
  [ (["POST"], [], HPostDocument);
    (["GET"], [Par "documentID"], HGetDocument);
    (["PATCH"], [Par "documentID"], HPatchDocument);
    (["DELETE"], [Par "documentID"], HDeleteDocument);
    (["POST"], [Par "documentID"; Lit "share"], HPostDocumentShare);
    (["GET"], [Par "documentID"; Lit "versions"], HDocumentVersions);
    (["GET"], [Par "documentID"; Lit "versions"; Par "version"], HGetDocumentVersion);
    (["DELETE"], [Par "documentID"; Lit "versions"; Par "version"], HDeleteDocumentVersion) ].

Definition rawRoutes : list (list string * list Seg * Handler) :=
  [ (["GET"; "HEAD"], [Par "documentID"], HGetRawDocument);
    (["GET"; "HEAD"], [Par "documentID"; Lit "versions"; Par "version"], HGetRawDocumentVersion) ].

Definition rootRoutes : list (list string * list Seg * Handler) :=
  [ (["GET"], [Lit "version"], HGetVersion);
    (["GET"; "HEAD"], [Par "documentID"], HGetPrettyDocument);
    (["GET"; "HEAD"], [], HGetPrettyDocument) ].

Definition route (s : Server) (r : http.Request) : Route Handler :=
  match http.Path r with
  | first :: rest =>
      if bool_decide (first = "debug") && Config.Debug (cfg s) then Found HProfiler []
      else if bool_decide (first = "assets") then Found HAssets []
      else if bool_decide (first = "documents") then
        findRoute documentsRoutes (http.Method r) rest false
      else if bool_decide (first = "raw") && negb (bool_decide (rest = [])) then
        findRoute rawRoutes (http.Method r) rest false
      else findRoute rootRoutes (http.Method r) (http.Path r) false
  | [] => findRoute rootRoutes (http.Method r) [] false
  end.

Definition serve (h : Handler) (s : Server) (r : http.Request) (w : http.ResponseWriter Value) : Result :=
  match h with
  | HAssets => (http.Write (VAsset (http.Path r)) w, db s)
  | HProfiler => (http.Write VProfiler w, db s)
  | HGetRawDocument => GetRawDocument s r w
  | HGetRawDocumentVersion => GetRawDocumentVersion s r w
  | HPostDocument => PostDocument s r w
  | HGetDocument => GetDocument s r w
  | HPatchDocument => PatchDocument s r w
  | HDeleteDocument => DeleteDocument s r w
  | HPostDocumentShare => PostDocumentShare E s r w
  | HDocumentVersions => DocumentVersions s r w
  | HGetDocumentVersion => GetDocumentVersion s r w
  | HDeleteDocumentVersion => DeleteDocumentVersion s r w
  | HGetVersion => GetVersion s r w
  | HGetPrettyDocument => GetPrettyDocument s r w
  end.

Definition mux (s : Server) (r : http.Request) (w : http.ResponseWriter Value) : Result :=
  match route s r with
  | Found h params => serve h s (http.withParams r params) w
  | MethodNotAllowed => (http.WriteHeader http.StatusMethodNotAllowed w, db s)
  | NoRoute => (redirectRoot w r, db s)        (* r.NotFound(s.redirectRoot) *)
  end.

Definition Routes (s : Server) (r : http.Request) : Result :=
  middlewares E s r http.newWriter (mux s).

End Handlers.

End RoutesA.

(* ===================================================================== *)
(** ** [RoutesB]: the routes.go kept in src/cmd/version.go *)
(* ===================================================================== *)

Module RoutesB.

Import Tokens gobin.

Section Handlers.

Variable E : Env.

(** 0 when the route has no version, -1 after an error was written *)
Definition parseDocumentVersion (r : http.Request) (w : http.ResponseWriter Value)
    : http.ResponseWriter Value * Z :=
  let version := http.URLParam r "version" in
  if bool_decide (version = "") then (w, 0)
  else
    match strconv.ParseInt version with
    | inl _ => (documentNotFound w r, -1)
    | inr int64Version => (w, int64Version)
    end.

(** Defined in the file, not registered by [Routes]. *)
Definition GetDocumentVersion (s : Server) (r : http.Request) (w : http.ResponseWriter Value) : Result :=
  let documentID := http.URLParam r "documentID" in
  let '(w, version) := parseDocumentVersion r w in
  if bool_decide (version = -1) then (w, db s)
  else
    match db.GetDocumentVersion (db s) documentID version with
    | inl db.ErrNoRows => (documentNotFound w r, db s)
    | inl e => (error_ w r (ErrStore e) http.StatusInternalServerError, db s)
    | inr document =>
        (ok w r (VDocument (DocumentResponse.mk (db.ID document) (db.Version document) "" ""
                              (db.Content document) "" "" (db.Language document) "")), db s)
    end.

(** [s.renderDocument]: markup, style sheet, language and style name,
    [None] when the highlighting library fails. *)
Definition renderDocument (r : http.Request) (document : db.Document) (formatterName : string)
    : option (string * string * string * string) :=
  let styleName := http.assoc "style" (http.Cookies r) in
  let languageName := db.Language document in
  let style := stylesGet E styleName in
  let lexer :=
    match lexersGet E languageName with
    | Some lexer => lexer
    | None => lexersFallback E
    end in
  match highlight E lexer style formatterName (db.Content document) with
  | None => None
  | Some (formatted, css) =>
      let language := if bool_decide (db.ID document = "") then "auto" else lexer in
      Some (formatted, css, language, style)
  end.

(** The lexer chosen by [PostDocument] and [PatchDocument] for the
    [Language] header and the content; its name is what is stored. *)
Definition lexerFor (language content : string) : string :=
  let lexer :=
    if bool_decide (language = "auto") || bool_decide (language = "")
    then lexersAnalyse E content
    else lexersGet E language in
  match lexer with
  | Some lexer => lexer
  | None => lexersFallback E
  end.

Definition getDocument (s : Server) (r : http.Request) (w : http.ResponseWriter Value)
    : http.ResponseWriter Value * option db.Document :=
  let documentID := http.URLParam r "documentID" in
  if bool_decide (documentID = "") then (w, Some db.zeroDocument)
  else
    let '(w, version) := parseDocumentVersion r w in
    if bool_decide (version = -1) then (w, None)
    else
      let found :=
        if bool_decide (version = 0) then db.GetDocument (db s) documentID
        else db.GetDocumentVersion (db s) documentID version in
      match found with
      | inl db.ErrNoRows => (documentNotFound w r, None)
      | inl e => (error_ w r (ErrStore e) http.StatusInternalServerError, None)
      | inr document => (w, Some document)
      end.

Definition GetPrettyDocument (s : Server) (r : http.Request) (w : http.ResponseWriter Value) : Result :=
  let documentID := http.URLParam r "documentID" in
  let '(w, version) := parseDocumentVersion r w in
  if bool_decide (version = -1) then (w, db s)
  else
    let found :=
      if bool_decide (documentID = "") then inr (db.zeroDocument, [])
      else
        match (if bool_decide (version = 0) then db.GetDocument (db s) documentID
               else db.GetDocumentVersion (db s) documentID version) with
        | inl e => inl e
        | inr document => inr (document, db.GetDocumentVersions (db s) documentID false)
        end in
    match found with
    | inl db.ErrNoRows => (redirectRoot w r, db s)
    | inl e => (prettyError w r (ErrStore e) http.StatusInternalServerError, db s)
    | inr (document, documents) =>
        let w := http.WriteHeader http.StatusOK w in
        if bool_decide (http.Method r = http.MethodHead) then (w, db s)
        else
          let versions := versionLabels E (Now E) documents in
          match renderDocument r document "html" with
          | None => (prettyError w r ErrHighlight http.StatusInternalServerError, db s)
          | Some (formatted, css, language, style) =>
              let themeCookie := http.assoc "theme" (http.Cookies r) in
              let theme := if bool_decide (themeCookie = "") then "dark" else themeCookie in
              let vars :=
                TemplateVariables.mk (db.ID document) (db.Version document)
                  (db.Content document) formatted css language versions style theme
                  (http.Host r) in
              (http.Write (VTemplate "document.gohtml" vars) w, db s)
          end
    end.

Definition GetRawDocument (s : Server) (r : http.Request) (w : http.ResponseWriter Value) : Result :=
  match getDocument s r w with
  | (w, None) => (w, db s)
  | (w, Some document) => (writeRaw r w (db.Content document), db s)
  end.

Definition GetDocument (s : Server) (r : http.Request) (w : http.ResponseWriter Value) : Result :=
  match getDocument s r w with
  | (w, None) => (w, db s)
  | (w, Some document) =>
      let w := http.WriteHeader http.StatusOK w in
      if bool_decide (http.Method r = http.MethodHead) then (w, db s)
      else
        let render := http.assoc "render" (http.Query r) in
        let queryLanguage := http.assoc "language" (http.Query r) in
        let rendered :=
          if bool_decide (render = "") then Some ("", "", "", "")
          else
            let document :=
              if bool_decide (queryLanguage = "") then document
              else db.mkDocument (db.ID document) (db.Version document)
                                 (db.Content document) queryLanguage in
            renderDocument r document render in
        match rendered with
        | None => (error_ w r ErrHighlight http.StatusInternalServerError, db s)
        | Some (formatted, css, language, _) =>
            let version :=
              if bool_decide (http.URLParam r "version" = "") then 0
              else db.Version document in
            (ok w r (VDocument (DocumentResponse.mk (db.ID document) version "" ""
                                  (db.Content document) formatted css language "")), db s)
        end
  end.

Definition PostDocument (s : Server) (r : http.Request) (w : http.ResponseWriter Value) : Result :=
  let language := http.assoc "Language" (http.Header r) in
  let '(w, content) := readBody w r in
  if bool_decide (content = "") then (w, db s)
  else if contextDone E then (w, db s)
  else
    let '(w, exceeds) := exceedsMaxDocumentSize E s w r content in
    if exceeds then (w, db s)
    else
      match db.CreateDocument (db s) (randomID E) (StoreNow E) content
              (lexerFor language content) with
      | inl e => (error_ w r (ErrStore e) http.StatusInternalServerError, db s)
      | inr (document, st) =>
          let render := http.assoc "render" (http.Query r) in
          let rendered :=
            if bool_decide (render = "") then Some ("", "", "", "", "")
            else
              match renderDocument r document render with
              | None => None
              | Some (formatted, css, finalLanguage, _) =>
                  Some (db.Content document, formatted, css, finalLanguage, "")
              end in
          match rendered with
          | None => (error_ w r ErrHighlight http.StatusInternalServerError, st)
          | Some (data, formatted, css, finalLanguage, _) =>
              match NewToken E (db.ID document)
                      [PermissionWrite; PermissionDelete; PermissionShare] with
              | None => (error_ w r ErrSign http.StatusInternalServerError, st)
              | Some token =>
                  let '(versionLabel, versionTime) :=
                    FormatDocumentVersion E (Now E) (db.Version document) in
                  (ok w r (VDocument (DocumentResponse.mk (db.ID document)
                                        (db.Version document) versionLabel versionTime
                                        data formatted css finalLanguage token)), st)
              end
          end
      end.

Definition PatchDocument (s : Server) (r : http.Request) (w : http.ResponseWriter Value) : Result :=
  let documentID := http.URLParam r "documentID" in
  let language := http.assoc "Language" (http.Header r) in
  let claims := GetClaims r in
  if negb (bool_decide (Subject claims = documentID))
     || negb (Contains (Permissions claims) PermissionWrite)
  then (documentNotFound w r, db s)
  else
    let '(w, content) := readBody w r in
    if contextDone E then (w, db s)
    else if bool_decide (content = "") then (w, db s)
    else
      let '(w, exceeds) := exceedsMaxDocumentSize E s w r content in
      if exceeds then (w, db s)
      else
        match db.UpdateDocument (db s) documentID (StoreNow E) content
                (lexerFor language content) with
        | inl db.ErrNoRows => (documentNotFound w r, db s)
        | inl e => (error_ w r (ErrStore e) http.StatusInternalServerError, db s)
        | inr (document, st) =>
            let render := http.assoc "render" (http.Query r) in
            let rendered :=
              if bool_decide (render = "") then Some ("", "", "", "", "")
              else
                match renderDocument r document render with
                | None => None
                | Some (formatted, css, finalLanguage, _) =>
                    Some (db.Content document, formatted, css, finalLanguage, "")
                end in
            match rendered with
            | None => (error_ w r ErrHighlight http.StatusInternalServerError, st)
            | Some (data, formatted, css, finalLanguage, _) =>
                let '(versionLabel, versionTime) :=
                  FormatDocumentVersion E (Now E) (db.Version document) in
                (ok w r (VDocument (DocumentResponse.mk (db.ID document)
                                      (db.Version document) versionLabel versionTime
                                      data formatted css finalLanguage "")), st)
            end
        end.

Definition DeleteDocument (s : Server) (r : http.Request) (w : http.ResponseWriter Value) : Result :=
  let documentID := http.URLParam r "documentID" in
  let '(w, version) := parseDocumentVersion r w in
  if bool_decide (version = -1) then (w, db s)
  else
    let claims := GetClaims r in
    if negb (bool_decide (Subject claims = documentID))
       || negb (Contains (Permissions claims) PermissionDelete)
    then (documentNotFound w r, db s)
    else
      let deleted :=
        if bool_decide (version = 0) then db.DeleteDocument (db s) documentID
        else db.DeleteDocumentByVersion (db s) documentID version in
      match deleted with
      | inl db.ErrNoRows => (documentNotFound w r, db s)
      | inl e => (error_ w r (ErrStore e) http.StatusInternalServerError, db s)
      | inr st =>
          let w := if bool_decide (version = 0)
                   then http.WriteHeader http.StatusNoContent w else w in
          let count := db.GetVersionCount st documentID in
          (ok w r (VDelete count), st)
      end.

(** The handlers [Routes] registers; the file server and the profiler
    are library handlers. *)
Inductive Handler :=
| HAssets | HProfiler
| HGetRawDocument
| HPostDocument | HGetDocument | HPatchDocument | HDeleteDocument
| HPostDocumentShare | HDocumentVersions
| HGetVersion | HGetPrettyDocument.

(** The routes registered by [Routes], by mount point. *)
Definition documentsRoutes : list (list string * list Seg * Handler) :=
  [ (["POST"], [], HPostDocument);
    (["GET"], [Par "documentID"], HGetDocument);
    (["PATCH"], [Par "documentID"], HPatchDocument);
    (["DELETE"], [Par "documentID"], HDeleteDocument);
    (["POST"], [Par "documentID"; Lit "share"], HPostDocumentShare);
    (["GET"], [Par "documentID"; Lit "versions"], HDocumentVersions);
    (["GET"], [Par "documentID"; Lit "versions"; Par "version"], HGetDocument);
    (["DELETE"], [Par "documentID"; Lit "versions"; Par "version"], HDeleteDocument) ].

Definition rawRoutes : list (list string * list Seg * Handler) :=
  [ (["GET"; "HEAD"], [Par "documentID"], HGetRawDocument);
    (["GET"; "HEAD"], [Par "documentID"; Lit "versions"; Par "version"], HGetRawDocument) ].

Definition rootRoutes : list (list string * list Seg * Handler) :=
  [ (["GET"], [Lit "version"], HGetVersion);
    (["GET"; "HEAD"], [Par "documentID"], HGetPrettyDocument);
    (["GET"; "HEAD"], [Par "documentID"; Par "version"], HGetPrettyDocument);
    (["GET"; "HEAD"], [], HGetPrettyDocument) ].

Definition route (s : Server) (r : http.Request) : Route Handler :=
  match http.Path r with
  | first :: rest =>
      if bool_decide (first = "debug") && Config.Debug (cfg s) then Found HProfiler []
      else if bool_decide (first = "assets") then Found HAssets []
      else if bool_decide (first = "documents") then
        findRoute documentsRoutes (http.Method r) rest false
      else if bool_decide (first = "raw") && negb (bool_decide (rest = [])) then
        findRoute rawRoutes (http.Method r) rest false
      else findRoute rootRoutes (http.Method r) (http.Path r) false
  | [] => findRoute rootRoutes (http.Method r) [] false
  end.

Definition serve (h : Handler) (s : Server) (r : http.Request) (w : http.ResponseWriter Value) : Result :=
  match h with
  | HAssets => (http.Write (VAsset (http.Path r)) w, db s)
  | HProfiler => (http.Write VProfiler w, db s)
  | HGetRawDocument => GetRawDocument s r w
  | HPostDocument => PostDocument s r w
  | HGetDocument => GetDocument s r w
  | HPatchDocument => PatchDocument s r w
  | HDeleteDocument => DeleteDocument s r w
  | HPostDocumentShare => PostDocumentShare E s r w
  | HDocumentVersions => DocumentVersions s r w
  | HGetVersion => GetVersion s r w
  | HGetPrettyDocument => GetPrettyDocument s r w
  end.

(** [r.NotFound(s.redirectRoot)] is commented out in this snapshot:
    the router answers an unknown path itself. *)
Definition mux (s : Server) (r : http.Request) (w : http.ResponseWriter Value) : Result :=
  match route s r with
  | Found h params => serve h s (http.withParams r params) w
  | MethodNotAllowed => (http.WriteHeader http.StatusMethodNotAllowed w, db s)
  | NoRoute =>
      (http.Write (VBytes "404 page not found") (http.WriteHeader http.StatusNotFound w), db s)
  end.

Definition Routes (s : Server) (r : http.Request) : Result :=
  middlewares E s r http.newWriter (mux s).

End Handlers.

End RoutesB.

(* ===================================================================== *)
(** ** Vocabulary of the statements, and sample requests *)
(* ===================================================================== *)

Module Spec.

Import Tokens gobin.

(** The operations behind the authorization gate, and the permission
    each requires. *)
Inductive Mutation := MUpdate | MDelete | MShare.

Definition required (m : Mutation) : Permission :=
  match m with
  | MUpdate => PermissionWrite
  | MDelete => PermissionDelete
  | MShare => PermissionShare
  end.

(** claims.subject == id AND p ∈ claims.permissions *)
Definition holds (r : http.Request) (p : Permission) : Prop :=
  Subject (http.Claims r) = http.URLParam r "documentID"
  ∧ p ∈ Permissions (http.Claims r).

(** The permission set a share request names, when its body decodes. *)
Definition requested (E : Env) (r : http.Request) : option (list Permission) :=
  http.Body r ≫= decodeShareRequest E.

(** The body decodes to a non-empty list of permissions of the
    enumeration. *)
Definition validShareBody (E : Env) (r : http.Request) : Prop :=
  ∃ permissions,
    requested E r = Some permissions ∧ permissions ≠ []
    ∧ Forall (fun p => IsValid p = true) permissions.

(** The body is malformed, names no permission, or names a permission
    outside of the enumeration. *)
Definition invalidShareBody (E : Env) (r : http.Request) : Prop :=
  match requested E r with
  | None => True
  | Some permissions =>
      permissions = [] ∨ Exists (fun p => IsValid p = false) permissions
  end.

(** The handler of a mutation in [RoutesA]. *)
Definition handlerA (E : Env) (m : Mutation)
    : Server -> http.Request -> http.ResponseWriter Value -> Result :=
  match m with
  | MUpdate => RoutesA.PatchDocument E
  | MDelete => RoutesA.DeleteDocument
  | MShare => PostDocumentShare E
  end.

(** The share handler validates the body before it looks at the
    claims; the other two handlers look at the claims first. *)
Definition bodyChecked (E : Env) (m : Mutation) (r : http.Request) : Prop :=
  m = MShare -> validShareBody E r.

(** What the handler of a mutation does once the gate is passed: the
    update reads the body and hands it to the store, the delete asks the
    store to delete the document, the share goes on to compare the
    requested permissions with the ones held. *)
Definition proceedsA (E : Env) (m : Mutation) (s : Server) (r : http.Request)
    (w : http.ResponseWriter Value) : Prop :=
  let id := http.URLParam r "documentID" in
  match m with
  | MUpdate =>
      ∀ content,
        http.Body r = Some content → content ≠ "" →
        (exceedsMaxDocumentSize E s w r content).2 = false →
        RoutesA.PatchDocument E s r w =
          match db.UpdateDocument (db s) id (StoreNow E) content
                  (http.assoc "Language" (http.Header r)) with
          | inl db.ErrNoRows => (documentNotFound w r, db s)
          | inl e => (error_ w r (ErrStore e) http.StatusInternalServerError, db s)
          | inr (document, st) =>
              (ok w r (VDocument
                 (DocumentResponse.mk (db.ID document) (db.Version document)
                    (FormatDocumentVersion E (Now E) (db.Version document)).1
                    (FormatDocumentVersion E (Now E) (db.Version document)).2
                    "" "" "" "" "")), st)
          end
  | MDelete =>
      RoutesA.DeleteDocument s r w =
        match db.DeleteDocument (db s) id with
        | inl db.ErrNoRows => (documentNotFound w r, db s)
        | inl e => (error_ w r (ErrStore e) http.StatusInternalServerError, db s)
        | inr st => (http.WriteHeader http.StatusNoContent w, st)
        end
  | MShare =>
      ∀ permissions,
        requested E r = Some permissions →
        (∃ p, p ∈ permissions ∧ (p ∉ Permissions (http.Claims r))
              ∧ PostDocumentShare E s r w
                = (error_ w r (ErrPermissionDenied p) http.StatusForbidden, db s))
        ∨ (permissions ⊆ Permissions (http.Claims r)
           ∧ PostDocumentShare E s r w =
               match sign E (mkClaims id permissions) with
               | Some token => (ok w r (VShare token), db s)
               | None => (error_ w r ErrSign http.StatusInternalServerError, db s)
               end)
  end.

(** The version of the request is there and is no integer of 64 bits. *)
Definition malformedVersion (r : http.Request) : Prop :=
  http.URLParam r "version" ≠ ""
  ∧ ∃ e, strconv.ParseInt (http.URLParam r "version") = inl e.

(** The request has no version, or the version 0. *)
Definition versionZero (r : http.Request) : Prop :=
  http.URLParam r "version" = ""
  ∨ strconv.ParseInt (http.URLParam r "version") = inr 0.

(** The wall clock read by the store is past the epoch. *)
Definition clockPlausible (E : Env) : Prop := 0 < time.unixSec (StoreNow E).

(** No row of the table has the version 0. *)
Definition noVersionZero (st : db.DB) : Prop := ∀ id, st !! (id, 0) = None.

(** The status codes the handlers and the router answer with. *)
Definition answers : list Z :=
  [http.StatusOK; http.StatusNoContent; http.StatusSeeOther; http.StatusBadRequest;
   http.StatusUnauthorized; http.StatusForbidden; http.StatusNotFound;
   http.StatusMethodNotAllowed; http.StatusInternalServerError].

(** The status of [w] is the one of [w0], or one of [answers]. *)
Definition settled (w0 w : http.ResponseWriter Value) : Prop :=
  http.status w = http.status w0 ∨ ∃ code, code ∈ answers ∧ http.status w = Some code.

(** The operation takes its id and its time from the environment. *)
Definition stamped (E : Env) (op : StoreOps.Op) : Prop :=
  match op with
  | StoreOps.Create id now _ _ => id = randomID E ∧ now = StoreNow E
  | StoreOps.Update _ now _ _ => now = StoreNow E
  | _ => True
  end.

(** The table [st'] is what one operation of the store leaves of [st];
    the operation is a delete only if [deletes] allows it. *)
Definition effect (E : Env) (deletes : bool) (st st' : db.DB) : Prop :=
  ∃ op, st' = StoreOps.after st op ∧ stamped E op
        ∧ (StoreOps.isDelete op = true → deletes = true).

(** The handlers of each snapshot that delete, that only read, and that
    change the store or issue a token. *)
Definition deletesA (h : RoutesA.Handler) : bool :=
  match h with
  | RoutesA.HDeleteDocument | RoutesA.HDeleteDocumentVersion => true
  | _ => false
  end.

Definition deletesB (h : RoutesB.Handler) : bool :=
  match h with
  | RoutesB.HDeleteDocument => true
  | _ => false
  end.

Definition readOnlyA (h : RoutesA.Handler) : bool :=
  match h with
  | RoutesA.HGetRawDocument | RoutesA.HGetRawDocumentVersion | RoutesA.HGetDocument
  | RoutesA.HDocumentVersions | RoutesA.HGetDocumentVersion | RoutesA.HGetVersion
  | RoutesA.HGetPrettyDocument => true
  | _ => false
  end.

Definition mutatingA (h : RoutesA.Handler) : bool :=
  match h with
  | RoutesA.HPostDocument | RoutesA.HPatchDocument | RoutesA.HDeleteDocument
  | RoutesA.HDeleteDocumentVersion | RoutesA.HPostDocumentShare => true
  | _ => false
  end.

Definition readOnlyB (h : RoutesB.Handler) : bool :=
  match h with
  | RoutesB.HGetRawDocument | RoutesB.HGetDocument | RoutesB.HDocumentVersions
  | RoutesB.HGetVersion | RoutesB.HGetPrettyDocument => true
  | _ => false
  end.

Definition mutatingB (h : RoutesB.Handler) : bool :=
  match h with
  | RoutesB.HPostDocument | RoutesB.HPatchDocument | RoutesB.HDeleteDocument
  | RoutesB.HPostDocumentShare => true
  | _ => false
  end.

(** POST, PATCH or DELETE: what [rateLimited] asks of the method. *)
Definition gatedMethod (method : string) : bool :=
  bool_decide (method = http.MethodPost) || bool_decide (method = http.MethodPatch)
  || bool_decide (method = http.MethodDelete).

(** The methods a route is registered for fit its handler: the methods
    of a handler that only reads are not gated, those of a handler that
    changes the store or issues a token are, and a handler that deletes
    is registered for DELETE only. *)
Definition fitsA (methods : list string) (h : RoutesA.Handler) : bool :=
  (if readOnlyA h then forallb (fun m => negb (gatedMethod m)) methods else true)
  && (if mutatingA h then forallb gatedMethod methods else true)
  && (if deletesA h then bool_decide (methods = [http.MethodDelete]) else true).

Definition fitsB (methods : list string) (h : RoutesB.Handler) : bool :=
  (if readOnlyB h then forallb (fun m => negb (gatedMethod m)) methods else true)
  && (if mutatingB h then forallb gatedMethod methods else true)
  && (if deletesB h then bool_decide (methods = [http.MethodDelete]) else true).

(** The request carries no token, or one that verifies. *)
Definition tokenAccepted (E : Env) (r : http.Request) : Prop :=
  http.assoc "Authorization" (http.Header r) = ""
  ∨ is_Some (verify E (http.assoc "Authorization" (http.Header r))).

(** The label of a version in the words of its description: of the
    components year, month, day, hour and minute, in this order, the first
    in which the version is strictly less than now gives the unit and,
    as the difference of that component alone, the count; when there is
    none, the seconds of now minus the seconds of the version. *)
Fixpoint firstEarlier (components : list (string * Z * Z)) (last : string * Z * Z)
    : string * Z :=
  match components with
  | [] => (last.1.1, last.2 - last.1.2)
  | (unit, ofVersion, ofNow) :: rest =>
      if ofVersion <? ofNow then (unit, ofNow - ofVersion) else firstEarlier rest last
  end.

Definition calendar (version now : time.Time) : list (string * Z * Z) :=
  [ ("years", time.Year version, time.Year now);
    ("months", time.Month version, time.Month now);
    ("days", time.Day version, time.Day now);
    ("hours", time.Hour version, time.Hour now);
    ("minutes", time.Minute version, time.Minute now) ].

Definition labelOf (version now : time.Time) : string :=
  let found := firstEarlier (calendar version now)
                 ("seconds", time.Second version, time.Second now) in
  ago found.2 found.1.

(** The environment with another verdict of the rate limiter. *)
Definition withLimit (E : Env) (verdict : bool) : Env :=
  mkEnv (Now E) (StoreNow E) (Local E) (randomID E) (decodeShareRequest E)
        (sign E) (verify E) (runeCount E) (lexersAnalyse E) (lexersGet E)
        (lexersFallback E) (stylesGet E) (highlight E) (contextDone E) verdict.

(** The response is the one of the rate limiter. *)
Definition rejectedAsRateLimited (res : Result) : Prop :=
  http.StatusCode res.1 = http.StatusTooManyRequests.

End Spec.

Module Samples.

Import Tokens gobin.

(** A decoder of share requests on a few bodies; any other body is
    malformed. *)
Definition decode (body : string) : option (list Permission) :=
  if bool_decide (body = "{}") then Some []
  else if bool_decide (body = "[write]") then Some [PermissionWrite]
  else if bool_decide (body = "[delete]") then Some [PermissionDelete]
  else if bool_decide (body = "[write,share]") then Some [PermissionWrite; PermissionShare]
  else if bool_decide (body = "[admin]") then Some ["admin"]
  else None.

Definition env : Env :=
  mkEnv (time.Unix time.UTC 1700000060) (time.Unix time.UTC 1700000000) time.UTC
        "freshid0" decode
        (fun claims => Some ("signed:" +:+ Subject claims))
        (fun token => if bool_decide (token = "Bearer full")
                      then Some (mkClaims "abcdefgh"
                                   [PermissionWrite; PermissionDelete; PermissionShare])
                      else if bool_decide (token = "Bearer write")
                      then Some (mkClaims "abcdefgh" [PermissionWrite])
                      else None)
        (fun content => Z.of_nat (String.length content))
        (fun _ => None)
        (fun language => if bool_decide (language = "go") then Some "Go" else None)
        "fallback"
        (fun _ => "monokai")
        (fun _ _ _ content => Some (content, ""))
        false false.

Definition config : Config.t := Config.mk false false ":80" 0 None "secret".

Definition limited : Config.t :=
  Config.mk false false ":80" 0 (Some (RateLimitConfig.mk 2 60)) "secret".

(** A table with two versions of one document and one of another. *)
Definition table : db.DB :=
  <[("abcdefgh", 1700000000) := ("hello", "go")]>
    (<[("abcdefgh", 1600000000) := ("old", "go")]>
       (<[("zzzzzzzz", 1650000000) := ("other", "text")]> ∅)).

Definition server : Server := mkServer "dev" config table.

Definition request (method : string) (path : list string) (token body : string) : http.Request :=
  http.mkRequest method path []
    (if bool_decide (token = "") then [] else [("Authorization", token)])
    [] (Some body) "localhost" "req-1" [] EmptyClaims.

(** the request as a handler receives it from the router *)
Definition routed (method : string) (params : list (string * string))
    (claims : Claims) (body : string) : http.Request :=
  http.mkRequest method [] [] [] [] (Some body) "localhost" "req-1" params claims.

Definition shareNothingNoToken : http.Request :=
  request "POST" ["documents"; "abcdefgh"; "share"] "" "{}".

Definition shareNothing : http.Request :=
  request "POST" ["documents"; "abcdefgh"; "share"] "Bearer full" "{}".

Definition shareAdmin : http.Request :=
  request "POST" ["documents"; "abcdefgh"; "share"] "Bearer full" "[admin]".

Definition fullClaims : Claims :=
  mkClaims "abcdefgh" [PermissionWrite; PermissionDelete; PermissionShare].

Definition writeShareClaims : Claims :=
  mkClaims "abcdefgh" [PermissionWrite; PermissionShare].

Definition writeClaims : Claims := mkClaims "abcdefgh" [PermissionWrite].

Definition limitedServer : Server := mkServer "dev" limited table.

Definition createRequest : http.Request := request "POST" ["documents"] "" "package main".

Definition readRequest : http.Request := request "GET" ["documents"; "abcdefgh"] "" "".

(** the sample environment one hundred seconds later *)
Definition later : Env :=
  mkEnv (time.Unix time.UTC 1700000160) (time.Unix time.UTC 1700000100) time.UTC
        (randomID env) (decodeShareRequest env) (sign env) (verify env) (runeCount env)
        (lexersAnalyse env) (lexersGet env) (lexersFallback env) (stylesGet env)
        (highlight env) false false.

Definition updateRequest : http.Request :=
  request "PATCH" ["documents"; "abcdefgh"] "Bearer full" "world".

Definition shareWriteRequest : http.Request :=
  request "POST" ["documents"; "abcdefgh"; "share"] "Bearer full" "[write]".

Definition deleteWithWriteToken : http.Request :=
  request "DELETE" ["documents"; "abcdefgh"] "Bearer write" "".

Definition deleteWithFullToken : http.Request :=
  request "DELETE" ["documents"; "abcdefgh"] "Bearer full" "".

Definition getVersionAbc : http.Request :=
  request "GET" ["documents"; "abcdefgh"; "versions"; "abc"] "" "".

Definition deleteVersionAbc : http.Request :=
  request "DELETE" ["documents"; "abcdefgh"; "versions"; "abc"] "Bearer full" "".

End Samples.

(** Vocabulary of the further properties of the handlers. *)
Module More.

Import Tokens gobin Spec.

(** The content of the row is not empty and within the configured size,
    where a size is configured. *)
Definition admissible (E : Env) (s : Server) (d : db.Document) : Prop :=
  db.Content d ≠ ""
  ∧ (0 < Config.MaxDocumentSize (cfg s) →
     runeCount E (db.Content d) ≤ Config.MaxDocumentSize (cfg s)).

(** Every row of [st'] is a row of [st] or is admissible. *)
Definition grows (E : Env) (s : Server) (st st' : db.DB) : Prop :=
  ∀ d, d ∈ db.documents st' → d ∈ db.documents st ∨ admissible E s d.

(** The rows of every document but [id] and [newID] are the same in the
    two tables. *)
Definition apartFrom (id newID : string) (st st' : db.DB) : Prop :=
  ∀ id' version, id' ≠ id → id' ≠ newID → st' !! (id', version) = st !! (id', version).

(** The claims reached from [c] by shares: the claims of a token the
    share handler answered with 200 to a request with claims reached
    before. *)
Inductive sharedFrom (E : Env) (c : Claims) : Claims → Prop :=
| shared_none : sharedFrom E c c
| shared_more (r : http.Request) (s : Server) (permissions : list Permission) :
    sharedFrom E c (http.Claims r) →
    http.status (PostDocumentShare E s r http.newWriter).1 = Some http.StatusOK →
    requested E r = Some permissions →
    sharedFrom E c (mkClaims (http.URLParam r "documentID") permissions).

(** Nothing was written to the response yet. *)
Definition blank (w : http.ResponseWriter Value) : Prop :=
  http.status w = None ∧ http.written w = [].

(** The response has a status, and an error written to its body states
    that status. *)
Definition coherent (w : http.ResponseWriter Value) : Prop :=
  is_Some (http.status w)
  ∧ ∀ e, VError e ∈ http.written w → http.status w = Some (ErrorResponse.Status e).

Definition isError (v : Value) : bool :=
  match v with
  | VError _ => true
  | _ => false
  end.

(** The table has no row of the document. *)
Definition gone (id : string) (st : db.DB) : Prop := ∀ version, st !! (id, version) = None.

End More.

(** Sample environments and servers of the further properties. *)
Module MoreSamples.

Import Tokens gobin Samples.

(** the sample environment with a signer that fails *)
Definition unsigned : Env :=
  mkEnv (Now env) (StoreNow env) (Local env) (randomID env) (decodeShareRequest env)
        (fun _ => None) (verify env) (runeCount env) (lexersAnalyse env) (lexersGet env)
        (lexersFallback env) (stylesGet env) (highlight env) false false.

(** the sample environment with a highlighting library that fails *)
Definition unrendered : Env :=
  mkEnv (Now env) (StoreNow env) (Local env) (randomID env) (decodeShareRequest env)
        (sign env) (verify env) (runeCount env) (lexersAnalyse env) (lexersGet env)
        (lexersFallback env) (stylesGet env) (fun _ _ _ _ => None) false false.

(** the sample server with documents of at most five characters *)
Definition small : Server :=
  mkServer "dev" (Config.mk false false ":80" 5 None "secret") table.

Definition post : http.Request := routed "POST" [] EmptyClaims "package main".

Definition rendered : http.Request :=
  http.mkRequest "GET" [] [("render", "html")] [] [] (Some "") "localhost" "req-1"
    [("documentID", "abcdefgh")] EmptyClaims.

End MoreSamples.

(* ===================================================================== *)
(** * Properties *)
(* ===================================================================== *)

(** Closes a decidable goal on closed terms by evaluation. *)
Ltac decided :=
  first [ apply (bool_decide_unpack _); vm_compute; exact I
        | apply (bool_decide_eq_false_1 _); vm_compute; reflexivity ].

(** ** The store *)

Module StoreFacts.

Import db StoreOps.

Lemma document_eta (d : Document) :
  mkDocument (ID d) (Version d) (Content d) (Language d) = d.
Proof. by destruct d. Qed.

(** The rows of the table, read as documents. *)
Lemma elem_of_documents (st : DB) (d : Document) :
  d ∈ documents st ↔ st !! (ID d, Version d) = Some (Content d, Language d).
Proof.
  unfold documents. rewrite list_elem_of_fmap. split.
  - intros [[[id v] [c l]] [-> Hin]]. by apply elem_of_map_to_list in Hin.
  - intros Hlook. exists ((ID d, Version d), (Content d, Language d)). split.
    + simpl. by rewrite document_eta.
    + by apply elem_of_map_to_list.
Qed.

Lemma elem_of_documentsOf (st : DB) (id : string) (d : Document) :
  d ∈ documentsOf st id ↔
  ID d = id ∧ st !! (id, Version d) = Some (Content d, Language d).
Proof.
  unfold documentsOf. rewrite list_elem_of_filter, elem_of_documents.
  split; intros [Hid Hlook]; split; auto; congruence.
Qed.

Lemma documentsOf_nil (st : DB) (id : string) :
  documentsOf st id = [] ↔ ∀ v, st !! (id, v) = None.
Proof.
  split.
  - intros Hnil v. destruct (st !! (id, v)) as [[c l]|] eqn:Hlook; [|done].
    assert (mkDocument id v c l ∈ documentsOf st id) as Hin
      by (by apply elem_of_documentsOf).
    rewrite Hnil in Hin. by apply not_elem_of_nil in Hin.
  - intros Hnone. destruct (documentsOf st id) as [|d ds] eqn:Hds; [done|].
    assert (d ∈ documentsOf st id) as Hin by (rewrite Hds; left).
    apply elem_of_documentsOf in Hin as [_ Hlook]. by rewrite Hnone in Hlook.
Qed.

(** Two rows of one document with the same version are the same row. *)
Lemma documentsOf_version_inj (st : DB) (id : string) (d1 d2 : Document) :
  d1 ∈ documentsOf st id → d2 ∈ documentsOf st id →
  Version d1 = Version d2 → d1 = d2.
Proof.
  intros [Hid1 H1]%elem_of_documentsOf [Hid2 H2]%elem_of_documentsOf Hv.
  rewrite Hv in H1. rewrite H1 in H2.
  destruct d1, d2; simpl in *. congruence.
Qed.

Lemma foldl_pick_Some (ds : list Document) (b : Document) :
  ∃ d, foldl pick (Some b) ds = Some d
       ∧ (d = b ∨ d ∈ ds)
       ∧ Version b ≤ Version d
       ∧ ∀ d', d' ∈ ds → Version d' ≤ Version d.
Proof.
  revert b. induction ds as [|x ds IH]; intros b; simpl.
  - exists b. split_and!; auto; [lia|]. intros d' Hd'. by apply not_elem_of_nil in Hd'.
  - case_bool_decide as Hle.
    + destruct (IH x) as (d & Hfold & Hin & Hxd & Hmax).
      exists d. split_and!; auto.
      * right. destruct Hin as [->|Hin]; [left | by right].
      * lia.
      * intros d' [->|Hd']%elem_of_cons; auto.
    + destruct (IH b) as (d & Hfold & Hin & Hbd & Hmax).
      exists d. split_and!; auto.
      * destruct Hin as [->|Hin]; [by left | right; by right].
      * intros d' [->|Hd']%elem_of_cons; auto. lia.
Qed.

Lemma latest_cons (x : Document) (ds : list Document) :
  latest (x :: ds) = foldl pick (Some x) ds.
Proof. reflexivity. Qed.

Lemma latest_Some (ds : list Document) (d : Document) :
  latest ds = Some d → d ∈ ds ∧ ∀ d', d' ∈ ds → Version d' ≤ Version d.
Proof.
  destruct ds as [|x ds]; [done|]. rewrite latest_cons.
  destruct (foldl_pick_Some ds x) as (d0 & Hfold & Hin & Hxd & Hmax).
  rewrite Hfold. intros [= <-]. split.
  - destruct Hin as [->|Hin]; [left | by right].
  - intros d' [->|Hd']%elem_of_cons; auto.
Qed.

Lemma latest_None (ds : list Document) : latest ds = None ↔ ds = [].
Proof.
  split; [|by intros ->].
  destruct ds as [|x ds]; [done|]. rewrite latest_cons.
  destruct (foldl_pick_Some ds x) as (d0 & Hfold & _). by rewrite Hfold.
Qed.

(** [GetDocument] returns the row of greatest version, and there is
    exactly one such row. *)
Lemma GetDocument_inr (st : DB) (id : string) (d : Document) :
  GetDocument st id = inr d ↔
  d ∈ documentsOf st id ∧ ∀ d', d' ∈ documentsOf st id → Version d' ≤ Version d.
Proof.
  unfold GetDocument. split.
  - destruct (latest (documentsOf st id)) as [d0|] eqn:Hl; [|done].
    intros [= <-]. by apply latest_Some.
  - intros [Hin Hmax].
    destruct (latest (documentsOf st id)) as [d0|] eqn:Hl.
    + apply latest_Some in Hl as [Hin0 Hmax0]. f_equal.
      apply (documentsOf_version_inj st id); auto.
      specialize (Hmax _ Hin0). specialize (Hmax0 _ Hin). lia.
    + apply latest_None in Hl. rewrite Hl in Hin. by apply not_elem_of_nil in Hin.
Qed.

Lemma GetDocument_inl (st : DB) (id : string) (e : Error) :
  GetDocument st id = inl e ↔ e = ErrNoRows ∧ documentsOf st id = [].
Proof.
  unfold GetDocument.
  destruct (latest (documentsOf st id)) as [d0|] eqn:Hl.
  - split; [done|]. intros [_ Hnil]. by rewrite Hnil in Hl.
  - apply latest_None in Hl. split; [by intros [= <-] | by intros [-> _]].
Qed.

(** [GetDocument] depends on the rows of the document only. *)
Lemma GetDocument_ext (st1 st2 : DB) (id : string) :
  (∀ v, st1 !! (id, v) = st2 !! (id, v)) →
  GetDocument st1 id = GetDocument st2 id.
Proof.
  intros Hsame.
  assert (∀ d, d ∈ documentsOf st1 id ↔ d ∈ documentsOf st2 id) as Hmem.
  { intros d. rewrite !elem_of_documentsOf, Hsame. done. }
  destruct (GetDocument st1 id) as [e|d] eqn:H1; symmetry.
  - apply GetDocument_inl in H1 as [-> Hnil]. apply GetDocument_inl. split; [done|].
    apply documentsOf_nil. intros v. rewrite <- Hsame. revert v. by apply documentsOf_nil.
  - apply GetDocument_inr in H1 as [Hin Hmax]. apply GetDocument_inr. split.
    + by apply Hmem.
    + intros d' Hd'. apply Hmax. by apply Hmem.
Qed.

Lemma insertDocument_inr (st st' : DB) (d d' : Document) :
  insertDocument st d = inr (d', st') →
  d' = d ∧ st !! (ID d, Version d) = None
  ∧ st' = <[(ID d, Version d) := (Content d, Language d)]> st.
Proof.
  unfold insertDocument. destruct (st !! (ID d, Version d)) eqn:Hlook; [done|].
  by intros [= <- <-].
Qed.

(** An operation that is no delete keeps every row, and the table it
    leaves is the old one or the old one with one row added under a key
    that was free. *)
Lemma after_append (st : DB) (op : Op) :
  isDelete op = false →
  after st op = st
  ∨ ∃ d, written op = Some d ∧ st !! (ID d, Version d) = None
         ∧ after st op = <[(ID d, Version d) := (Content d, Language d)]> st.
Proof.
  destruct op as [id now c l| | | |id now c l| | |]; simpl; try done; intros _; auto.
  - unfold CreateDocument.
    destruct (insertDocument _ _) as [e|[d' st']] eqn:Hins; [by left|].
    apply insertDocument_inr in Hins as (-> & Hfree & ->). right. eauto.
  - unfold UpdateDocument. destruct (documentsOf st id); [by left|].
    destruct (insertDocument _ _) as [e|[d' st']] eqn:Hins; [by left|].
    apply insertDocument_inr in Hins as (-> & Hfree & ->). right. eauto.
Qed.

Lemma after_keeps (st : DB) (op : Op) (d : Document) :
  isDelete op = false → d ∈ documents st → d ∈ documents (after st op).
Proof.
  intros Hop Hd. destruct (after_append st op Hop) as [->|(x & _ & Hfree & ->)]; [done|].
  apply elem_of_documents in Hd. apply elem_of_documents.
  rewrite lookup_insert_ne; [done|]. intros Heq. rewrite Heq in Hfree. congruence.
Qed.

(** A row created under an id without rows is the latest of that id. *)
Lemma create_fresh (st : DB) (newID : string) (now : time.Time) (content language : string) :
  documentsOf st newID = [] →
  CreateDocument st newID now content language
  = inr (mkDocument newID (nextVersion now) content language,
         <[(newID, nextVersion now) := (content, language)]> st)
  ∧ GetDocument (<[(newID, nextVersion now) := (content, language)]> st) newID
    = inr (mkDocument newID (nextVersion now) content language).
Proof.
  intros Hfresh.
  pose proof (proj1 (documentsOf_nil st newID) Hfresh) as Hnone. split.
  - unfold CreateDocument, insertDocument. simpl. by rewrite Hnone.
  - apply GetDocument_inr. split.
    + apply elem_of_documentsOf. split; [done|]. simpl. by rewrite lookup_insert_eq.
    + intros d' [Hid Hlook]%elem_of_documentsOf. simpl in *.
      destruct (decide (Version d' = nextVersion now)) as [->|Hne]; [done|].
      rewrite lookup_insert_ne in Hlook by congruence. by rewrite Hnone in Hlook.
Qed.

End StoreFacts.

Module StoreTheorems.

Import db StoreOps StoreFacts.

(** C4. A document created under a fresh id is what [get_latest] of
    that id returns right after: the same content, the same language. *)
Theorem create_then_get_latest (st : DB) (newID : string) (now : time.Time)
    (content language : string) :
  documentsOf st newID = [] →
  ∃ d st',
    CreateDocument st newID now content language = inr (d, st')
    ∧ ID d = newID
    ∧ GetDocument st' (ID d) = inr d
    ∧ Content d = content ∧ Language d = language.
Proof.
  intros Hfresh.
  destruct (create_fresh st newID now content language Hfresh) as [Hcreate Hget].
  exists (mkDocument newID (nextVersion now) content language).
  exists (<[(newID, nextVersion now) := (content, language)]> st).
  split_and!; [exact Hcreate | reflexivity | exact Hget | reflexivity | reflexivity].
Qed.

(** C7. Deleting the version [version] of [id] removes the row of that
    key and no other: every other row is as before, the table has one
    row less, the latest version of [id] is unchanged when it was not
    the deleted one, and so is the latest version of any other id. *)
Theorem delete_version_frame (st : DB) (id : string) (version : Z) :
  is_Some (st !! (id, version)) →
  ∃ st',
    DeleteDocumentByVersion st id version = inr st'
    ∧ st' !! (id, version) = None
    ∧ (∀ id' version', (id', version') ≠ (id, version) →
         st' !! (id', version') = st !! (id', version'))
    ∧ size st = S (size st')
    ∧ (∀ d, GetDocument st id = inr d → Version d ≠ version → GetDocument st' id = inr d)
    ∧ (∀ id', id' ≠ id → GetDocument st' id' = GetDocument st id').
Proof.
  intros [cl Hlook]. exists (delete (id, version) st). split_and!.
  - unfold DeleteDocumentByVersion. by rewrite Hlook.
  - apply lookup_delete_eq.
  - intros id' version' Hne. by apply lookup_delete_ne.
  - rewrite <- (insert_delete_id st (id, version) cl Hlook) at 1.
    apply map_size_insert_None, lookup_delete_eq.
  - intros d [Hin Hmax]%GetDocument_inr Hv. apply GetDocument_inr. split.
    + apply elem_of_documentsOf in Hin as [Hid Hd]. apply elem_of_documentsOf.
      split; [done|]. rewrite lookup_delete_ne; [done|]. congruence.
    + intros d' [Hid' Hd']%elem_of_documentsOf. apply Hmax. apply elem_of_documentsOf.
      split; [done|]. by apply lookup_delete_Some in Hd' as [_ Hd'].
  - intros id' Hne. apply GetDocument_ext. intros v.
    apply lookup_delete_ne. congruence.
Qed.

End StoreTheorems.

(** ** The response writer *)

Module WriterFacts.

Import gobin.

Lemma json_status (w : http.ResponseWriter Value) r v code :
  http.status w = None → http.status (json w r v code) = Some code.
Proof.
  intros Hw. unfold json, http.Write, http.WriteHeader, http.SetHeader. rewrite Hw. simpl.
  case_bool_decide; simpl; [done|]. by destruct (http.bodyAllowedForStatus code).
Qed.

Lemma json_StatusCode (w : http.ResponseWriter Value) r v code :
  http.status w = None → http.StatusCode (json w r v code) = code.
Proof. intros Hw. unfold http.StatusCode. by rewrite json_status. Qed.

Lemma error_StatusCode (w : http.ResponseWriter Value) r e code :
  http.status w = None → http.StatusCode (error_ w r e code) = code.
Proof. apply json_StatusCode. Qed.

Lemma documentNotFound_StatusCode (w : http.ResponseWriter Value) r :
  http.status w = None → http.StatusCode (documentNotFound w r) = http.StatusNotFound.
Proof. apply json_StatusCode. Qed.

End WriterFacts.

(** ** The authorization gate and the share endpoint *)

Module GateFacts.

Import Tokens gobin Spec WriterFacts.

Lemma Contains_true (l : list Permission) (p : Permission) :
  Contains l p = true ↔ p ∈ l.
Proof. unfold Contains. by rewrite bool_decide_eq_true. Qed.

Lemma gate_closed (r : http.Request) (p : Permission) :
  ¬ holds r p →
  negb (bool_decide (Subject (GetClaims r) = http.URLParam r "documentID"))
  || negb (Contains (Permissions (GetClaims r)) p) = true.
Proof.
  unfold holds, GetClaims, Contains. intros Hno.
  repeat case_bool_decide; simpl; try done. by destruct Hno.
Qed.

Lemma gate_open (r : http.Request) (p : Permission) :
  holds r p →
  negb (bool_decide (Subject (GetClaims r) = http.URLParam r "documentID"))
  || negb (Contains (Permissions (GetClaims r)) p) = false.
Proof.
  unfold holds, GetClaims, Contains. intros [Hs Hp].
  repeat case_bool_decide; simpl; done.
Qed.

Lemma find_invalid_None (permissions : list Permission) :
  Forall (fun p => IsValid p = true) permissions →
  List.find (fun permission => negb (IsValid permission)) permissions = None.
Proof.
  induction 1 as [|p ps Hp _ IH]; simpl; [done|]. by rewrite Hp.
Qed.

Lemma find_invalid_Some (permissions : list Permission) :
  Exists (fun p => IsValid p = false) permissions →
  ∃ p, List.find (fun permission => negb (IsValid permission)) permissions = Some p.
Proof.
  induction 1 as [p ps Hp|p ps _ IH]; simpl.
  - rewrite Hp. simpl. eauto.
  - destruct (negb (IsValid p)); eauto.
Qed.

Lemma find_missing_None (held permissions : list Permission) :
  permissions ⊆ held →
  List.find (fun permission => negb (Contains held permission)) permissions = None.
Proof.
  induction permissions as [|p ps IH]; simpl; [done|]. intros Hsub.
  assert (Contains held p = true) as -> by (apply Contains_true, Hsub; left).
  simpl. apply IH. intros x Hx. apply Hsub. by right.
Qed.

Lemma find_missing_Some (held permissions : list Permission) :
  ¬ permissions ⊆ held →
  ∃ p, List.find (fun permission => negb (Contains held permission)) permissions = Some p
       ∧ p ∈ permissions ∧ p ∉ held.
Proof.
  induction permissions as [|p ps IH]; simpl; intros Hsub.
  - destruct Hsub. intros x Hx. by apply not_elem_of_nil in Hx.
  - destruct (Contains held p) eqn:Hp; simpl.
    + apply Contains_true in Hp. destruct IH as (q & Hq & Hin & Hout).
      * intros Hps. apply Hsub. intros x [->|Hx]%elem_of_cons; auto.
      * exists q. split_and!; auto. by right.
    + exists p. split_and!; auto; [left|]. intros Hin%Contains_true. congruence.
Qed.

(** The share handler on a request whose body passed the validation. *)
Lemma share_validated (E : Env) s r w (permissions : list Permission) :
  requested E r = Some permissions → permissions ≠ [] →
  Forall (fun p => IsValid p = true) permissions →
  PostDocumentShare E s r w =
    if negb (bool_decide (Subject (GetClaims r) = http.URLParam r "documentID"))
       || negb (Contains (Permissions (GetClaims r)) PermissionShare)
    then (documentNotFound w r, db s)
    else
      match List.find (fun permission =>
                         negb (Contains (Permissions (GetClaims r)) permission))
                      permissions with
      | Some permission =>
          (error_ w r (ErrPermissionDenied permission) http.StatusForbidden, db s)
      | None =>
          match NewToken E (http.URLParam r "documentID") permissions with
          | None => (error_ w r ErrSign http.StatusInternalServerError, db s)
          | Some token => (ok w r (VShare token), db s)
          end
      end.
Proof.
  intros Hreq Hne Hvalid. unfold PostDocumentShare. unfold requested in Hreq. rewrite Hreq.
  rewrite bool_decide_eq_false_2 by (by destruct permissions).
  by rewrite find_invalid_None.
Qed.

End GateFacts.

Module GateTheorems.

Import Tokens gobin Spec WriterFacts GateFacts.

Lemma readBody_content (w : http.ResponseWriter Value) r (content : string) :
  http.Body r = Some content → content ≠ "" → readBody w r = (w, content).
Proof.
  intros Hb Hne. unfold readBody. rewrite Hb.
  rewrite bool_decide_eq_false_2; [done|]. by destruct content.
Qed.

(** C9. A share request whose body is malformed, names no permission
    or names an unknown permission is answered with 400 Bad Request
    whatever the claims of the caller are: the answer does not depend
    on the claims, and it is not the 404 of the authorization gate. *)
Theorem share_validates_before_authorizing (E : Env) s r w :
  invalidShareBody E r →
  (∃ e, PostDocumentShare E s r w = (error_ w r e http.StatusBadRequest, db s))
  ∧ (∀ claims, PostDocumentShare E s (http.withClaims r claims) w
               = PostDocumentShare E s r w)
  ∧ (http.status w = None →
     http.StatusCode (PostDocumentShare E s r w).1 = http.StatusBadRequest
     ∧ http.StatusCode (PostDocumentShare E s r w).1 ≠ http.StatusNotFound).
Proof.
  intros Hbad.
  assert (∀ claims, ∃ e,
            PostDocumentShare E s (http.withClaims r claims) w
            = (error_ w r e http.StatusBadRequest, db s)) as Hall.
  { intros claims. unfold invalidShareBody, requested in Hbad.
    unfold PostDocumentShare. simpl.
    destruct (http.Body r ≫= decodeShareRequest E) as [permissions|]; [|by eexists].
    destruct Hbad as [->|Hbad]; [by eexists|].
    case_bool_decide; [by eexists|].
    destruct (find_invalid_Some _ Hbad) as [p ->]. by eexists. }
  assert (http.withClaims r (http.Claims r) = r) as Hr by (by destruct r).
  destruct (Hall (http.Claims r)) as [e He]. rewrite Hr in He.
  split_and!.
  - by exists e.
  - intros claims. unfold invalidShareBody, requested in Hbad.
    unfold PostDocumentShare. simpl.
    destruct (http.Body r ≫= decodeShareRequest E) as [permissions|]; [|done].
    case_bool_decide; [done|].
    destruct Hbad as [->|Hbad]; [done|].
    by destruct (find_invalid_Some _ Hbad) as [p ->].
  - intros Hw. rewrite He. simpl. rewrite error_StatusCode by done. done.
Qed.

(** C1, as the code has it. A request for an update or a delete, and a
    request for a share whose body passed the validation, is answered
    with the 404 of [documentNotFound], the store untouched, unless the
    subject of its claims is the document and the claims hold the
    permission of the operation; with both, the handler goes on with
    the operation. *)
Theorem gate_decides (E : Env) (m : Mutation) s r w :
  bodyChecked E m r →
  (¬ holds r (required m) →
     handlerA E m s r w = (documentNotFound w r, db s)
     ∧ (http.status w = None →
        http.StatusCode (handlerA E m s r w).1 = http.StatusNotFound
        ∧ http.StatusCode (handlerA E m s r w).1 ≠ http.StatusForbidden))
  ∧ (holds r (required m) → proceedsA E m s r w).
Proof.
  intros Hbody. split.
  - intros Hno.
    assert (handlerA E m s r w = (documentNotFound w r, db s)) as Hden.
    { destruct m; simpl in *.
      + unfold RoutesA.PatchDocument. by rewrite gate_closed.
      + unfold RoutesA.DeleteDocument. by rewrite gate_closed.
      + destruct (Hbody eq_refl) as (permissions & Hreq & Hne & Hvalid).
        rewrite (share_validated E s r w permissions) by done.
        by rewrite gate_closed. }
    split; [done|]. intros Hw. rewrite Hden. simpl.
    rewrite documentNotFound_StatusCode by done. done.
  - intros Hyes. destruct m; simpl in *.
    + intros content Hb Hne Hsize. unfold RoutesA.PatchDocument.
      rewrite gate_open by done. rewrite (readBody_content w r content) by done.
      rewrite bool_decide_eq_false_2 by done.
      destruct (exceedsMaxDocumentSize E s w r content) as [w' exceeds] eqn:Hex.
      simpl in Hsize. subst exceeds.
      assert (w' = w) as ->.
      { unfold exceedsMaxDocumentSize in Hex. by destruct (_ && _); inversion Hex. }
      destruct (db.UpdateDocument _ _ _ _ _) as [[]|[document st]]; try done.
      by destruct (FormatDocumentVersion E (Now E) (db.Version document)).
    + unfold RoutesA.DeleteDocument. by rewrite gate_open.
    + destruct (Hbody eq_refl) as (permissions & Hreq & Hne & Hvalid).
      intros ps Hps. rewrite Hreq in Hps. injection Hps as <-.
      rewrite (share_validated E s r w permissions) by done.
      rewrite gate_open by done.
      destruct (decide (permissions ⊆ Permissions (http.Claims r))) as [Hsub|Hsub].
      * right. split; [done|]. unfold GetClaims. by rewrite find_missing_None.
      * left. destruct (find_missing_Some _ _ Hsub) as (p & Hfind & Hin & Hout).
        exists p. split_and!; auto. unfold GetClaims. by rewrite Hfind.
Qed.

(** C2, as the code has it. For a share request whose body names at
    least one permission and only permissions of the enumeration, from a
    caller whose claims are for the document and hold [share]: a
    permission the caller does not hold gives 403 Forbidden and no
    token; otherwise the signer is asked for a token for the document
    with exactly the requested permissions; and the answer is that token
    if and only if all requested permissions are held and the signer
    delivers. *)
Theorem share_grants_held_permissions (E : Env) s r (permissions : list Permission) :
  requested E r = Some permissions → permissions ≠ [] →
  Forall (fun p => IsValid p = true) permissions →
  holds r PermissionShare →
  (¬ permissions ⊆ Permissions (http.Claims r) →
     http.StatusCode (PostDocumentShare E s r http.newWriter).1 = http.StatusForbidden
     ∧ ∃ p, p ∈ permissions ∧ (p ∉ Permissions (http.Claims r))
            ∧ PostDocumentShare E s r http.newWriter
              = (error_ http.newWriter r (ErrPermissionDenied p) http.StatusForbidden, db s))
  ∧ (permissions ⊆ Permissions (http.Claims r) →
       PostDocumentShare E s r http.newWriter =
         match sign E (mkClaims (http.URLParam r "documentID") permissions) with
         | Some token => (ok http.newWriter r (VShare token), db s)
         | None => (error_ http.newWriter r ErrSign http.StatusInternalServerError, db s)
         end)
  ∧ ((∃ token, sign E (mkClaims (http.URLParam r "documentID") permissions) = Some token
               ∧ PostDocumentShare E s r http.newWriter
                 = (ok http.newWriter r (VShare token), db s))
     ↔ permissions ⊆ Permissions (http.Claims r)
       ∧ is_Some (sign E (mkClaims (http.URLParam r "documentID") permissions))).
Proof.
  intros Hreq Hne Hvalid Hyes.
  pose proof (share_validated E s r http.newWriter permissions Hreq Hne Hvalid) as Heq.
  rewrite gate_open in Heq by done. unfold GetClaims, NewToken in Heq.
  assert (¬ permissions ⊆ Permissions (http.Claims r) →
          ∃ p, p ∈ permissions ∧ (p ∉ Permissions (http.Claims r))
               ∧ PostDocumentShare E s r http.newWriter
                 = (error_ http.newWriter r (ErrPermissionDenied p) http.StatusForbidden, db s))
    as Hdenied.
  { intros Hsub. destruct (find_missing_Some _ _ Hsub) as (p & Hfind & Hin & Hout).
    exists p. split_and!; auto. by rewrite Heq, Hfind. }
  assert (permissions ⊆ Permissions (http.Claims r) →
          PostDocumentShare E s r http.newWriter =
            match sign E (mkClaims (http.URLParam r "documentID") permissions) with
            | Some token => (ok http.newWriter r (VShare token), db s)
            | None => (error_ http.newWriter r ErrSign http.StatusInternalServerError, db s)
            end) as Hgranted.
  { intros Hsub. by rewrite Heq, find_missing_None. }
  split_and!; auto.
  - intros Hsub. destruct (Hdenied Hsub) as (p & Hin & Hout & Hres). split; [|by eauto].
    rewrite Hres. simpl. by rewrite error_StatusCode.
  - split.
    + intros (token & Hsign & Hres). split; [|by rewrite Hsign].
      destruct (decide (permissions ⊆ Permissions (http.Claims r))) as [Hsub|Hsub]; [done|].
      destruct (Hdenied Hsub) as (p & _ & _ & Hres'). rewrite Hres' in Hres.
      apply (f_equal (fun res => http.StatusCode res.1)) in Hres. simpl in Hres.
      unfold ok in Hres. rewrite error_StatusCode, json_StatusCode in Hres by done. done.
    + intros [Hsub [token Hsign]]. exists token. split; [done|].
      rewrite (Hgranted Hsub). by rewrite Hsign.
Qed.

(** [RoutesB] has the same gate in front of the update, and in front
    of the delete once the version of the request is read. *)
Lemma gate_RoutesB (E : Env) s r w :
  (¬ holds r PermissionWrite →
     RoutesB.PatchDocument E s r w = (documentNotFound w r, db s))
  ∧ (¬ holds r PermissionDelete →
     (RoutesB.parseDocumentVersion r w).2 ≠ -1 →
     RoutesB.DeleteDocument s r w = (documentNotFound w r, db s)).
Proof.
  split.
  - intros Hno. unfold RoutesB.PatchDocument. by rewrite gate_closed.
  - intros Hno Hv. unfold RoutesB.DeleteDocument.
    destruct (RoutesB.parseDocumentVersion r w) as [w' version] eqn:Hparse.
    simpl in Hv. rewrite bool_decide_eq_false_2 by done. rewrite gate_closed by done.
    unfold RoutesB.parseDocumentVersion in Hparse.
    case_bool_decide; [by inversion Hparse|].
    destruct (strconv.ParseInt _); inversion Hparse; by subst.
Qed.

(** The version -1 is what [parseDocumentVersion] of [RoutesB] returns
    after it answered a malformed version: a delete request for the
    version "-1" returns without an answer and without a deletion,
    whatever its claims. *)
Lemma RoutesB_delete_version_minus_one s r w :
  http.URLParam r "version" = "-1" → RoutesB.DeleteDocument s r w = (w, db s).
Proof.
  intros Hv. unfold RoutesB.DeleteDocument, RoutesB.parseDocumentVersion. by rewrite Hv.
Qed.

End GateTheorems.

(** ** The theorems at sample requests *)

Module GateSamples.

Import Tokens gobin Spec Samples GateFacts GateTheorems.

(** A delete with a token that holds [write] only is answered with 404. *)
Lemma gate_decides_at_sample :
  http.StatusCode
    (handlerA env MDelete server
       (routed "DELETE" [("documentID", "abcdefgh")] writeClaims "") http.newWriter).1
  = http.StatusNotFound.
Proof.
  refine (proj1 (proj2 (proj1 (gate_decides env MDelete server
            (routed "DELETE" [("documentID", "abcdefgh")] writeClaims "")
            http.newWriter _) _) eq_refl)).
  - intros Hm. discriminate Hm.
  - unfold holds. decided.
Defined.

(** C1 as the spec states it fails on the share endpoint: without any
    token, a share request that names no permission is answered with 400
    Bad Request, not with 404. *)
Lemma share_without_token_is_BadRequest :
  ¬ holds (routed "POST" [("documentID", "abcdefgh")] EmptyClaims "{}") (required MShare)
  ∧ http.StatusCode
      (handlerA env MShare server
         (routed "POST" [("documentID", "abcdefgh")] EmptyClaims "{}") http.newWriter).1
    = http.StatusBadRequest
  ∧ http.StatusCode (RoutesA.Routes env server shareNothingNoToken).1 = http.StatusBadRequest
  ∧ http.StatusBadRequest ≠ http.StatusNotFound.
Proof.
  split_and!.
  - unfold holds. decided.
  - vm_compute. reflexivity.
  - vm_compute. reflexivity.
  - vm_compute. discriminate.
Qed.

(** The holder of [write] and [share] is refused [delete] with 403. *)
Lemma share_grants_held_permissions_at_sample :
  http.StatusCode
    (PostDocumentShare env server
       (routed "POST" [("documentID", "abcdefgh")] writeShareClaims "[delete]")
       http.newWriter).1
  = http.StatusForbidden.
Proof.
  refine (proj1 (proj1 (share_grants_held_permissions env server
            (routed "POST" [("documentID", "abcdefgh")] writeShareClaims "[delete]")
            [PermissionDelete] eq_refl _ _ _) _)).
  - discriminate.
  - repeat constructor.
  - unfold holds. decided.
  - decided.
Defined.

(** C2 as the spec states it fails on the empty set and on unknown
    permissions: the holder of all three permissions who requests the
    empty set, a subset of what is held, gets no token but 400 Bad
    Request; and who requests a permission outside of the enumeration,
    which is not held, gets 400 Bad Request, not 403. *)
Lemma share_of_nothing_is_BadRequest :
  holds (routed "POST" [("documentID", "abcdefgh")] fullClaims "{}") PermissionShare
  ∧ requested env (routed "POST" [("documentID", "abcdefgh")] fullClaims "{}") = Some []
  ∧ [] ⊆ Permissions fullClaims
  ∧ PostDocumentShare env server
      (routed "POST" [("documentID", "abcdefgh")] fullClaims "{}") http.newWriter
    = (error_ http.newWriter (routed "POST" [("documentID", "abcdefgh")] fullClaims "{}")
         ErrNoPermissions http.StatusBadRequest, db server)
  ∧ http.StatusCode (RoutesA.Routes env server shareNothing).1 = http.StatusBadRequest
  ∧ requested env (routed "POST" [("documentID", "abcdefgh")] fullClaims "[admin]")
    = Some ["admin"]
  ∧ ¬ ["admin"] ⊆ Permissions fullClaims
  ∧ http.StatusCode (RoutesA.Routes env server shareAdmin).1 = http.StatusBadRequest
  ∧ http.StatusBadRequest ≠ http.StatusForbidden.
Proof.
  split_and!.
  - unfold holds. decided.
  - reflexivity.
  - intros p Hp. by apply not_elem_of_nil in Hp.
  - vm_compute. reflexivity.
  - vm_compute. reflexivity.
  - reflexivity.
  - decided.
  - vm_compute. reflexivity.
  - vm_compute. discriminate.
Qed.

(** A share request that names no permission is answered with 400, with
    or without claims. *)
Lemma share_validates_before_authorizing_at_sample :
  http.StatusCode
    (PostDocumentShare env server
       (routed "POST" [("documentID", "zzzzzzzz")] fullClaims "{}") http.newWriter).1
  = http.StatusBadRequest.
Proof.
  refine (proj1 (proj2 (proj2 (share_validates_before_authorizing env server
            (routed "POST" [("documentID", "zzzzzzzz")] fullClaims "{}")
            http.newWriter _)) eq_refl)).
  unfold invalidShareBody. left. reflexivity.
Defined.

End GateSamples.

Module StoreSamples.

Import db StoreOps StoreTheorems Samples.

Lemma create_then_get_latest_at_sample :
  ∃ d st',
    CreateDocument table "newdoc00" (time.Unix time.UTC 1700000500) "package main" "go"
    = inr (d, st')
    ∧ ID d = "newdoc00"
    ∧ GetDocument st' (ID d) = inr d
    ∧ Content d = "package main" ∧ Language d = "go".
Proof.
  apply (create_then_get_latest table "newdoc00" (time.Unix time.UTC 1700000500)
           "package main" "go").
  vm_compute. reflexivity.
Defined.

Lemma delete_version_frame_at_sample :
  ∃ st',
    DeleteDocumentByVersion table "abcdefgh" 1600000000 = inr st'
    ∧ st' !! ("abcdefgh", 1600000000) = None
    ∧ (∀ id' version', (id', version') ≠ ("abcdefgh", 1600000000) →
         st' !! (id', version') = table !! (id', version'))
    ∧ size table = S (size st')
    ∧ (∀ d, GetDocument table "abcdefgh" = inr d → Version d ≠ 1600000000 →
            GetDocument st' "abcdefgh" = inr d)
    ∧ (∀ id', id' ≠ "abcdefgh" → GetDocument st' id' = GetDocument table id').
Proof.
  apply (delete_version_frame table "abcdefgh" 1600000000).
  exists ("old", "go"). vm_compute. reflexivity.
Defined.

End StoreSamples.

(** ** What a request does to the status and to the store *)

Module StatusFacts.

Import Tokens gobin Spec.

Create HintDb settled discriminated.

Lemma settled_refl (w : http.ResponseWriter Value) : settled w w.
Proof. by left. Qed.

Lemma status_SetHeader (w : http.ResponseWriter Value) k v :
  http.status (http.SetHeader k v w) = http.status w.
Proof. unfold http.SetHeader. by destruct (http.status w) eqn:Hs. Qed.

Lemma status_WriteHeader (w : http.ResponseWriter Value) code :
  http.status (http.WriteHeader code w)
  = Some (match http.status w with Some c => c | None => code end).
Proof. unfold http.WriteHeader. by destruct (http.status w) eqn:Hs. Qed.

Lemma settled_SetHeader (w0 w : http.ResponseWriter Value) k v :
  settled w0 w → settled w0 (http.SetHeader k v w).
Proof. unfold settled. by rewrite status_SetHeader. Qed.

Lemma settled_WriteHeader (w0 w : http.ResponseWriter Value) code :
  code ∈ answers → settled w0 w → settled w0 (http.WriteHeader code w).
Proof.
  unfold settled. rewrite status_WriteHeader. intros Hc Hw.
  destruct (http.status w) eqn:Hs; [done|]. right. eauto.
Qed.

Lemma status_Write (w : http.ResponseWriter Value) v :
  http.status (http.Write v w) = http.status (http.WriteHeader http.StatusOK w).
Proof.
  unfold http.Write. destruct (http.status (http.WriteHeader http.StatusOK w)) eqn:Hs; [|done].
  by destruct (http.bodyAllowedForStatus z).
Qed.

Lemma settled_Write (w0 w : http.ResponseWriter Value) v :
  settled w0 w → settled w0 (http.Write v w).
Proof.
  intros Hw.
  assert (settled w0 (http.WriteHeader http.StatusOK w)) as H1.
  { apply settled_WriteHeader; [|done]. unfold answers. set_solver. }
  unfold settled in *. by rewrite status_Write.
Qed.

Lemma settled_json (w0 w : http.ResponseWriter Value) r v code :
  code ∈ answers → settled w0 w → settled w0 (json w r v code).
Proof.
  intros Hc Hw. unfold json. case_bool_decide.
  - by apply settled_WriteHeader, settled_SetHeader.
  - by apply settled_Write, settled_WriteHeader, settled_SetHeader.
Qed.

Lemma answers_BadRequest : http.StatusBadRequest ∈ answers.
Proof. unfold answers. set_solver. Qed.
Lemma answers_OK : http.StatusOK ∈ answers.
Proof. unfold answers. set_solver. Qed.
Lemma answers_NoContent : http.StatusNoContent ∈ answers.
Proof. unfold answers. set_solver. Qed.
Lemma answers_SeeOther : http.StatusSeeOther ∈ answers.
Proof. unfold answers. set_solver. Qed.
Lemma answers_Unauthorized : http.StatusUnauthorized ∈ answers.
Proof. unfold answers. set_solver. Qed.
Lemma answers_Forbidden : http.StatusForbidden ∈ answers.
Proof. unfold answers. set_solver. Qed.
Lemma answers_NotFound : http.StatusNotFound ∈ answers.
Proof. unfold answers. set_solver. Qed.
Lemma answers_MethodNotAllowed : http.StatusMethodNotAllowed ∈ answers.
Proof. unfold answers. set_solver. Qed.
Lemma answers_InternalServerError : http.StatusInternalServerError ∈ answers.
Proof. unfold answers. set_solver. Qed.

#[export] Hint Resolve settled_refl settled_SetHeader settled_WriteHeader settled_Write
  settled_json answers_BadRequest answers_OK answers_NoContent answers_SeeOther
  answers_Unauthorized answers_Forbidden answers_NotFound answers_MethodNotAllowed
  answers_InternalServerError : settled.

Lemma settled_error (w0 w : http.ResponseWriter Value) r e code :
  code ∈ answers → settled w0 w → settled w0 (error_ w r e code).
Proof. unfold error_. auto with settled. Qed.

Lemma settled_ok (w0 w : http.ResponseWriter Value) r v :
  settled w0 w → settled w0 (ok w r v).
Proof. unfold ok. auto with settled. Qed.

Lemma settled_documentNotFound (w0 w : http.ResponseWriter Value) r :
  settled w0 w → settled w0 (documentNotFound w r).
Proof. unfold documentNotFound, error_. auto with settled. Qed.

Lemma settled_unauthorized (w0 w : http.ResponseWriter Value) r :
  settled w0 w → settled w0 (unauthorized w r).
Proof. unfold unauthorized, error_. auto with settled. Qed.

Lemma settled_redirectRoot (w0 w : http.ResponseWriter Value) r :
  settled w0 w → settled w0 (redirectRoot w r).
Proof. unfold redirectRoot. auto with settled. Qed.

Lemma settled_prettyError (w0 w : http.ResponseWriter Value) r e code :
  code ∈ answers → settled w0 w → settled w0 (prettyError w r e code).
Proof. unfold prettyError. auto with settled. Qed.

Lemma settled_writeRaw (w0 w : http.ResponseWriter Value) r content :
  settled w0 w → settled w0 (writeRaw r w content).
Proof. unfold writeRaw. case_bool_decide; auto with settled. Qed.

#[export] Hint Resolve settled_error settled_ok settled_documentNotFound
  settled_unauthorized settled_redirectRoot settled_prettyError settled_writeRaw : settled.

Lemma settled_readBody (w0 w w1 : http.ResponseWriter Value) r content :
  readBody w r = (w1, content) → settled w0 w → settled w0 w1.
Proof.
  unfold readBody. intros Hrb Hw. repeat case_match; simplify_eq; auto with settled.
Qed.

Lemma settled_exceeds (E : Env) s (w0 w w1 : http.ResponseWriter Value) r content b :
  exceedsMaxDocumentSize E s w r content = (w1, b) → settled w0 w → settled w0 w1.
Proof.
  unfold exceedsMaxDocumentSize. intros Hex Hw. repeat case_match; simplify_eq; auto with settled.
Qed.

Lemma settled_parseA (w0 w w1 : http.ResponseWriter Value) r x :
  RoutesA.parseDocumentVersion r w = (w1, x) → settled w0 w → settled w0 w1.
Proof.
  unfold RoutesA.parseDocumentVersion. intros Hp Hw.
  repeat case_match; simplify_eq; auto with settled.
Qed.

Lemma settled_parseB (w0 w w1 : http.ResponseWriter Value) r x :
  RoutesB.parseDocumentVersion r w = (w1, x) → settled w0 w → settled w0 w1.
Proof.
  unfold RoutesB.parseDocumentVersion. intros Hp Hw.
  repeat case_match; simplify_eq; auto with settled.
Qed.

#[export] Hint Resolve settled_readBody settled_exceeds settled_parseA settled_parseB : settled.

Lemma settled_getDocumentA (w0 w w1 : http.ResponseWriter Value) s r o :
  RoutesA.getDocument s r w = (w1, o) → settled w0 w → settled w0 w1.
Proof.
  unfold RoutesA.getDocument. intros Hp Hw.
  repeat case_match; simplify_eq; eauto with settled.
Qed.

Lemma settled_getDocumentB (w0 w w1 : http.ResponseWriter Value) s r o :
  RoutesB.getDocument s r w = (w1, o) → settled w0 w → settled w0 w1.
Proof.
  unfold RoutesB.getDocument. intros Hp Hw.
  repeat case_match; simplify_eq; eauto with settled.
Qed.

#[export] Hint Resolve settled_getDocumentA settled_getDocumentB : settled.

Ltac settle := intros; repeat case_match; simplify_eq; simpl; eauto 10 with settled.

Lemma settled_share (E : Env) s r (w : http.ResponseWriter Value) :
  settled w (PostDocumentShare E s r w).1.
Proof. unfold PostDocumentShare. settle. Qed.

Lemma settled_versions s r (w : http.ResponseWriter Value) :
  settled w (DocumentVersions s r w).1.
Proof. unfold DocumentVersions. settle. Qed.

Lemma settled_serveA (E : Env) h s r (w : http.ResponseWriter Value) :
  settled w (RoutesA.serve E h s r w).1.
Proof.
  destruct h; simpl; auto using settled_share, settled_versions with settled.
  - unfold RoutesA.GetRawDocument. settle.
  - unfold RoutesA.GetRawDocumentVersion. settle.
  - unfold RoutesA.PostDocument. settle.
  - unfold RoutesA.GetDocument. settle.
  - unfold RoutesA.PatchDocument. settle.
  - unfold RoutesA.DeleteDocument. settle.
  - unfold RoutesA.GetDocumentVersion. settle.
  - unfold RoutesA.DeleteDocumentVersion. settle.
  - unfold RoutesA.GetPrettyDocument. settle.
Qed.

Lemma settled_serveB (E : Env) h s r (w : http.ResponseWriter Value) :
  settled w (RoutesB.serve E h s r w).1.
Proof.
  destruct h; simpl; auto using settled_share, settled_versions with settled.
  - unfold RoutesB.GetRawDocument. settle.
  - unfold RoutesB.PostDocument. settle.
  - unfold RoutesB.GetDocument. settle.
  - unfold RoutesB.PatchDocument. settle.
  - unfold RoutesB.DeleteDocument. settle.
  - unfold RoutesB.GetPrettyDocument. settle.
Qed.

Lemma settled_muxA (E : Env) s r (w : http.ResponseWriter Value) :
  settled w (RoutesA.mux E s r w).1.
Proof.
  unfold RoutesA.mux. destruct (RoutesA.route s r); simpl; auto with settled.
  apply settled_serveA.
Qed.

Lemma settled_muxB (E : Env) s r (w : http.ResponseWriter Value) :
  settled w (RoutesB.mux E s r w).1.
Proof.
  unfold RoutesB.mux. destruct (RoutesB.route s r); simpl; auto with settled.
  apply settled_serveB.
Qed.

(** A writer that starts without a status and is settled is not at 429. *)
Lemma settled_not_limited (w : http.ResponseWriter Value) :
  settled http.newWriter w → http.StatusCode w ≠ http.StatusTooManyRequests.
Proof.
  unfold settled, http.StatusCode. intros [Hs|(code & Hc & Hs)]; rewrite Hs; simpl.
  - done.
  - intros ->. revert Hc. apply (bool_decide_eq_false_1 _). vm_compute. reflexivity.
Qed.

End StatusFacts.

Module RouteFacts.

Import Tokens gobin Spec.

Lemma findRoute_fits {H} (fits : list string → H → bool)
    (table : list (list string * list Seg * H)) method path bound h ps :
  forallb (fun e => fits e.1.1 e.2) table = true →
  findRoute table method path bound = Found h ps →
  ∃ methods, fits methods h = true ∧ method ∈ methods.
Proof.
  revert bound. induction table as [|[[methods pattern] h'] table IH]; intros bound; simpl.
  - by destruct bound.
  - intros [Hfit Hrest]%andb_prop.
    destruct (bind pattern path); [|by apply IH].
    case_bool_decide as Hm; [|by apply IH].
    intros [= <- <-]. eauto.
Qed.

Lemma routeA_fits s r h ps :
  RoutesA.route s r = Found h ps →
  h = RoutesA.HProfiler ∨ h = RoutesA.HAssets
  ∨ ∃ methods, fitsA methods h = true ∧ http.Method r ∈ methods.
Proof.
  unfold RoutesA.route. intros Hroute.
  repeat case_match; simplify_eq;
    first [ by left
          | by right; left
          | right; right; eapply (findRoute_fits fitsA); [|eassumption]; reflexivity ].
Qed.

Lemma routeB_fits s r h ps :
  RoutesB.route s r = Found h ps →
  h = RoutesB.HProfiler ∨ h = RoutesB.HAssets
  ∨ ∃ methods, fitsB methods h = true ∧ http.Method r ∈ methods.
Proof.
  unfold RoutesB.route. intros Hroute.
  repeat case_match; simplify_eq;
    first [ by left
          | by right; left
          | right; right; eapply (findRoute_fits fitsB); [|eassumption]; reflexivity ].
Qed.

Lemma rateLimited_gatedMethod r : rateLimited r = gatedMethod (http.Method r).
Proof. reflexivity. Qed.

Lemma forallb_elem {A} (f : A → bool) (l : list A) (x : A) :
  forallb f l = true → x ∈ l → f x = true.
Proof.
  intros Hall Hx. apply list_elem_of_In in Hx.
  by apply (proj1 (forallb_forall f l) Hall).
Qed.

(** The request a route hands to a handler that only reads is not
    rate limited, the one handed to a handler that changes the store or
    issues a token is, and a handler that deletes gets DELETE requests. *)
Lemma routeA_methods s r h ps :
  RoutesA.route s r = Found h ps →
  (readOnlyA h = true → rateLimited r = false)
  ∧ (mutatingA h = true → rateLimited r = true)
  ∧ (deletesA h = true → http.Method r = http.MethodDelete).
Proof.
  intros [->|[->|(methods & Hfit & Hm)]]%routeA_fits; [by split_and!..|].
  unfold fitsA in Hfit. apply andb_prop in Hfit as [[Hr Hmut]%andb_prop Hdel].
  rewrite rateLimited_gatedMethod. split_and!.
  - intros Hh. rewrite Hh in Hr. apply negb_true_iff.
    by apply (forallb_elem (fun m => negb (gatedMethod m)) methods).
  - intros Hh. rewrite Hh in Hmut. by apply (forallb_elem gatedMethod methods).
  - intros Hh. rewrite Hh in Hdel. apply bool_decide_eq_true in Hdel. subst methods.
    by apply list_elem_of_singleton in Hm.
Qed.

Lemma routeB_methods s r h ps :
  RoutesB.route s r = Found h ps →
  (readOnlyB h = true → rateLimited r = false)
  ∧ (mutatingB h = true → rateLimited r = true)
  ∧ (deletesB h = true → http.Method r = http.MethodDelete).
Proof.
  intros [->|[->|(methods & Hfit & Hm)]]%routeB_fits; [by split_and!..|].
  unfold fitsB in Hfit. apply andb_prop in Hfit as [[Hr Hmut]%andb_prop Hdel].
  rewrite rateLimited_gatedMethod. split_and!.
  - intros Hh. rewrite Hh in Hr. apply negb_true_iff.
    by apply (forallb_elem (fun m => negb (gatedMethod m)) methods).
  - intros Hh. rewrite Hh in Hmut. by apply (forallb_elem gatedMethod methods).
  - intros Hh. rewrite Hh in Hdel. apply bool_decide_eq_true in Hdel. subst methods.
    by apply list_elem_of_singleton in Hm.
Qed.

End RouteFacts.

Module EffectFacts.

Import db StoreOps Tokens gobin Spec RouteFacts.

Create HintDb effects discriminated.

Lemma effect_refl (E : Env) (b : bool) (st : DB) : effect E b st st.
Proof. exists (GetLatest ""). by split_and!. Qed.

Lemma effect_create (E : Env) (b : bool) (st st' : DB) d content language :
  CreateDocument st (randomID E) (StoreNow E) content language = inr (d, st') →
  effect E b st st'.
Proof.
  intros Hc. exists (Create (randomID E) (StoreNow E) content language).
  simpl. rewrite Hc. by split_and!.
Qed.

Lemma effect_update (E : Env) (b : bool) (st st' : DB) id d content language :
  UpdateDocument st id (StoreNow E) content language = inr (d, st') →
  effect E b st st'.
Proof.
  intros Hu. exists (Update id (StoreNow E) content language).
  simpl. rewrite Hu. by split_and!.
Qed.

Lemma effect_delete (E : Env) (st st' : DB) id :
  DeleteDocument st id = inr st' → effect E true st st'.
Proof. intros Hd. exists (DeleteAll id). simpl. rewrite Hd. by split_and!. Qed.

Lemma effect_delete_version (E : Env) (st st' : DB) id version :
  DeleteDocumentByVersion st id version = inr st' → effect E true st st'.
Proof. intros Hd. exists (DeleteVersion id version). simpl. rewrite Hd. by split_and!. Qed.

#[export] Hint Resolve effect_refl effect_create effect_update effect_delete
  effect_delete_version : effects.

Ltac effects := intros; repeat case_match; simplify_eq; simpl; eauto with effects.

Lemma effect_serveA (E : Env) h s r (w : http.ResponseWriter Value) :
  effect E (deletesA h) (gobin.db s) (RoutesA.serve E h s r w).2.
Proof.
  destruct h; simpl; auto with effects.
  - unfold RoutesA.GetRawDocument. effects.
  - unfold RoutesA.GetRawDocumentVersion. effects.
  - unfold RoutesA.PostDocument. effects.
  - unfold RoutesA.GetDocument. effects.
  - unfold RoutesA.PatchDocument. effects.
  - unfold RoutesA.DeleteDocument. effects.
  - unfold PostDocumentShare. effects.
  - unfold DocumentVersions. effects.
  - unfold RoutesA.GetDocumentVersion. effects.
  - unfold RoutesA.DeleteDocumentVersion. effects.
  - unfold RoutesA.GetPrettyDocument. effects.
Qed.

Lemma effect_serveB (E : Env) h s r (w : http.ResponseWriter Value) :
  effect E (deletesB h) (gobin.db s) (RoutesB.serve E h s r w).2.
Proof.
  destruct h; simpl; auto with effects.
  - unfold RoutesB.GetRawDocument. effects.
  - unfold RoutesB.PostDocument. effects.
  - unfold RoutesB.GetDocument. effects.
  - unfold RoutesB.PatchDocument. effects.
  - unfold RoutesB.DeleteDocument. effects.
  - unfold PostDocumentShare. effects.
  - unfold DocumentVersions. effects.
  - unfold RoutesB.GetPrettyDocument. effects.
Qed.

(** What a request does to the table is what one operation of the store
    does to it, stamped by the environment, and a delete only for a
    DELETE request. *)
Lemma effect_muxA (E : Env) s r (w : http.ResponseWriter Value) :
  ∃ op, (RoutesA.mux E s r w).2 = after (gobin.db s) op ∧ stamped E op
        ∧ (isDelete op = true → http.Method r = http.MethodDelete).
Proof.
  unfold RoutesA.mux. destruct (RoutesA.route s r) as [h ps| |] eqn:Hroute; simpl;
    try (by exists (GetLatest "")).
  destruct (effect_serveA E h s (http.withParams r ps) w) as (op & Hop & Hst & Hdel).
  exists op. split_and!; auto. intros Hd.
  by apply (routeA_methods s r h ps Hroute), Hdel.
Qed.

Lemma effect_muxB (E : Env) s r (w : http.ResponseWriter Value) :
  ∃ op, (RoutesB.mux E s r w).2 = after (gobin.db s) op ∧ stamped E op
        ∧ (isDelete op = true → http.Method r = http.MethodDelete).
Proof.
  unfold RoutesB.mux. destruct (RoutesB.route s r) as [h ps| |] eqn:Hroute; simpl;
    try (by exists (GetLatest "")).
  destruct (effect_serveB E h s (http.withParams r ps) w) as (op & Hop & Hst & Hdel).
  exists op. split_and!; auto. intros Hd.
  by apply (routeB_methods s r h ps Hroute), Hdel.
Qed.

Lemma effect_middlewares (E : Env) s r (w : http.ResponseWriter Value)
    (mux : http.Request → http.ResponseWriter Value → Result) :
  (∀ r' w', http.Method r' = http.Method r →
     ∃ op, (mux r' w').2 = after (gobin.db s) op ∧ stamped E op
           ∧ (isDelete op = true → http.Method r' = http.MethodDelete)) →
  ∃ op, (middlewares E s r w mux).2 = after (gobin.db s) op ∧ stamped E op
        ∧ (isDelete op = true → http.Method r = http.MethodDelete).
Proof.
  intros Hmux. unfold middlewares, JWTMiddleware.
  repeat case_match; simpl; try (by exists (GetLatest ""));
    match goal with
    | |- context [mux ?r' ?w'] =>
        destruct (Hmux r' w' eq_refl) as (op & Hop & Hst & Hdel); exists op; by split_and!
    end.
Qed.

Lemma effect_RoutesA (E : Env) s r :
  ∃ op, (RoutesA.Routes E s r).2 = after (gobin.db s) op ∧ stamped E op
        ∧ (isDelete op = true → http.Method r = http.MethodDelete).
Proof.
  apply effect_middlewares. intros r' w' _. apply effect_muxA.
Qed.

Lemma effect_RoutesB (E : Env) s r :
  ∃ op, (RoutesB.Routes E s r).2 = after (gobin.db s) op ∧ stamped E op
        ∧ (isDelete op = true → http.Method r = http.MethodDelete).
Proof.
  apply effect_middlewares. intros r' w' _. apply effect_muxB.
Qed.

End EffectFacts.

(** ** The rate limiter *)

Module LimiterTheorems.

Import Tokens gobin Spec StatusFacts RouteFacts.

Lemma installed_iff s :
  rateLimiterInstalled s = true ↔
  ∃ rl, Config.RateLimit (cfg s) = Some rl
        ∧ 0 < RateLimitConfig.Requests rl ∧ 0 < RateLimitConfig.Duration rl.
Proof.
  unfold rateLimiterInstalled. destruct (Config.RateLimit (cfg s)) as [rl|]; split.
  - intros [H1 H2]%andb_prop. exists rl. split_and!; [done|lia..].
  - intros (rl' & [= <-] & H1 & H2). apply andb_true_intro. split; lia.
  - done.
  - by intros (rl' & Hrl & _).
Qed.

(** Only the rate limiter answers with 429. *)
Lemma limited_by_the_limiter (E : Env) s r
    (mux : http.Request → http.ResponseWriter Value → Result) :
  (∀ r' w, settled w (mux r' w).1) →
  http.StatusCode (middlewares E s r http.newWriter mux).1 = http.StatusTooManyRequests →
  rateLimiterInstalled s = true ∧ rateLimited r = true ∧ limitReached E = true.
Proof.
  intros Hmux. unfold middlewares, JWTMiddleware.
  repeat case_match; simpl;
    try (by intros Hs; exfalso; revert Hs; apply settled_not_limited; auto with settled).
  all: intros _; match goal with
       | H : _ && _ = true |- _ => apply andb_prop in H as [? ?]
       end; by split_and!.
Qed.

(** Without the rate limiter, or for a method it is not handed, the
    verdict of the limiter is not asked for. *)
Lemma limiter_bypassed (E : Env) verdict s r (w : http.ResponseWriter Value)
    (mux mux' : http.Request → http.ResponseWriter Value → Result) :
  (∀ r' w', mux' r' w' = mux r' w') →
  rateLimiterInstalled s = false ∨ rateLimited r = false →
  middlewares (withLimit E verdict) s r w mux' = middlewares E s r w mux.
Proof.
  intros Hmux Hoff. unfold middlewares, JWTMiddleware. simpl.
  assert (∀ c, rateLimiterInstalled s && rateLimited (http.withClaims r c) = false) as Hno.
  { intros c. destruct Hoff as [->| Hr]; [done|].
    change (rateLimited (http.withClaims r c)) with (rateLimited r). rewrite Hr.
    by destruct (rateLimiterInstalled s). }
  destruct (isHeartbeat r); [done|]. case_bool_decide.
  - by rewrite Hno, Hmux.
  - destruct (verify E _); [|done]. by rewrite Hno, Hmux.
Qed.

(** With the rate limiter installed and its limit reached, a POST, PATCH
    or DELETE request that passed the token check is answered with 429
    and does not reach the store. *)
Lemma limiter_rejects (E : Env) s r
    (mux : http.Request → http.ResponseWriter Value → Result) :
  rateLimiterInstalled s = true → rateLimited r = true → limitReached E = true →
  tokenAccepted E r →
  http.StatusCode (middlewares E s r http.newWriter mux).1 = http.StatusTooManyRequests
  ∧ (middlewares E s r http.newWriter mux).2 = db s.
Proof.
  intros Hin Hr Hlim Htok. unfold middlewares, JWTMiddleware.
  assert (isHeartbeat r = false) as ->.
  { unfold isHeartbeat. unfold rateLimited in Hr.
    unfold http.MethodGet, http.MethodHead, http.MethodPost, http.MethodPatch,
      http.MethodDelete in *.
    repeat case_bool_decide; simpl in *; try done; congruence. }
  assert (∀ c, rateLimiterInstalled s && rateLimited (http.withClaims r c) = true) as Hyes.
  { intros c. change (rateLimited (http.withClaims r c)) with (rateLimited r).
    by rewrite Hin, Hr. }
  case_bool_decide as Hauth.
  - rewrite Hyes, Hlim. simpl. split; [|done].
    unfold rateLimit. by rewrite WriterFacts.error_StatusCode.
  - destruct Htok as [Htok|[c Hc]]; [done|]. rewrite Hc, Hyes, Hlim. simpl. split; [|done].
    unfold rateLimit. by rewrite WriterFacts.error_StatusCode.
Qed.

(** C6. The rate limiter is installed when the configuration has a
    budget and a window that are both positive. Where it is not
    installed, and for every request that is no POST, PATCH or DELETE,
    its verdict is not asked for and the request is not answered with 429;
    a request is answered with 429 only with the limiter installed, a
    POST, PATCH or DELETE method and the limit reached. The routes of the
    handlers that only read are registered for methods that are not
    handed to the limiter, the routes of the handlers that change the
    store or issue a token for methods that are. *)
Theorem rate_limiter_gates_mutations (E : Env) s r :
  (rateLimiterInstalled s = true ↔
     ∃ rl, Config.RateLimit (cfg s) = Some rl
           ∧ 0 < RateLimitConfig.Requests rl ∧ 0 < RateLimitConfig.Duration rl)
  ∧ (rateLimiterInstalled s = false ∨ rateLimited r = false →
       ¬ rejectedAsRateLimited (RoutesA.Routes E s r)
       ∧ ¬ rejectedAsRateLimited (RoutesB.Routes E s r)
       ∧ ∀ verdict,
           RoutesA.Routes (withLimit E verdict) s r = RoutesA.Routes E s r
           ∧ RoutesB.Routes (withLimit E verdict) s r = RoutesB.Routes E s r)
  ∧ (rejectedAsRateLimited (RoutesA.Routes E s r)
     ∨ rejectedAsRateLimited (RoutesB.Routes E s r) →
       rateLimiterInstalled s = true ∧ rateLimited r = true ∧ limitReached E = true)
  ∧ (∀ h ps, RoutesA.route s r = Found h ps →
       (readOnlyA h = true → rateLimited r = false)
       ∧ (mutatingA h = true → rateLimited r = true))
  ∧ (∀ h ps, RoutesB.route s r = Found h ps →
       (readOnlyB h = true → rateLimited r = false)
       ∧ (mutatingB h = true → rateLimited r = true))
  ∧ (rateLimiterInstalled s = true → rateLimited r = true → limitReached E = true →
     tokenAccepted E r →
       rejectedAsRateLimited (RoutesA.Routes E s r) ∧ (RoutesA.Routes E s r).2 = db s
       ∧ rejectedAsRateLimited (RoutesB.Routes E s r) ∧ (RoutesB.Routes E s r).2 = db s).
Proof.
  assert (rejectedAsRateLimited (RoutesA.Routes E s r)
          ∨ rejectedAsRateLimited (RoutesB.Routes E s r) →
          rateLimiterInstalled s = true ∧ rateLimited r = true ∧ limitReached E = true)
    as Hrejected.
  { unfold rejectedAsRateLimited, RoutesA.Routes, RoutesB.Routes. intros [Hs|Hs].
    - eapply limited_by_the_limiter; [|exact Hs]. intros. apply settled_muxA.
    - eapply limited_by_the_limiter; [|exact Hs]. intros. apply settled_muxB. }
  split_and!.
  - apply installed_iff.
  - intros Hoff.
    assert (¬ (rateLimiterInstalled s = true ∧ rateLimited r = true ∧ limitReached E = true))
      as Hno by (intros (Hi & Hr & _); destruct Hoff; congruence).
    split_and!.
    + intros Hs. apply Hno, Hrejected. by left.
    + intros Hs. apply Hno, Hrejected. by right.
    + intros verdict. unfold RoutesA.Routes, RoutesB.Routes.
      split; apply limiter_bypassed; auto; intros; reflexivity.
  - done.
  - intros h ps Hroute. destruct (routeA_methods s r h ps Hroute) as (? & ? & _). done.
  - intros h ps Hroute. destruct (routeB_methods s r h ps Hroute) as (? & ? & _). done.
  - intros Hin Hr Hlim Htok. unfold rejectedAsRateLimited, RoutesA.Routes, RoutesB.Routes.
    destruct (limiter_rejects E s r (RoutesA.mux E s) Hin Hr Hlim Htok) as [? ?].
    destruct (limiter_rejects E s r (RoutesB.mux E s) Hin Hr Hlim Htok) as [? ?].
    done.
Qed.

End LimiterTheorems.

Module LimiterSamples.

Import Tokens gobin Spec Samples LimiterTheorems.

(** With a budget of 2 requests in 60 and the limit reached, a read is
    answered as if there were no limiter. *)
Lemma rate_limiter_gates_mutations_at_sample :
  RoutesB.Routes (withLimit env true) limitedServer readRequest
  = RoutesB.Routes env limitedServer readRequest.
Proof.
  refine (proj2 (proj2 (proj2 (proj1 (proj2 (rate_limiter_gates_mutations
            env limitedServer readRequest)) _)) true)).
  right. reflexivity.
Defined.

Example limiter_examples :
  http.StatusCode (RoutesA.Routes (withLimit env true) limitedServer createRequest).1
  = http.StatusTooManyRequests
  ∧ http.StatusCode (RoutesA.Routes (withLimit env true) limitedServer readRequest).1
    = http.StatusOK
  ∧ http.StatusCode (RoutesA.Routes (withLimit env true) server createRequest).1
    = http.StatusOK.
Proof. split_and!; vm_compute; reflexivity. Qed.

End LimiterSamples.

(** ** The version of a request *)

Module VersionTheorems.

Import Tokens gobin Spec WriterFacts GateFacts.

Lemma RoutesA_parse_malformed r (w : http.ResponseWriter Value) :
  malformedVersion r →
  RoutesA.parseDocumentVersion r w = (documentNotFound w r, ("", -1)).
Proof.
  intros [Hne [e He]]. unfold RoutesA.parseDocumentVersion.
  destruct (bool_decide _ || bool_decide _); [done|]. by rewrite He.
Qed.

Lemma RoutesB_parse_malformed r (w : http.ResponseWriter Value) :
  malformedVersion r →
  RoutesB.parseDocumentVersion r w = (documentNotFound w r, -1).
Proof.
  intros [Hne [e He]]. unfold RoutesB.parseDocumentVersion.
  rewrite bool_decide_eq_false_2 by done. by rewrite He.
Qed.

Lemma RoutesB_parse_zero r (w : http.ResponseWriter Value) :
  versionZero r → RoutesB.parseDocumentVersion r w = (w, 0).
Proof.
  intros [Hv|Hv]; unfold RoutesB.parseDocumentVersion.
  - by rewrite bool_decide_eq_true_2.
  - case_bool_decide; [done|]. by rewrite Hv.
Qed.

(** C8, as the code has it. A request whose version is there and is no
    integer is answered with the 404 of [documentNotFound] by every
    handler that reads the version, in both snapshots, and the store is
    left untouched. *)
Theorem malformed_version_is_NotFound (E : Env) s r w :
  malformedVersion r →
  RoutesA.GetDocumentVersion s r w = (documentNotFound w r, db s)
  ∧ RoutesA.DeleteDocumentVersion s r w = (documentNotFound w r, db s)
  ∧ RoutesA.GetRawDocumentVersion s r w = (documentNotFound w r, db s)
  ∧ RoutesB.DeleteDocument s r w = (documentNotFound w r, db s)
  ∧ RoutesB.GetPrettyDocument E s r w = (documentNotFound w r, db s)
  ∧ RoutesB.GetDocumentVersion s r w = (documentNotFound w r, db s)
  ∧ (http.URLParam r "documentID" ≠ "" →
     RoutesB.GetDocument E s r w = (documentNotFound w r, db s)
     ∧ RoutesB.GetRawDocument s r w = (documentNotFound w r, db s))
  ∧ (http.status w = None →
     http.StatusCode (documentNotFound w r) = http.StatusNotFound
     ∧ http.StatusCode (documentNotFound w r) ≠ http.StatusBadRequest).
Proof.
  intros Hbad.
  pose proof (RoutesA_parse_malformed r w Hbad) as HA.
  pose proof (RoutesB_parse_malformed r w Hbad) as HB.
  split_and!.
  - unfold RoutesA.GetDocumentVersion. by rewrite HA.
  - unfold RoutesA.DeleteDocumentVersion. by rewrite HA.
  - unfold RoutesA.GetRawDocumentVersion. by rewrite HA.
  - unfold RoutesB.DeleteDocument. by rewrite HB.
  - unfold RoutesB.GetPrettyDocument. by rewrite HB.
  - unfold RoutesB.GetDocumentVersion. by rewrite HB.
  - intros Hid.
    assert (RoutesB.getDocument s r w = (documentNotFound w r, None)) as Hget.
    { unfold RoutesB.getDocument. rewrite bool_decide_eq_false_2 by done. by rewrite HB. }
    unfold RoutesB.GetDocument, RoutesB.GetRawDocument. by rewrite Hget.
  - intros Hw. rewrite documentNotFound_StatusCode by done. done.
Qed.

(** With the wall clock past the epoch, an operation of the store
    leaves no row of version 0 in a table that had none. *)
Lemma after_noVersionZero (E : Env) (st : db.DB) (op : StoreOps.Op) :
  clockPlausible E → stamped E op → noVersionZero st →
  noVersionZero (StoreOps.after st op).
Proof.
  unfold clockPlausible, noVersionZero. intros Hclock Hop Hst id.
  assert (∀ d, db.Version d = db.nextVersion (StoreNow E) →
            match db.insertDocument st d with
            | inr (_, st') => st'
            | inl _ => st
            end !! (id, 0) = None) as Hinsert.
  { intros d Hd. unfold db.insertDocument. destruct (st !! (db.ID d, db.Version d)); [done|].
    rewrite lookup_insert_ne; [done|]. unfold db.nextVersion in Hd. intros [= _ Hv]. lia. }
  destruct op as [newID now c l| | | |id0 now c l|id0|id0 v|]; simpl in *; try done.
  - destruct Hop as [-> ->]. unfold db.CreateDocument. by apply Hinsert.
  - subst now. unfold db.UpdateDocument. destruct (db.documentsOf st id0); [done|].
    by apply Hinsert.
  - unfold db.DeleteDocument. destruct (db.documentsOf st id0); [done|].
    apply map_lookup_filter_None. by left.
  - unfold db.DeleteDocumentByVersion. destruct (st !! (id0, v)); [|done].
    apply lookup_delete_None. by right.
Qed.

(** C5. In [RoutesB] a request without a version, or with the version 0,
    is read as version 0; the read handlers then return the latest
    version and the delete handler deletes the whole document, and
    neither looks up a row of version 0. And with the wall clock past the
    epoch the Version Clock does not give 0, and no request leaves a row
    of version 0 in a table that had none. *)
Theorem version_zero_is_latest (E : Env) s r w :
  versionZero r →
  clockPlausible E →
  RoutesB.parseDocumentVersion r w = (w, 0)
  ∧ (http.URLParam r "documentID" ≠ "" →
     RoutesB.getDocument s r w =
       match db.GetDocument (db s) (http.URLParam r "documentID") with
       | inl db.ErrNoRows => (documentNotFound w r, None)
       | inl e => (error_ w r (ErrStore e) http.StatusInternalServerError, None)
       | inr document => (w, Some document)
       end)
  ∧ (holds r PermissionDelete →
     RoutesB.DeleteDocument s r w =
       match db.DeleteDocument (db s) (http.URLParam r "documentID") with
       | inl db.ErrNoRows => (documentNotFound w r, db s)
       | inl e => (error_ w r (ErrStore e) http.StatusInternalServerError, db s)
       | inr st =>
           (ok (http.WriteHeader http.StatusNoContent w) r
               (VDelete (db.GetVersionCount st (http.URLParam r "documentID"))), st)
       end)
  ∧ db.nextVersion (StoreNow E) ≠ 0
  ∧ (noVersionZero (db s) → ∀ r', noVersionZero (RoutesB.Routes E s r').2).
Proof.
  intros Hzero Hclock. pose proof (RoutesB_parse_zero r w Hzero) as Hparse.
  split_and!.
  - done.
  - intros Hid. unfold RoutesB.getDocument.
    rewrite bool_decide_eq_false_2 by done. by rewrite Hparse.
  - intros Hyes. unfold RoutesB.DeleteDocument. rewrite Hparse. simpl.
    by rewrite gate_open.
  - unfold clockPlausible in Hclock. unfold db.nextVersion. lia.
  - intros Hst r'. destruct (EffectFacts.effect_RoutesB E s r') as (op & -> & Hop & _).
    by apply (after_noVersionZero E).
Qed.

(** Not so in [RoutesA], and not so in the handler [GetDocumentVersion]
    of [RoutesB], which [Routes] does not register: there the version 0
    is looked up as a row. *)
Lemma version_zero_is_looked_up s r w :
  http.URLParam r "documentID" ≠ "" →
  http.URLParam r "version" ≠ "" →
  strconv.ParseInt (http.URLParam r "version") = inr 0 →
  RoutesA.GetDocumentVersion s r w =
    match db.GetDocumentVersion (db s) (http.URLParam r "documentID") 0 with
    | inl db.ErrNoRows => (documentNotFound w r, db s)
    | inl e => (error_ w r (ErrStore e) http.StatusInternalServerError, db s)
    | inr document =>
        (ok w r (VDocument (DocumentResponse.mk (db.ID document) (db.Version document) "" ""
                              (db.Content document) "" "" (db.Language document) "")), db s)
    end
  ∧ RoutesB.GetDocumentVersion s r w = RoutesA.GetDocumentVersion s r w.
Proof.
  intros Hid Hv Hparse.
  unfold RoutesA.GetDocumentVersion, RoutesB.GetDocumentVersion,
    RoutesA.parseDocumentVersion, RoutesB.parseDocumentVersion.
  rewrite !bool_decide_eq_false_2 by done. simpl. rewrite Hparse.
  rewrite !bool_decide_eq_false_2 by done. done.
Qed.

End VersionTheorems.

Module VersionSamples.

Import Tokens gobin Spec Samples VersionTheorems.

(** C8 as the spec states it fails: the version "abc" is answered with
    404 Not Found, not with the 400 of malformed input, in both
    snapshots and for a read as for a delete. *)
Lemma version_abc_is_NotFound :
  malformedVersion (routed "GET" [("documentID", "abcdefgh"); ("version", "abc")] EmptyClaims "")
  ∧ http.StatusCode (RoutesA.Routes env server getVersionAbc).1 = http.StatusNotFound
  ∧ http.StatusCode (RoutesB.Routes env server getVersionAbc).1 = http.StatusNotFound
  ∧ http.StatusCode (RoutesA.Routes env server deleteVersionAbc).1 = http.StatusNotFound
  ∧ http.StatusCode (RoutesB.Routes env server deleteVersionAbc).1 = http.StatusNotFound
  ∧ http.StatusNotFound ≠ http.StatusBadRequest.
Proof.
  split_and!.
  - split; [discriminate|]. exists strconv.ErrSyntax. reflexivity.
  - vm_compute. reflexivity.
  - vm_compute. reflexivity.
  - vm_compute. reflexivity.
  - vm_compute. reflexivity.
  - vm_compute. discriminate.
Qed.

Lemma malformed_version_is_NotFound_at_sample :
  RoutesA.GetDocumentVersion server
    (routed "GET" [("documentID", "abcdefgh"); ("version", "abc")] EmptyClaims "")
    http.newWriter
  = (documentNotFound http.newWriter
       (routed "GET" [("documentID", "abcdefgh"); ("version", "abc")] EmptyClaims ""),
     db server).
Proof.
  refine (proj1 (malformed_version_is_NotFound env server
            (routed "GET" [("documentID", "abcdefgh"); ("version", "abc")] EmptyClaims "")
            http.newWriter _)).
  split; [discriminate|]. exists strconv.ErrSyntax. reflexivity.
Defined.

(** Version "0" of a document with two versions: the latest is returned. *)
Lemma version_zero_is_latest_at_sample :
  RoutesB.getDocument server
    (routed "GET" [("documentID", "abcdefgh"); ("version", "0")] EmptyClaims "")
    http.newWriter
  = (http.newWriter, Some (db.mkDocument "abcdefgh" 1700000000 "hello" "go")).
Proof.
  refine (eq_trans (proj1 (proj2 (version_zero_is_latest env server
            (routed "GET" [("documentID", "abcdefgh"); ("version", "0")] EmptyClaims "")
            http.newWriter _ _)) _) _).
  - right. reflexivity.
  - unfold clockPlausible. vm_compute. reflexivity.
  - discriminate.
  - vm_compute. reflexivity.
Defined.

End VersionSamples.

(** ** The rows of the table *)

Module RowTheorems.

Import db StoreOps StoreFacts StoreTheorems Tokens gobin Spec EffectFacts.

(** C3. For every document the stored versions are totally ordered, the
    key (id, version) identifies at most one row and a second row under
    an existing key is refused, and every operation of the store other
    than the two deletes keeps each existing row as it is: create and
    update add at most one row, under a key that was free. Through the
    handlers, a request that is no DELETE keeps every row as it is. *)
Theorem rows_are_immutable (E : Env) s r (op : Op) :
  isDelete op = false →
  http.Method r ≠ http.MethodDelete →
  (∀ id d1 d2, d1 ∈ documentsOf (gobin.db s) id → d2 ∈ documentsOf (gobin.db s) id →
     Version d1 < Version d2 ∨ d1 = d2 ∨ Version d2 < Version d1)
  ∧ (∀ d1 d2, d1 ∈ documents (gobin.db s) → d2 ∈ documents (gobin.db s) →
       ID d1 = ID d2 → Version d1 = Version d2 → d1 = d2)
  ∧ (∀ d, is_Some (gobin.db s !! (ID d, Version d)) →
       insertDocument (gobin.db s) d = inl ErrConflict)
  ∧ (∀ d, d ∈ documents (gobin.db s) → d ∈ documents (after (gobin.db s) op))
  ∧ (after (gobin.db s) op = gobin.db s
     ∨ ∃ d, written op = Some d ∧ gobin.db s !! (ID d, Version d) = None
            ∧ after (gobin.db s) op
              = <[(ID d, Version d) := (Content d, Language d)]> (gobin.db s))
  ∧ (∀ d, d ∈ documents (gobin.db s) →
       d ∈ documents (RoutesA.Routes E s r).2 ∧ d ∈ documents (RoutesB.Routes E s r).2).
Proof.
  intros Hop Hmethod. split_and!.
  - intros id d1 d2 H1 H2.
    destruct (Z.lt_trichotomy (Version d1) (Version d2)) as [?|[Heq|?]]; auto.
    right; left. by apply (documentsOf_version_inj (gobin.db s) id).
  - intros d1 d2 H1%elem_of_documents H2%elem_of_documents Hid Hv.
    rewrite Hid, Hv in H1. rewrite H1 in H2. destruct d1, d2; simpl in *. congruence.
  - intros d [cl Hlook]. unfold insertDocument. by rewrite Hlook.
  - intros d Hd. by apply after_keeps.
  - by apply after_append.
  - intros d Hd. split.
    + destruct (effect_RoutesA E s r) as (op' & -> & _ & Hdel).
      apply after_keeps; [|done]. destruct (isDelete op'); [|done]. by destruct Hmethod, Hdel.
    + destruct (effect_RoutesB E s r) as (op' & -> & _ & Hdel).
      apply after_keeps; [|done]. destruct (isDelete op'); [|done]. by destruct Hmethod, Hdel.
Qed.

End RowTheorems.

Module RowSamples.

Import db StoreOps Tokens gobin Spec Samples RowTheorems.

(** The old version of the sample document is still there after an
    update of the document, and after a request that creates another. *)
Lemma rows_are_immutable_at_sample :
  mkDocument "abcdefgh" 1600000000 "old" "go"
  ∈ documents (after table (Update "abcdefgh" (time.Unix time.UTC 1700000500) "new" "go"))
  ∧ mkDocument "abcdefgh" 1600000000 "old" "go"
    ∈ documents (RoutesA.Routes env server createRequest).2.
Proof.
  destruct (rows_are_immutable env server createRequest
              (Update "abcdefgh" (time.Unix time.UTC 1700000500) "new" "go")
              eq_refl ltac:(discriminate)) as (_ & _ & _ & Hop & _ & Hroutes).
  assert (mkDocument "abcdefgh" 1600000000 "old" "go" ∈ documents (gobin.db server)) as Hin.
  { apply StoreFacts.elem_of_documents. vm_compute. reflexivity. }
  split; [exact (Hop _ Hin) | exact (proj1 (Hroutes _ Hin))].
Defined.

End RowSamples.

(** ** The label of a version *)

Module LabelTheorems.

Import Tokens gobin Spec Samples.

(** C10. The label [FormatDocumentVersion] gives a version is the one of
    the first calendar component, in the order year, month, day, hour,
    minute, in which the version is strictly less than now, counted as
    the difference of that component alone, and falls through to the
    difference of the seconds. It is no function of the time elapsed: one
    second across the turn of a year is labelled a year, one second
    within a minute a second, and 364 days within a year eleven months. *)
Theorem label_is_by_first_earlier_component (E : Env) (now : time.Time) (versionRaw : Z) :
  FormatDocumentVersion E now versionRaw
  = (labelOf (time.Unix (Local E) versionRaw) now,
     time.Format (time.Unix (Local E) versionRaw))
  ∧ time.unixSec (time.Unix time.UTC 1672531200) - 1672531199 = 1
  ∧ time.unixSec (time.Unix time.UTC 1672531201) - 1672531200 = 1
  ∧ (FormatDocumentVersion env (time.Unix time.UTC 1672531200) 1672531199).1 = "1 years ago"
  ∧ (FormatDocumentVersion env (time.Unix time.UTC 1672531201) 1672531200).1 = "1 seconds ago"
  ∧ time.unixSec (time.Unix time.UTC 1703980800) - 1672531200 = 364 * 86400
  ∧ (FormatDocumentVersion env (time.Unix time.UTC 1703980800) 1672531200).1 = "11 months ago".
Proof.
  split_and!; [|vm_compute; reflexivity..].
  unfold FormatDocumentVersion, labelOf, calendar. cbn [firstEarlier fst snd].
  repeat (destruct (_ <? _); [reflexivity|]). reflexivity.
Qed.

End LabelTheorems.

(** ** The store behind the handlers *)

Module HandlerStore.

Import db StoreOps StoreFacts StoreTheorems Tokens gobin Spec GateFacts.

Lemma exceeds_false (E : Env) s (w : http.ResponseWriter Value) r content :
  (exceedsMaxDocumentSize E s w r content).2 = false →
  exceedsMaxDocumentSize E s w r content = (w, false).
Proof. unfold exceedsMaxDocumentSize. by destruct (_ && _). Qed.

(** [PostDocument] of [RoutesA] hands the body and the [Language] header
    to [CreateDocument]; a read of the latest version of the new
    document right after returns both. *)
Lemma PostDocument_then_getDocument_A (E : Env) s r w (content : string) :
  http.Body r = Some content → content ≠ "" →
  (exceedsMaxDocumentSize E s w r content).2 = false →
  documentsOf (gobin.db s) (randomID E) = [] → randomID E ≠ "" →
  ∀ r' (w' : http.ResponseWriter Value),
    http.URLParam r' "documentID" = randomID E →
    RoutesA.getDocument
      (mkServer (version s) (cfg s) (RoutesA.PostDocument E s r w).2) r' w'
    = (w', Some (mkDocument (randomID E) (nextVersion (StoreNow E)) content
                   (http.assoc "Language" (http.Header r)))).
Proof.
  intros Hbody Hne Hsize Hfresh Hid r' w' Hparam.
  destruct (create_fresh (gobin.db s) (randomID E) (StoreNow E) content
              (http.assoc "Language" (http.Header r)) Hfresh) as [Hcreate Hget].
  assert ((RoutesA.PostDocument E s r w).2
          = <[(randomID E, nextVersion (StoreNow E))
              := (content, http.assoc "Language" (http.Header r))]> (gobin.db s)) as ->.
  { unfold RoutesA.PostDocument.
    rewrite (GateTheorems.readBody_content w r content) by done.
    rewrite bool_decide_eq_false_2 by done. rewrite exceeds_false by done.
    rewrite Hcreate. simpl. destruct (NewToken E _ _); [|done].
    by destruct (FormatDocumentVersion E (Now E) _). }
  unfold RoutesA.getDocument. simpl. rewrite Hparam.
  rewrite bool_decide_eq_false_2 by done. by rewrite Hget.
Qed.

(** [PostDocument] of [RoutesB] hands the body and the name of the lexer
    it chose for the [Language] header and the body to [CreateDocument];
    a read of the latest version right after returns both. *)
Lemma PostDocument_then_getDocument_B (E : Env) s r w (content : string) :
  http.Body r = Some content → content ≠ "" → contextDone E = false →
  (exceedsMaxDocumentSize E s w r content).2 = false →
  documentsOf (gobin.db s) (randomID E) = [] → randomID E ≠ "" →
  ∀ r' (w' : http.ResponseWriter Value),
    http.URLParam r' "documentID" = randomID E → http.URLParam r' "version" = "" →
    RoutesB.getDocument
      (mkServer (version s) (cfg s) (RoutesB.PostDocument E s r w).2) r' w'
    = (w', Some (mkDocument (randomID E) (nextVersion (StoreNow E)) content
                   (RoutesB.lexerFor E (http.assoc "Language" (http.Header r)) content))).
Proof.
  intros Hbody Hne Hdone Hsize Hfresh Hid r' w' Hparam Hversion.
  destruct (create_fresh (gobin.db s) (randomID E) (StoreNow E) content
              (RoutesB.lexerFor E (http.assoc "Language" (http.Header r)) content) Hfresh)
    as [Hcreate Hget].
  assert ((RoutesB.PostDocument E s r w).2
          = <[(randomID E, nextVersion (StoreNow E))
              := (content, RoutesB.lexerFor E (http.assoc "Language" (http.Header r)) content)]>
              (gobin.db s)) as ->.
  { unfold RoutesB.PostDocument.
    rewrite (GateTheorems.readBody_content w r content) by done.
    rewrite bool_decide_eq_false_2 by done. rewrite Hdone, exceeds_false by done.
    rewrite Hcreate. repeat case_match; done. }
  unfold RoutesB.getDocument, RoutesB.parseDocumentVersion. simpl. rewrite Hparam, Hversion.
  rewrite bool_decide_eq_false_2 by done. simpl. by rewrite Hget.
Qed.

(** The two handlers that delete one version ask the store to delete
    the version the request names, of the document it names. *)
Lemma DeleteDocumentVersion_A_store s r w (version : Z) :
  http.URLParam r "documentID" ≠ "" → http.URLParam r "version" ≠ "" →
  strconv.ParseInt (http.URLParam r "version") = inr version →
  (RoutesA.DeleteDocumentVersion s r w).2
  = after (gobin.db s) (DeleteVersion (http.URLParam r "documentID") version).
Proof.
  intros Hid Hv Hparse. unfold RoutesA.DeleteDocumentVersion, RoutesA.parseDocumentVersion.
  rewrite !bool_decide_eq_false_2 by done. simpl. rewrite Hparse.
  rewrite bool_decide_eq_false_2 by done. simpl.
  by destruct (DeleteDocumentByVersion _ _ _) as [[]|].
Qed.

Lemma DeleteDocument_B_store s r w (version : Z) :
  holds r PermissionDelete → http.URLParam r "version" ≠ "" →
  strconv.ParseInt (http.URLParam r "version") = inr version →
  version ≠ 0 → version ≠ -1 →
  (RoutesB.DeleteDocument s r w).2
  = after (gobin.db s) (DeleteVersion (http.URLParam r "documentID") version).
Proof.
  intros Hyes Hv Hparse H0 H1. unfold RoutesB.DeleteDocument, RoutesB.parseDocumentVersion.
  rewrite bool_decide_eq_false_2 by done. rewrite Hparse.
  rewrite bool_decide_eq_false_2 by done. rewrite gate_open by done.
  rewrite bool_decide_eq_false_2 by done. simpl.
  by destruct (DeleteDocumentByVersion _ _ _) as [[]|].
Qed.

(** [DeleteDocumentVersion] of [RoutesA] does not look at the claims. *)
Lemma DeleteDocumentVersion_A_ignores_claims s r w claims :
  RoutesA.DeleteDocumentVersion s (http.withClaims r claims) w
  = RoutesA.DeleteDocumentVersion s r w.
Proof. reflexivity. Qed.

End HandlerStore.

(** ** Further properties: what the handlers do to the store *)

Module StoreThroughHandlers.

Import db StoreOps StoreFacts Tokens gobin Spec More RouteFacts.

Lemma serveA_reads (E : Env) h s r (w : http.ResponseWriter Value) :
  mutatingA h = false → (RoutesA.serve E h s r w).2 = gobin.db s.
Proof.
  destruct h; simpl; try discriminate; intros _; try reflexivity.
  - unfold RoutesA.GetRawDocument. by repeat case_match.
  - unfold RoutesA.GetRawDocumentVersion. by repeat case_match.
  - unfold RoutesA.GetDocument. by repeat case_match.
  - unfold DocumentVersions. by repeat case_match.
  - unfold RoutesA.GetDocumentVersion. by repeat case_match.
  - unfold RoutesA.GetPrettyDocument. by repeat case_match.
Qed.

Lemma serveB_reads (E : Env) h s r (w : http.ResponseWriter Value) :
  mutatingB h = false → (RoutesB.serve E h s r w).2 = gobin.db s.
Proof.
  destruct h; simpl; try discriminate; intros _; try reflexivity.
  - unfold RoutesB.GetRawDocument. by repeat case_match.
  - unfold RoutesB.GetDocument. by repeat case_match.
  - unfold DocumentVersions. by repeat case_match.
  - unfold RoutesB.GetPrettyDocument. by repeat case_match.
Qed.

Lemma middlewares_keep (E : Env) s r (w : http.ResponseWriter Value)
    (mux : http.Request → http.ResponseWriter Value → Result) :
  (∀ c w', (mux (http.withClaims r c) w').2 = gobin.db s) →
  (middlewares E s r w mux).2 = gobin.db s.
Proof.
  intros Hmux. unfold middlewares, JWTMiddleware. repeat case_match; simpl; auto.
Qed.

(** X1. A request that is no POST, PATCH or DELETE leaves the table
    exactly as it was, in both snapshots. *)
Theorem reads_leave_the_table (E : Env) s r :
  rateLimited r = false →
  (RoutesA.Routes E s r).2 = gobin.db s ∧ (RoutesB.Routes E s r).2 = gobin.db s.
Proof.
  intros Hread. split; apply middlewares_keep; intros c w'.
  - unfold RoutesA.mux.
    destruct (RoutesA.route s (http.withClaims r c)) as [h ps| |] eqn:Hroute; try done.
    apply serveA_reads. destruct (mutatingA h) eqn:Hm; [|done].
    destruct (routeA_methods _ _ _ _ Hroute) as (_ & Hmut & _).
    specialize (Hmut Hm). change (rateLimited r = true) in Hmut. congruence.
  - unfold RoutesB.mux.
    destruct (RoutesB.route s (http.withClaims r c)) as [h ps| |] eqn:Hroute; try done.
    apply serveB_reads. destruct (mutatingB h) eqn:Hm; [|done].
    destruct (routeB_methods _ _ _ _ Hroute) as (_ & Hmut & _).
    specialize (Hmut Hm). change (rateLimited r = true) in Hmut. congruence.
Qed.

End StoreThroughHandlers.

(** ** Further properties: the documents a request does not name *)

Module Isolation.

Import db StoreOps StoreFacts Tokens gobin Spec More RouteFacts.

Create HintDb apart discriminated.

Lemma apart_refl (id newID : string) (st : DB) : apartFrom id newID st st.
Proof. by intros id' v _ _. Qed.

Lemma apart_insert (id newID : string) (st st' : DB) (d d' : Document) :
  insertDocument st d = inr (d', st') → ID d = id ∨ ID d = newID →
  apartFrom id newID st st'.
Proof.
  intros (-> & _ & ->)%insertDocument_inr Hid id' v H1 H2.
  apply lookup_insert_ne. intros [= Heq _]. destruct Hid; congruence.
Qed.

Lemma apart_create (E : Env) (id : string) (st st' : DB) d content language :
  CreateDocument st (randomID E) (StoreNow E) content language = inr (d, st') →
  apartFrom id (randomID E) st st'.
Proof. unfold CreateDocument. intros Hc. eapply apart_insert; [exact Hc|]. by right. Qed.

(** the gate of a handler, passed *)
Lemma gate_subject (r : http.Request) (p : Permission) :
  negb (bool_decide (Subject (GetClaims r) = http.URLParam r "documentID"))
  || negb (Contains (Permissions (GetClaims r)) p) = false →
  http.URLParam r "documentID" = Subject (http.Claims r).
Proof.
  unfold GetClaims. case_bool_decide; [done|]. simpl. discriminate.
Qed.

Lemma apart_update (r : http.Request) (p : Permission) (newID : string)
    (st st' : DB) now d content language :
  negb (bool_decide (Subject (GetClaims r) = http.URLParam r "documentID"))
  || negb (Contains (Permissions (GetClaims r)) p) = false →
  UpdateDocument st (http.URLParam r "documentID") now content language = inr (d, st') →
  apartFrom (Subject (http.Claims r)) newID st st'.
Proof.
  intros Hgate%gate_subject. unfold UpdateDocument. destruct (documentsOf st _); [done|].
  intros Hi. eapply apart_insert; [exact Hi|]. by left.
Qed.

Lemma apart_delete (r : http.Request) (p : Permission) (newID : string) (st st' : DB) :
  negb (bool_decide (Subject (GetClaims r) = http.URLParam r "documentID"))
  || negb (Contains (Permissions (GetClaims r)) p) = false →
  DeleteDocument st (http.URLParam r "documentID") = inr st' →
  apartFrom (Subject (http.Claims r)) newID st st'.
Proof.
  intros Hgate%gate_subject. unfold DeleteDocument. destruct (documentsOf st _); [done|].
  intros [= <-] id' v H1 H2.
  destruct (st !! (id', v)) as [cl|] eqn:Hlook.
  - apply map_lookup_filter_Some. split; [done|]. simpl. congruence.
  - apply map_lookup_filter_None. by left.
Qed.

Lemma apart_delete_version (r : http.Request) (p : Permission) (newID : string)
    (st st' : DB) version :
  negb (bool_decide (Subject (GetClaims r) = http.URLParam r "documentID"))
  || negb (Contains (Permissions (GetClaims r)) p) = false →
  DeleteDocumentByVersion st (http.URLParam r "documentID") version = inr st' →
  apartFrom (Subject (http.Claims r)) newID st st'.
Proof.
  intros Hgate%gate_subject. unfold DeleteDocumentByVersion. destruct (st !! _); [|done].
  intros [= <-] id' v H1 H2. apply lookup_delete_ne. congruence.
Qed.

#[export] Hint Resolve apart_refl apart_create apart_update apart_delete
  apart_delete_version : apart.

Ltac apart := intros; repeat case_match; simplify_eq; simpl; eauto with apart.

Lemma apart_serveB (E : Env) h s r (w : http.ResponseWriter Value) :
  apartFrom (Subject (http.Claims r)) (randomID E) (gobin.db s) (RoutesB.serve E h s r w).2.
Proof.
  destruct h; simpl; auto with apart.
  - unfold RoutesB.GetRawDocument. apart.
  - unfold RoutesB.PostDocument. apart.
  - unfold RoutesB.GetDocument. apart.
  - unfold RoutesB.PatchDocument. apart.
  - unfold RoutesB.DeleteDocument. apart.
  - unfold PostDocumentShare. apart.
  - unfold DocumentVersions. apart.
  - unfold RoutesB.GetPrettyDocument. apart.
Qed.

Lemma apart_serveA (E : Env) h s r (w : http.ResponseWriter Value) :
  h ≠ RoutesA.HDeleteDocumentVersion →
  apartFrom (Subject (http.Claims r)) (randomID E) (gobin.db s) (RoutesA.serve E h s r w).2.
Proof.
  destruct h; simpl; try done; intros _; auto with apart.
  - unfold RoutesA.GetRawDocument. apart.
  - unfold RoutesA.GetRawDocumentVersion. apart.
  - unfold RoutesA.PostDocument. apart.
  - unfold RoutesA.GetDocument. apart.
  - unfold RoutesA.PatchDocument. apart.
  - unfold RoutesA.DeleteDocument. apart.
  - unfold PostDocumentShare. apart.
  - unfold DocumentVersions. apart.
  - unfold RoutesA.GetDocumentVersion. apart.
  - unfold RoutesA.GetPrettyDocument. apart.
Qed.

(** X2. Whatever a request with the claims of one document does in the
    second snapshot, the rows of every other document stay as they are,
    the document a POST creates apart. In the first snapshot the same
    holds of every handler but [DeleteDocumentVersion]. *)
Theorem other_documents_untouched (E : Env) s r (w : http.ResponseWriter Value)
    (id : string) (version : Z) :
  id ≠ Subject (http.Claims r) → id ≠ randomID E →
  (RoutesB.mux E s r w).2 !! (id, version) = gobin.db s !! (id, version)
  ∧ ∀ h, h ≠ RoutesA.HDeleteDocumentVersion →
         (RoutesA.serve E h s r w).2 !! (id, version) = gobin.db s !! (id, version).
Proof.
  intros H1 H2. split.
  - unfold RoutesB.mux. destruct (RoutesB.route s r) as [h ps| |]; try done.
    by apply (apart_serveB E h s (http.withParams r ps) w).
  - intros h Hh. by apply (apart_serveA E h s r w Hh).
Qed.

End Isolation.

(** ** Further properties: the contents that are stored *)

Module Admissible.

Import db StoreOps StoreFacts Tokens gobin Spec More RouteFacts.

Create HintDb grows discriminated.

Lemma grows_refl (E : Env) (s : Server) (st : DB) : grows E s st st.
Proof. intros d Hd. by left. Qed.

Lemma exceeds_fits (E : Env) s (w w' : http.ResponseWriter Value) r content :
  exceedsMaxDocumentSize E s w r content = (w', false) →
  0 < Config.MaxDocumentSize (cfg s) →
  runeCount E content ≤ Config.MaxDocumentSize (cfg s).
Proof.
  unfold exceedsMaxDocumentSize. intros Hex Hmax.
  destruct (0 <? _) eqn:H0; [|lia]. simpl in Hex.
  destruct (_ <? runeCount E content) eqn:H1; [done|]. lia.
Qed.

Lemma grows_insert (E : Env) (s : Server) (st st' : DB) (d d' : Document) :
  insertDocument st d = inr (d', st') → admissible E s d → grows E s st st'.
Proof.
  intros (-> & _ & ->)%insertDocument_inr Hd x Hx.
  apply elem_of_documents in Hx.
  destruct (decide ((ID x, Version x) = (ID d, Version d))) as [Heq|Hne].
  - rewrite Heq, lookup_insert_eq in Hx. right.
    destruct Hd as [Hc Hs]. injection Hx as Hc' _. unfold admissible. by rewrite <- Hc'.
  - rewrite lookup_insert_ne in Hx by done. left. by apply elem_of_documents.
Qed.

Lemma grows_create (E : Env) (s : Server) (w w' : http.ResponseWriter Value) (r : http.Request)
    (st st' : DB) (id : string) (now : time.Time) (d : Document) (content language : string) :
  bool_decide (content = "") = false →
  exceedsMaxDocumentSize E s w r content = (w', false) →
  CreateDocument st id now content language = inr (d, st') →
  grows E s st st'.
Proof.
  intros Hne%bool_decide_eq_false Hex Hc. unfold CreateDocument in Hc.
  eapply grows_insert; [exact Hc|]. split; [done|]. simpl. by eapply exceeds_fits.
Qed.

Lemma grows_update (E : Env) (s : Server) (w w' : http.ResponseWriter Value) (r : http.Request)
    (st st' : DB) (id : string) (now : time.Time) (d : Document) (content language : string) :
  bool_decide (content = "") = false →
  exceedsMaxDocumentSize E s w r content = (w', false) →
  UpdateDocument st id now content language = inr (d, st') →
  grows E s st st'.
Proof.
  intros Hne%bool_decide_eq_false Hex Hu. unfold UpdateDocument in Hu.
  destruct (documentsOf st id); [done|].
  eapply grows_insert; [exact Hu|]. split; [done|]. simpl. by eapply exceeds_fits.
Qed.

Lemma grows_delete (E : Env) (s : Server) (st st' : DB) (id : string) :
  DeleteDocument st id = inr st' → grows E s st st'.
Proof.
  unfold DeleteDocument. destruct (documentsOf st id); [done|].
  intros [= <-] x Hd. left. apply elem_of_documents in Hd. apply elem_of_documents.
  by apply map_lookup_filter_Some in Hd as [Hd _].
Qed.

Lemma grows_delete_version (E : Env) (s : Server) (st st' : DB) (id : string) (version : Z) :
  DeleteDocumentByVersion st id version = inr st' → grows E s st st'.
Proof.
  unfold DeleteDocumentByVersion. destruct (st !! _); [|done].
  intros [= <-] x Hd. left. apply elem_of_documents in Hd. apply elem_of_documents.
  by apply lookup_delete_Some in Hd as [_ Hd].
Qed.

#[export] Hint Resolve grows_refl grows_create grows_update grows_delete
  grows_delete_version : grows.

Ltac grows := intros; repeat case_match; simplify_eq; simpl; eauto with grows.

Lemma grows_serveA (E : Env) h s r (w : http.ResponseWriter Value) :
  grows E s (gobin.db s) (RoutesA.serve E h s r w).2.
Proof.
  destruct h; simpl; auto with grows.
  - unfold RoutesA.GetRawDocument. grows.
  - unfold RoutesA.GetRawDocumentVersion. grows.
  - unfold RoutesA.PostDocument. grows.
  - unfold RoutesA.GetDocument. grows.
  - unfold RoutesA.PatchDocument. grows.
  - unfold RoutesA.DeleteDocument. grows.
  - unfold PostDocumentShare. grows.
  - unfold DocumentVersions. grows.
  - unfold RoutesA.GetDocumentVersion. grows.
  - unfold RoutesA.DeleteDocumentVersion. grows.
  - unfold RoutesA.GetPrettyDocument. grows.
Qed.

Lemma grows_serveB (E : Env) h s r (w : http.ResponseWriter Value) :
  grows E s (gobin.db s) (RoutesB.serve E h s r w).2.
Proof.
  destruct h; simpl; auto with grows.
  - unfold RoutesB.GetRawDocument. grows.
  - unfold RoutesB.PostDocument. grows.
  - unfold RoutesB.GetDocument. grows.
  - unfold RoutesB.PatchDocument. grows.
  - unfold RoutesB.DeleteDocument. grows.
  - unfold PostDocumentShare. grows.
  - unfold DocumentVersions. grows.
  - unfold RoutesB.GetPrettyDocument. grows.
Qed.

Lemma grows_middlewares (E : Env) s r (w : http.ResponseWriter Value)
    (mux : http.Request → http.ResponseWriter Value → Result) :
  (∀ r' w', grows E s (gobin.db s) (mux r' w').2) →
  grows E s (gobin.db s) (middlewares E s r w mux).2.
Proof.
  intros Hmux. unfold middlewares, JWTMiddleware.
  repeat case_match; simpl; auto using grows_refl.
Qed.

(** X3. The handlers store no empty document and none over the
    configured size: when every row of the table has a content that is
    not empty and, where a size is configured, within that size, so has
    every row after any request, in both snapshots. *)
Theorem stored_contents_stay_admissible (E : Env) s r :
  (∀ d, d ∈ documents (gobin.db s) → admissible E s d) →
  (∀ d, d ∈ documents (RoutesA.Routes E s r).2 → admissible E s d)
  ∧ (∀ d, d ∈ documents (RoutesB.Routes E s r).2 → admissible E s d).
Proof.
  intros Hst.
  assert (grows E s (gobin.db s) (RoutesA.Routes E s r).2) as HA.
  { apply grows_middlewares. intros r' w'. unfold RoutesA.mux.
    destruct (RoutesA.route s r'); simpl; auto using grows_refl, grows_serveA. }
  assert (grows E s (gobin.db s) (RoutesB.Routes E s r).2) as HB.
  { apply grows_middlewares. intros r' w'. unfold RoutesB.mux.
    destruct (RoutesB.route s r'); simpl; auto using grows_refl, grows_serveB. }
  split; intros d Hd.
  - destruct (HA d Hd); auto.
  - destruct (HB d Hd); auto.
Qed.

End Admissible.

(** ** Further properties: the body of a request *)

Module Bodies.

Import db StoreOps StoreFacts Tokens gobin Spec More WriterFacts GateFacts.

Lemma error_status (w : http.ResponseWriter Value) r e code :
  http.status w = None → http.status (error_ w r e code) = Some code.
Proof. apply json_status. Qed.

(** closes a branch that ends in an error when the goal asks for a 200 *)
Ltac not_ok :=
  let H := fresh in
  intros H; cbn [fst snd] in H; unfold documentNotFound in H;
  rewrite error_status in H by done; discriminate H.


Lemma readBody_cases (w w1 : http.ResponseWriter Value) r content :
  readBody w r = (w1, content) →
  (content ≠ "" ∧ w1 = w ∧ http.Body r = Some content)
  ∨ (content = "" ∧ http.Body r = None
     ∧ w1 = error_ w r ErrRead http.StatusInternalServerError)
  ∨ (content = "" ∧ http.Body r = Some ""
     ∧ w1 = error_ w r ErrEmptyBody http.StatusBadRequest).
Proof.
  unfold readBody. destruct (http.Body r) as [body|]; [|intros [= <- <-]; auto].
  case_bool_decide as Hlen; intros [= <- <-].
  - right; right. destruct body; [done|discriminate].
  - left. split_and!; auto. by intros ->.
Qed.

Lemma exceeds_cases (E : Env) s (w w1 : http.ResponseWriter Value) r content b :
  exceedsMaxDocumentSize E s w r content = (w1, b) →
  (b = false ∧ w1 = w)
  ∨ (b = true ∧ 0 < Config.MaxDocumentSize (cfg s)
     ∧ Config.MaxDocumentSize (cfg s) < runeCount E content
     ∧ w1 = error_ w r (ErrContentTooLarge (Config.MaxDocumentSize (cfg s)))
              http.StatusBadRequest).
Proof.
  unfold exceedsMaxDocumentSize. destruct (_ && _) eqn:Hc; intros [= <- <-]; [|by left].
  right. apply andb_prop in Hc as [H1 H2]. split_and!; auto; lia.
Qed.


(** X5. [PostDocument] of the first snapshot answers with 200 only when
    it has stored the body under the generated id, at the version of the
    clock and under a key that was free, and the signer has given a token
    for that id with the three permissions; the answer names that id,
    that version and that token. *)
Theorem created_means_stored (E : Env) s r :
  http.status (RoutesA.PostDocument E s r http.newWriter).1 = Some http.StatusOK →
  ∃ content token,
    http.Body r = Some content ∧ content ≠ ""
    ∧ gobin.db s !! (randomID E, nextVersion (StoreNow E)) = None
    ∧ (RoutesA.PostDocument E s r http.newWriter).2
      = <[(randomID E, nextVersion (StoreNow E))
          := (content, http.assoc "Language" (http.Header r))]> (gobin.db s)
    ∧ sign E (mkClaims (randomID E) [PermissionWrite; PermissionDelete; PermissionShare])
      = Some token
    ∧ (http.Method r ≠ http.MethodHead →
       ∃ answer,
         http.written (RoutesA.PostDocument E s r http.newWriter).1 = [VDocument answer]
         ∧ DocumentResponse.Key answer = randomID E
         ∧ DocumentResponse.Version answer = nextVersion (StoreNow E)
         ∧ DocumentResponse.Token answer = token).
Proof.
  unfold RoutesA.PostDocument.
  destruct (readBody http.newWriter r) as [w1 content] eqn:Hrb.
  apply readBody_cases in Hrb as [(Hne & -> & Hb)|[(-> & _ & ->)|(-> & _ & ->)]];
    [|rewrite bool_decide_eq_true_2 by done; not_ok..].
  rewrite bool_decide_eq_false_2 by done.
  destruct (exceedsMaxDocumentSize E s http.newWriter r content) as [w2 b] eqn:Hex.
  apply exceeds_cases in Hex as [[-> ->]|(-> & _ & _ & ->)]; [|not_ok].
  unfold CreateDocument, insertDocument. simpl.
  destruct (gobin.db s !! (randomID E, nextVersion (StoreNow E))) eqn:Hfree;
    [not_ok|].
  cbn [ID Version Content Language]. unfold NewToken.
  destruct (sign E _) as [token|] eqn:Hsign; [|not_ok].
  destruct (FormatDocumentVersion E (Now E) (nextVersion (StoreNow E))) as [label t].
  intros _. exists content, token. split_and!; auto.
  intros Hm. eexists. split.
  { cbn [fst]. unfold ok, json. rewrite bool_decide_eq_false_2 by done. reflexivity. }
  split_and!; reflexivity.
Qed.

End Bodies.

(** ** Further properties: tokens and versions *)

Module Issued.

Import db StoreOps StoreFacts Tokens gobin Spec More WriterFacts GateFacts Bodies.

(** X6. When the signer fails, [PostDocument] answers with 500 and no
    token, but the document is stored: nobody holds a token for it. *)
Theorem unsigned_document_stays (E : Env) s r w (content : string) :
  http.Body r = Some content → content ≠ "" →
  (exceedsMaxDocumentSize E s w r content).2 = false →
  gobin.db s !! (randomID E, nextVersion (StoreNow E)) = None →
  sign E (mkClaims (randomID E) [PermissionWrite; PermissionDelete; PermissionShare]) = None →
  RoutesA.PostDocument E s r w
  = (error_ w r ErrSign http.StatusInternalServerError,
     <[(randomID E, nextVersion (StoreNow E))
       := (content, http.assoc "Language" (http.Header r))]> (gobin.db s))
  ∧ (contextDone E = false → http.assoc "render" (http.Query r) = "" →
     RoutesB.PostDocument E s r w
     = (error_ w r ErrSign http.StatusInternalServerError,
        <[(randomID E, nextVersion (StoreNow E))
          := (content, RoutesB.lexerFor E (http.assoc "Language" (http.Header r)) content)]>
          (gobin.db s))).
Proof.
  intros Hb Hne Hsize Hfree Hsign. split.
  - unfold RoutesA.PostDocument. rewrite (GateTheorems.readBody_content w r content) by done.
    rewrite bool_decide_eq_false_2 by done. rewrite HandlerStore.exceeds_false by done.
    unfold CreateDocument, insertDocument. cbn [ID Version Content Language].
    rewrite Hfree. unfold NewToken. cbn [ID]. by rewrite Hsign.
  - intros Hdone Hrender. unfold RoutesB.PostDocument.
    rewrite (GateTheorems.readBody_content w r content) by done.
    rewrite bool_decide_eq_false_2 by done. rewrite Hdone, HandlerStore.exceeds_false by done.
    unfold CreateDocument, insertDocument. cbn [ID Version Content Language].
    rewrite Hfree, Hrender. rewrite bool_decide_eq_true_2 by done.
    unfold NewToken. cbn [ID]. by rewrite Hsign.
Qed.

(** The share handler answers with 200 only behind all of its checks. *)
Lemma share_ok_inv (E : Env) s r :
  http.status (PostDocumentShare E s r http.newWriter).1 = Some http.StatusOK →
  ∃ permissions token,
    requested E r = Some permissions ∧ permissions ≠ []
    ∧ Forall (fun p => IsValid p = true) permissions
    ∧ holds r PermissionShare
    ∧ permissions ⊆ Permissions (http.Claims r)
    ∧ sign E (mkClaims (http.URLParam r "documentID") permissions) = Some token.
Proof.
  unfold PostDocumentShare, requested.
  destruct (http.Body r ≫= decodeShareRequest E) as [permissions|]; [|not_ok].
  case_bool_decide as Hlen; [not_ok|].
  destruct (List.find _ permissions) eqn:Hvalid; [not_ok|].
  destruct (negb _ || negb _) eqn:Hgate; [not_ok|].
  destruct (List.find _ permissions) eqn:Hheld in |- *; [not_ok|].
  unfold NewToken. destruct (sign E _) as [token|] eqn:Hsign; [|not_ok].
  intros _. exists permissions, token. split_and!; auto.
  - by destruct permissions.
  - apply Forall_forall. intros p Hp%list_elem_of_In.
    pose proof (find_none _ _ Hvalid p Hp) as Hv. by apply negb_false_iff in Hv.
  - unfold holds, GetClaims, Contains in *. apply orb_false_elim in Hgate as [H1 H2].
    apply negb_false_iff in H1, H2. by apply bool_decide_eq_true in H1, H2.
  - intros p Hp%list_elem_of_In. pose proof (find_none _ _ Hheld p Hp) as Hc.
    apply negb_false_iff in Hc. by apply Contains_true in Hc.
Qed.

(** X7. Claims reached from the claims [c] by any number of shares have
    the subject of [c] and hold no permission that [c] does not hold. *)
Theorem shares_never_add (E : Env) (c c' : Claims) :
  sharedFrom E c c' →
  Subject c' = Subject c ∧ Permissions c' ⊆ Permissions c.
Proof.
  induction 1 as [|r s permissions Hprev [IHs IHp] Hok Hreq]; [done|].
  apply share_ok_inv in Hok as (ps & token & Hreq' & _ & _ & [Hsub _] & Hincl & _).
  rewrite Hreq in Hreq'. injection Hreq' as <-. simpl. split.
  - by rewrite <- Hsub.
  - intros p Hp. by apply IHp, Hincl.
Qed.

(** X8. In the second snapshot the version -1 is never answered: the
    handlers that read the version return without an answer, whatever
    the table holds and whoever asks. *)
Theorem version_minus_one_gets_no_answer (E : Env) s r w :
  http.URLParam r "version" = "-1" →
  RoutesB.DeleteDocument s r w = (w, gobin.db s)
  ∧ RoutesB.GetPrettyDocument E s r w = (w, gobin.db s)
  ∧ (http.URLParam r "documentID" ≠ "" →
     RoutesB.GetDocument E s r w = (w, gobin.db s)
     ∧ RoutesB.GetRawDocument s r w = (w, gobin.db s)).
Proof.
  intros Hv.
  assert (RoutesB.parseDocumentVersion r w = (w, -1)) as Hparse.
  { unfold RoutesB.parseDocumentVersion. by rewrite Hv. }
  split_and!.
  - unfold RoutesB.DeleteDocument. by rewrite Hparse.
  - unfold RoutesB.GetPrettyDocument. by rewrite Hparse.
  - intros Hid.
    assert (RoutesB.getDocument s r w = (w, None)) as Hget.
    { unfold RoutesB.getDocument. rewrite bool_decide_eq_false_2 by done. by rewrite Hparse. }
    unfold RoutesB.GetDocument, RoutesB.GetRawDocument. by rewrite Hget.
Qed.

(** [DeleteDocumentVersion] of the first snapshot deletes the version a
    request names whatever the claims of the request are. *)
Lemma delete_version_needs_no_token (s : Server) r w (version : Z) (claims : Claims) :
  http.URLParam r "documentID" ≠ "" → http.URLParam r "version" ≠ "" →
  strconv.ParseInt (http.URLParam r "version") = inr version →
  is_Some (gobin.db s !! (http.URLParam r "documentID", version)) →
  RoutesA.DeleteDocumentVersion s (http.withClaims r claims) w
  = (ok w r (VDelete (GetVersionCount
                        (delete (http.URLParam r "documentID", version) (gobin.db s))
                        (http.URLParam r "documentID"))),
     delete (http.URLParam r "documentID", version) (gobin.db s)).
Proof.
  intros Hid Hv Hparse [cl Hrow].
  unfold RoutesA.DeleteDocumentVersion, RoutesA.parseDocumentVersion.
  change (http.URLParam (http.withClaims r claims)) with (http.URLParam r).
  rewrite !bool_decide_eq_false_2 by done. simpl. rewrite Hparse.
  rewrite bool_decide_eq_false_2 by done.
  unfold DeleteDocumentByVersion. by rewrite Hrow.
Qed.

End Issued.

(** ** Further properties: the answers of the first snapshot *)

Module Answers.

Import db Tokens gobin Spec More WriterFacts.

Create HintDb coherent discriminated.

Lemma json_blank (w : http.ResponseWriter Value) r v code :
  blank w →
  http.status (json w r v code) = Some code
  ∧ (http.written (json w r v code) = [] ∨ http.written (json w r v code) = [v]).
Proof.
  intros [Hs Hw]. split; [by apply json_status|].
  unfold json, http.Write, http.WriteHeader, http.SetHeader. rewrite Hs. simpl.
  case_bool_decide; simpl; [by left|].
  destruct (http.bodyAllowedForStatus code); simpl; rewrite Hw; auto.
Qed.

Lemma coherent_error (w : http.ResponseWriter Value) r e code :
  blank w → coherent (error_ w r e code).
Proof.
  intros Hw. unfold error_.
  destruct (json_blank w r (VError (ErrorResponse.mk e code (http.Path r) (http.RequestID r)))
              code Hw) as [Hs [Hnil|Hone]]; split; rewrite ?Hs; eauto.
  - rewrite Hnil. intros x Hx. by apply not_elem_of_nil in Hx.
  - rewrite Hone. intros x Hx%list_elem_of_singleton. by injection Hx as ->.
Qed.

Lemma coherent_value (w : http.ResponseWriter Value) r v code :
  isError v = false → blank w → coherent (json w r v code).
Proof.
  intros Hv Hw. destruct (json_blank w r v code Hw) as [Hs [Hnil|Hone]]; split;
    rewrite ?Hs; eauto.
  - rewrite Hnil. intros x Hx. by apply not_elem_of_nil in Hx.
  - rewrite Hone. intros x Hx%list_elem_of_singleton. by subst v.
Qed.

Lemma coherent_ok (w : http.ResponseWriter Value) r v :
  isError v = false → blank w → coherent (ok w r v).
Proof. apply coherent_value. Qed.

Lemma coherent_documentNotFound (w : http.ResponseWriter Value) r :
  blank w → coherent (documentNotFound w r).
Proof. apply coherent_error. Qed.

Lemma coherent_WriteHeader (w : http.ResponseWriter Value) code :
  blank w → coherent (http.WriteHeader code w).
Proof.
  intros [Hs Hw]. unfold coherent, http.WriteHeader. rewrite Hs. simpl. split; [eauto|].
  rewrite Hw. intros x Hx. by apply not_elem_of_nil in Hx.
Qed.

Lemma coherent_redirectRoot (w : http.ResponseWriter Value) r :
  blank w → coherent (redirectRoot w r).
Proof.
  intros [Hs Hw]. unfold redirectRoot. apply coherent_WriteHeader.
  unfold blank, http.SetHeader. by rewrite Hs.
Qed.

(** a response that holds no error and has a status *)
Lemma coherent_plain (w : http.ResponseWriter Value) :
  is_Some (http.status w) → Forall (fun v => isError v = false) (http.written w) →
  coherent w.
Proof.
  intros Hs Hw. split; [done|]. intros e He.
  by apply (proj1 (Forall_forall _ _) Hw) in He.
Qed.

Lemma coherent_ok_after (w : http.ResponseWriter Value) r v code :
  isError v = false → blank w → coherent (ok (http.WriteHeader code w) r v).
Proof.
  intros Hv [Hs Hw]. apply coherent_plain.
  - unfold ok, json. case_bool_decide; rewrite ?StatusFacts.status_Write,
      !StatusFacts.status_WriteHeader; eauto.
  - unfold ok, json, http.Write, http.WriteHeader, http.SetHeader. rewrite Hs. simpl.
    case_bool_decide; simpl; rewrite ?Hw; [constructor|].
    destruct (http.bodyAllowedForStatus code); simpl; rewrite ?Hw; repeat constructor; done.
Qed.

Lemma coherent_Write (w : http.ResponseWriter Value) v :
  isError v = false → blank w → coherent (http.Write v w).
Proof.
  intros Hv [Hs Hw]. apply coherent_plain.
  - rewrite StatusFacts.status_Write, StatusFacts.status_WriteHeader. eauto.
  - unfold http.Write, http.WriteHeader. rewrite Hs. simpl. rewrite Hw.
    repeat constructor; done.
Qed.

Lemma coherent_Write_after (w : http.ResponseWriter Value) v code :
  isError v = false → blank w → coherent (http.Write v (http.WriteHeader code w)).
Proof.
  intros Hv [Hs Hw]. apply coherent_plain.
  - rewrite StatusFacts.status_Write, !StatusFacts.status_WriteHeader. eauto.
  - unfold http.Write, http.WriteHeader. rewrite Hs. simpl.
    destruct (http.bodyAllowedForStatus code); simpl; rewrite Hw; repeat constructor; done.
Qed.

Lemma coherent_prettyError (w : http.ResponseWriter Value) r e code :
  blank w → coherent (prettyError w r e code).
Proof. intros Hw. unfold prettyError. by apply coherent_Write_after. Qed.

Lemma coherent_writeRaw (w : http.ResponseWriter Value) r content :
  blank w → coherent (writeRaw r w content).
Proof.
  intros [Hs Hw]. unfold writeRaw. case_bool_decide.
  - apply coherent_WriteHeader. unfold blank, http.SetHeader. by rewrite Hs.
  - apply coherent_Write; [done|]. unfold blank, http.SetHeader. by rewrite Hs.
Qed.

#[export] Hint Resolve coherent_error coherent_ok coherent_documentNotFound
  coherent_WriteHeader coherent_redirectRoot coherent_ok_after coherent_Write
  coherent_Write_after coherent_prettyError coherent_writeRaw : coherent.

Lemma readBody_blank (w w1 : http.ResponseWriter Value) r content :
  readBody w r = (w1, content) → bool_decide (content = "") = false → blank w → blank w1.
Proof.
  intros [(_ & -> & _)|[(-> & _)|(-> & _)]]%Bodies.readBody_cases Hc Hw; try done.
Qed.

Lemma readBody_coherent (w w1 : http.ResponseWriter Value) r content :
  readBody w r = (w1, content) → bool_decide (content = "") = true → blank w → coherent w1.
Proof.
  intros [(Hne & _)|[(_ & _ & ->)|(_ & _ & ->)]]%Bodies.readBody_cases Hc Hw;
    auto with coherent.
  by apply bool_decide_eq_true in Hc.
Qed.

Lemma exceeds_blank (E : Env) s (w w1 : http.ResponseWriter Value) r content :
  exceedsMaxDocumentSize E s w r content = (w1, false) → blank w → blank w1.
Proof. by intros [[_ ->]|(? & _)]%Bodies.exceeds_cases Hw. Qed.

Lemma exceeds_coherent (E : Env) s (w w1 : http.ResponseWriter Value) r content :
  exceedsMaxDocumentSize E s w r content = (w1, true) → blank w → coherent w1.
Proof.
  intros [[? _]|(_ & _ & _ & ->)]%Bodies.exceeds_cases Hw; [done|]. auto with coherent.
Qed.

Lemma parseA_blank (w w1 : http.ResponseWriter Value) r id version :
  RoutesA.parseDocumentVersion r w = (w1, (id, version)) →
  bool_decide (id = "") = false → blank w → blank w1.
Proof.
  unfold RoutesA.parseDocumentVersion. intros Hp Hid Hw.
  repeat case_match; simplify_eq; done.
Qed.

Lemma parseA_coherent (w w1 : http.ResponseWriter Value) r id version :
  RoutesA.parseDocumentVersion r w = (w1, (id, version)) →
  bool_decide (id = "") = true → blank w → coherent w1.
Proof.
  unfold RoutesA.parseDocumentVersion. intros Hp Hid Hw.
  repeat case_match; simplify_eq; auto with coherent.
  apply bool_decide_eq_true in Hid.
  match goal with H : _ || _ = false |- _ => apply orb_false_elim in H as [H _] end.
  by apply bool_decide_eq_false in H.
Qed.

Lemma getDocumentA_blank (w w1 : http.ResponseWriter Value) s r document :
  RoutesA.getDocument s r w = (w1, Some document) → blank w → blank w1.
Proof.
  unfold RoutesA.getDocument. intros Hg Hw. repeat case_match; simplify_eq; done.
Qed.

Lemma getDocumentA_coherent (w w1 : http.ResponseWriter Value) s r :
  RoutesA.getDocument s r w = (w1, None) → blank w → coherent w1.
Proof.
  unfold RoutesA.getDocument. intros Hg Hw.
  repeat case_match; simplify_eq; auto with coherent.
Qed.

#[export] Hint Resolve readBody_blank readBody_coherent exceeds_blank exceeds_coherent
  parseA_blank parseA_coherent getDocumentA_blank getDocumentA_coherent : coherent.

Ltac coherent := intros; repeat case_match; simplify_eq; simpl; eauto 8 with coherent.

Lemma coherent_serveA (E : Env) h s r (w : http.ResponseWriter Value) :
  blank w → coherent (RoutesA.serve E h s r w).1.
Proof.
  intros Hw. destruct h; simpl; auto with coherent.
  - unfold RoutesA.GetRawDocument. coherent.
  - unfold RoutesA.GetRawDocumentVersion. coherent.
  - unfold RoutesA.PostDocument. coherent.
  - unfold RoutesA.GetDocument. coherent.
  - unfold RoutesA.PatchDocument. coherent.
  - unfold RoutesA.DeleteDocument. coherent.
  - unfold PostDocumentShare. coherent.
  - unfold DocumentVersions. coherent.
  - unfold RoutesA.GetDocumentVersion. coherent.
  - unfold RoutesA.DeleteDocumentVersion. coherent.
  - unfold RoutesA.GetPrettyDocument. coherent.
Qed.

(** X10. In the first snapshot every request is answered, and an error
    written to the body of the answer states the status of the answer. *)
Theorem answers_are_coherent (E : Env) s r :
  coherent (RoutesA.Routes E s r).1.
Proof.
  assert (blank (http.newWriter : http.ResponseWriter Value)) as Hnew by done.
  unfold RoutesA.Routes, middlewares, JWTMiddleware, rateLimit, unauthorized.
  assert (∀ r', coherent (RoutesA.mux E s r' http.newWriter).1) as Hmux.
  { intros r'. unfold RoutesA.mux. destruct (RoutesA.route s r'); simpl;
      auto using coherent_serveA with coherent. }
  repeat case_match; simpl; auto with coherent.
Qed.

End Answers.

(** ** Further properties: deleted documents, rendering, labels, round trips *)

Module Gone.

Import db StoreOps StoreFacts Tokens gobin Spec More.

Create HintDb gone discriminated.

Lemma gone_insert (id : string) (st st' : DB) (d d' : Document) :
  insertDocument st d = inr (d', st') → ID d ≠ id → gone id st → gone id st'.
Proof.
  intros (-> & _ & ->)%insertDocument_inr Hid Hg v.
  rewrite lookup_insert_ne; [apply Hg|]. intros [= Heq _]. done.
Qed.

Lemma gone_create (E : Env) (id : string) (st st' : DB) d content language :
  CreateDocument st (randomID E) (StoreNow E) content language = inr (d, st') →
  id ≠ randomID E → gone id st → gone id st'.
Proof. unfold CreateDocument. intros Hc Hid. eapply gone_insert; [exact Hc|]. done. Qed.

Lemma gone_update (id id0 : string) (st st' : DB) now d content language :
  UpdateDocument st id0 now content language = inr (d, st') → gone id st → gone id st'.
Proof.
  unfold UpdateDocument. intros Hu Hg.
  destruct (documentsOf st id0) as [|x l] eqn:Hdocs; [done|].
  eapply gone_insert; [exact Hu| |done]. simpl. intros ->.
  apply documentsOf_nil in Hg. congruence.
Qed.

Lemma gone_delete (id id0 : string) (st st' : DB) :
  DeleteDocument st id0 = inr st' → gone id st → gone id st'.
Proof.
  unfold DeleteDocument. destruct (documentsOf st id0); [done|].
  intros [= <-] Hg v. apply map_lookup_filter_None. left. apply Hg.
Qed.

Lemma gone_delete_version (id id0 : string) (st st' : DB) version :
  DeleteDocumentByVersion st id0 version = inr st' → gone id st → gone id st'.
Proof.
  unfold DeleteDocumentByVersion. destruct (st !! _); [|done].
  intros [= <-] Hg v. apply lookup_delete_None. right. apply Hg.
Qed.

#[export] Hint Resolve gone_create gone_update gone_delete gone_delete_version : gone.

Ltac gone := intros; repeat case_match; simplify_eq; simpl; eauto with gone.

Lemma gone_serveA (E : Env) h s r (w : http.ResponseWriter Value) (id : string) :
  id ≠ randomID E → gone id (gobin.db s) → gone id (RoutesA.serve E h s r w).2.
Proof.
  intros Hid Hg. destruct h; simpl; auto with gone.
  - unfold RoutesA.GetRawDocument. gone.
  - unfold RoutesA.GetRawDocumentVersion. gone.
  - unfold RoutesA.PostDocument. gone.
  - unfold RoutesA.GetDocument. gone.
  - unfold RoutesA.PatchDocument. gone.
  - unfold RoutesA.DeleteDocument. gone.
  - unfold PostDocumentShare. gone.
  - unfold DocumentVersions. gone.
  - unfold RoutesA.GetDocumentVersion. gone.
  - unfold RoutesA.DeleteDocumentVersion. gone.
  - unfold RoutesA.GetPrettyDocument. gone.
Qed.

Lemma gone_serveB (E : Env) h s r (w : http.ResponseWriter Value) (id : string) :
  id ≠ randomID E → gone id (gobin.db s) → gone id (RoutesB.serve E h s r w).2.
Proof.
  intros Hid Hg. destruct h; simpl; auto with gone.
  - unfold RoutesB.GetRawDocument. gone.
  - unfold RoutesB.PostDocument. gone.
  - unfold RoutesB.GetDocument. gone.
  - unfold RoutesB.PatchDocument. gone.
  - unfold RoutesB.DeleteDocument. gone.
  - unfold PostDocumentShare. gone.
  - unfold DocumentVersions. gone.
  - unfold RoutesB.GetPrettyDocument. gone.
Qed.

Lemma gone_middlewares (E : Env) s r (w : http.ResponseWriter Value) (id : string)
    (mux : http.Request → http.ResponseWriter Value → Result) :
  gone id (gobin.db s) →
  (∀ r' w', gone id (mux r' w').2) →
  gone id (middlewares E s r w mux).2.
Proof.
  intros Hg Hmux. unfold middlewares, JWTMiddleware. repeat case_match; simpl; auto.
Qed.

(** X11. A document that has no row is not brought back by any request,
    whatever token the request carries: only the id a POST draws gets
    rows. In both snapshots. *)
Theorem deleted_documents_stay_deleted (E : Env) s r (id : string) :
  gone id (gobin.db s) → id ≠ randomID E →
  gone id (RoutesA.Routes E s r).2 ∧ gone id (RoutesB.Routes E s r).2.
Proof.
  intros Hg Hid. split; apply gone_middlewares; try done; intros r' w'.
  - unfold RoutesA.mux. destruct (RoutesA.route s r'); simpl; auto using gone_serveA.
  - unfold RoutesB.mux. destruct (RoutesB.route s r'); simpl; auto using gone_serveB.
Qed.

End Gone.

Module Rendering.

Import db StoreOps StoreFacts Tokens gobin Spec More GateFacts.

(** X12. In the second snapshot [GetDocument] writes the status 200
    before it renders: when the highlighting fails, the answer has the
    status 200 and a body that states an error of status 500. *)
Theorem failed_render_answers_OK (E : Env) s r (document : Document) :
  RoutesB.getDocument s r http.newWriter = (http.newWriter, Some document) →
  http.Method r ≠ http.MethodHead →
  http.assoc "render" (http.Query r) ≠ "" →
  (∀ lexer style formatter content, highlight E lexer style formatter content = None) →
  http.status (RoutesB.GetDocument E s r http.newWriter).1 = Some http.StatusOK
  ∧ http.written (RoutesB.GetDocument E s r http.newWriter).1
    = [VError (ErrorResponse.mk ErrHighlight http.StatusInternalServerError
                 (http.Path r) (http.RequestID r))].
Proof.
  intros Hget Hm Hr Hh. unfold RoutesB.GetDocument. rewrite Hget.
  rewrite !bool_decide_eq_false_2 by done.
  unfold RoutesB.renderDocument. rewrite Hh.
  unfold error_, json. rewrite bool_decide_eq_false_2 by done. done.
Qed.

(** X13. In the second snapshot a DELETE that names no version, or the
    version 0, removes every version of the document, and its answer has
    the status 204 and no body: the count of versions is not sent. *)
Theorem delete_of_version_zero_deletes_all s r :
  holds r PermissionDelete → versionZero r →
  documentsOf (gobin.db s) (http.URLParam r "documentID") ≠ [] →
  http.status (RoutesB.DeleteDocument s r http.newWriter).1 = Some http.StatusNoContent
  ∧ http.written (RoutesB.DeleteDocument s r http.newWriter).1 = []
  ∧ documentsOf (RoutesB.DeleteDocument s r http.newWriter).2
      (http.URLParam r "documentID") = [].
Proof.
  intros Hyes Hzero Hdocs. unfold RoutesB.DeleteDocument.
  assert (RoutesB.parseDocumentVersion r http.newWriter = (http.newWriter, 0)) as ->.
  { unfold RoutesB.parseDocumentVersion. case_bool_decide; [done|].
    destruct Hzero as [? | Hp]; [done|by rewrite Hp]. }
  rewrite bool_decide_eq_false_2 by done. rewrite gate_open by done.
  rewrite !bool_decide_eq_true_2 by done.
  unfold DeleteDocument. destruct (documentsOf _ _) as [|x l] eqn:Hd; [done|].
  split_and!.
  - unfold ok, json. by case_bool_decide.
  - unfold ok, json. by case_bool_decide.
  - cbn [snd]. apply documentsOf_nil. intros v. apply map_lookup_filter_None.
    right. intros cl _. simpl. by intros ?.
Qed.

End Rendering.

Module Labels.

Import Tokens gobin Spec.

(** X14. When the version and now fall in the same minute of the wall
    clock, at the same offset from UTC, the label counts the seconds
    that passed between the two. *)
Theorem label_within_a_minute (E : Env) (now : time.Time) (versionRaw : Z) :
  time.loc now (time.unixSec now) = Local E versionRaw →
  time.abs now / 60 = time.abs (time.Unix (Local E) versionRaw) / 60 →
  (FormatDocumentVersion E now versionRaw).1
  = ago (time.unixSec now - versionRaw) "seconds".
Proof.
  intros Hoff Hmin. unfold FormatDocumentVersion.
  set (version := time.Unix (Local E) versionRaw) in *.
  assert (time.abs now / 86400 = time.abs version / 86400) as Hday.
  { revert Hmin. generalize (time.abs now), (time.abs version). intros a b Hmin.
    change 86400 with (60 * 1440).
    rewrite <- (Z.div_div a 60 1440), <- (Z.div_div b 60 1440) by lia. by rewrite Hmin. }
  assert (time.Hour now = time.Hour version) as Hhour.
  { unfold time.Hour. revert Hmin. generalize (time.abs now), (time.abs version).
    intros a b Hmin. Z.div_mod_to_equations. lia. }
  assert (time.Minute now = time.Minute version) as Hminute.
  { unfold time.Minute. revert Hmin. generalize (time.abs now), (time.abs version).
    intros a b Hmin. Z.div_mod_to_equations. lia. }
  assert (time.Second now - time.Second version = time.unixSec now - versionRaw) as Hsec.
  { unfold time.Second.
    assert (time.abs now - time.abs version = time.unixSec now - versionRaw) as <-.
    { unfold time.abs, version. cbn [time.unixSec time.loc time.Unix]. lia. }
    revert Hmin. generalize (time.abs now), (time.abs version).
    intros a b Hmin. Z.div_mod_to_equations. lia. }
  unfold time.Year, time.Month, time.Day. rewrite Hday, Hhour, Hminute.
  rewrite !Z.ltb_irrefl. cbn [fst]. by rewrite Hsec.
Qed.

End Labels.

Module RoundTrip.

Import db StoreOps StoreFacts Tokens gobin Spec HandlerStore.

(** X15. What was posted is what the raw route returns: after a POST of
    a body that is not empty and not too large, a request of the raw
    document under the new id is answered with the bytes of that body,
    and a HEAD request with their number as [Content-Length] and no
    body. In both snapshots. *)
Theorem raw_returns_the_posted_body (E : Env) s r r' (content : string) :
  http.Body r = Some content → content ≠ "" →
  (exceedsMaxDocumentSize E s http.newWriter r content).2 = false →
  documentsOf (gobin.db s) (randomID E) = [] → randomID E ≠ "" →
  http.URLParam r' "documentID" = randomID E →
  let raw (w : http.ResponseWriter Value) :=
    http.written w = (if bool_decide (http.Method r' = http.MethodHead) then []
                      else [VBytes content])
    ∧ (http.Method r' = http.MethodHead →
       http.assoc "Content-Length" (http.headers w)
       = strconv.Itoa (Z.of_nat (String.length content))) in
  raw (RoutesA.GetRawDocument
         (mkServer (version s) (cfg s) (RoutesA.PostDocument E s r http.newWriter).2)
         r' http.newWriter).1
  ∧ (contextDone E = false → http.URLParam r' "version" = "" →
     raw (RoutesB.GetRawDocument
            (mkServer (version s) (cfg s) (RoutesB.PostDocument E s r http.newWriter).2)
            r' http.newWriter).1).
Proof.
  intros Hbody Hne Hsize Hfresh Hid Hparam raw. split.
  - unfold RoutesA.GetRawDocument.
    rewrite (PostDocument_then_getDocument_A E s r http.newWriter content) by done.
    unfold raw, writeRaw. cbn [fst Content]. case_bool_decide; done.
  - intros Hdone Hversion. unfold RoutesB.GetRawDocument.
    rewrite (PostDocument_then_getDocument_B E s r http.newWriter content) by done.
    unfold raw, writeRaw. cbn [fst Content]. case_bool_decide; done.
Qed.

End RoundTrip.

(** ** Further properties: a version deleted without a token *)

Module Open.

Import db StoreOps StoreFacts Tokens gobin Spec More.

(** X9. In the first snapshot anyone deletes a version: a DELETE of
    /documents/{id}/versions/{version} that carries no token, and that
    the rate limiter lets pass, removes the row of that version. *)
Theorem anyone_deletes_a_version (E : Env) s r (id text : string) (version : Z) :
  http.Method r = http.MethodDelete →
  http.Path r = ["documents"; id; "versions"; text] →
  http.assoc "Authorization" (http.Header r) = "" →
  limitReached E = false →
  id ≠ "" → strconv.ParseInt text = inr version →
  is_Some (gobin.db s !! (id, version)) →
  http.status (RoutesA.Routes E s r).1 = Some http.StatusOK
  ∧ (RoutesA.Routes E s r).2 = delete (id, version) (gobin.db s).
Proof.
  intros Hm Hp Hno Hlimit Hid Hparse Hrow.
  assert (text ≠ "") as Htext by (intros ->; discriminate Hparse).
  unfold RoutesA.Routes, middlewares, isHeartbeat, JWTMiddleware.
  rewrite Hm, Hp, Hno. rewrite (bool_decide_eq_false_2 (_ = ["ping"])) by discriminate.
  rewrite andb_false_r. rewrite bool_decide_eq_true_2 by done.
  assert (RoutesA.mux E s (http.withClaims r EmptyClaims) http.newWriter
          = RoutesA.DeleteDocumentVersion s
              (http.withClaims (http.withParams r [("documentID", id); ("version", text)])
                 EmptyClaims) http.newWriter) as Hmux.
  { unfold RoutesA.mux, RoutesA.route. cbn [http.Path http.withClaims http.Method].
    rewrite Hp, Hm. reflexivity. }
  rewrite Hlimit.
  assert (∀ (b : bool) (x : Result), (if b then x else x) = x) as Hif by (by intros []).
  rewrite Hif.
  rewrite Hmux.
  set (r0 := http.withParams r [("documentID", id); ("version", text)]).
  assert (http.URLParam r0 "documentID" = id) as Hid0 by reflexivity.
  assert (http.URLParam r0 "version" = text) as Htext0 by reflexivity.
  rewrite (Issued.delete_version_needs_no_token s r0 http.newWriter version EmptyClaims);
    rewrite ?Hid0, ?Htext0; try done.
  split; [|done]. cbn [fst]. by apply WriterFacts.json_status.
Qed.

End Open.

(** ** Further properties: what a read returns after an update *)

Module Visible.

Import db StoreOps StoreFacts Tokens gobin Spec More GateFacts HandlerStore.

(** The latest version after a row is added to a document that has
    rows: the new row when its version is above the others, the one
    that was the latest when a version above the new one exists. *)
Lemma latest_after_insert (st : DB) (id : string) (version : Z) (content language : string) :
  st !! (id, version) = None →
  (∀ d, d ∈ documentsOf st id → Version d < version) →
  GetDocument (<[(id, version) := (content, language)]> st) id
  = inr (mkDocument id version content language).
Proof.
  intros Hfree Hbelow. apply GetDocument_inr. split.
  - apply elem_of_documentsOf. split; [done|]. simpl. apply lookup_insert_eq.
  - intros d' [Hid Hrow]%elem_of_documentsOf. simpl.
    destruct (decide (Version d' = version)) as [->|Hne]; [lia|].
    rewrite lookup_insert_ne in Hrow by congruence.
    assert (d' ∈ documentsOf st id) as Hin by by apply elem_of_documentsOf.
    apply Hbelow in Hin. lia.
Qed.

Lemma latest_kept (st : DB) (id : string) (version : Z) (content language : string)
    (d : Document) :
  d ∈ documentsOf st id → version < Version d →
  GetDocument (<[(id, version) := (content, language)]> st) id = GetDocument st id.
Proof.
  intros Hd Habove.
  destruct (GetDocument st id) as [e|d0] eqn:Hget.
  { apply GetDocument_inl in Hget as [_ Hnil]. rewrite Hnil in Hd.
    by apply not_elem_of_nil in Hd. }
  apply GetDocument_inr in Hget as [Hin0 Hmax]. apply GetDocument_inr.
  pose proof (Hmax d Hd) as Hle.
  apply elem_of_documentsOf in Hin0 as [Hid0 Hrow0]. split.
  - apply elem_of_documentsOf. split; [done|].
    rewrite lookup_insert_ne; [done|]. intros [= ?]. lia.
  - intros d' [Hid Hrow]%elem_of_documentsOf.
    destruct (decide (Version d' = version)) as [->|Hne]; [lia|].
    rewrite lookup_insert_ne in Hrow by congruence.
    apply Hmax. by apply elem_of_documentsOf.
Qed.

Lemma PatchDocument_A_store (E : Env) s r (w : http.ResponseWriter Value) (content : string) :
  holds r PermissionWrite → http.Body r = Some content → content ≠ "" →
  (exceedsMaxDocumentSize E s w r content).2 = false →
  documentsOf (gobin.db s) (http.URLParam r "documentID") ≠ [] →
  gobin.db s !! (http.URLParam r "documentID", nextVersion (StoreNow E)) = None →
  (RoutesA.PatchDocument E s r w).2
  = <[(http.URLParam r "documentID", nextVersion (StoreNow E))
      := (content, http.assoc "Language" (http.Header r))]> (gobin.db s).
Proof.
  intros Hyes Hbody Hne Hsize Hdocs Hfree. unfold RoutesA.PatchDocument.
  rewrite gate_open by done.
  rewrite (GateTheorems.readBody_content w r content) by done.
  rewrite bool_decide_eq_false_2 by done. rewrite exceeds_false by done.
  unfold UpdateDocument, insertDocument.
  destruct (documentsOf _ _) as [|x l]; [done|]. cbn [ID Version Content Language].
  rewrite Hfree. by destruct (FormatDocumentVersion E (Now E) _).
Qed.

(** X16. An update is what a read returns next only if the clock of the
    store is ahead of every version of the document: then the latest
    version is the update; when a version of the document is ahead of
    the clock, the update is stored and the read returns what it
    returned before. First snapshot. *)
Theorem update_is_latest_by_the_clock (E : Env) s r (content : string) r'
    (w w' : http.ResponseWriter Value) :
  holds r PermissionWrite → http.Body r = Some content → content ≠ "" →
  (exceedsMaxDocumentSize E s w r content).2 = false →
  http.URLParam r "documentID" ≠ "" →
  documentsOf (gobin.db s) (http.URLParam r "documentID") ≠ [] →
  gobin.db s !! (http.URLParam r "documentID", nextVersion (StoreNow E)) = None →
  http.URLParam r' "documentID" = http.URLParam r "documentID" →
  let s' := mkServer (version s) (cfg s) (RoutesA.PatchDocument E s r w).2 in
  ((∀ d, d ∈ documentsOf (gobin.db s) (http.URLParam r "documentID") →
         Version d < nextVersion (StoreNow E)) →
   RoutesA.getDocument s' r' w'
   = (w', Some (mkDocument (http.URLParam r "documentID") (nextVersion (StoreNow E))
                  content (http.assoc "Language" (http.Header r)))))
  ∧ ((∃ d, d ∈ documentsOf (gobin.db s) (http.URLParam r "documentID")
           ∧ nextVersion (StoreNow E) < Version d) →
     RoutesA.getDocument s' r' w' = RoutesA.getDocument s r' w').
Proof.
  intros Hyes Hbody Hne Hsize Hid Hdocs Hfree Hparam s'.
  assert (gobin.db s' = <[(http.URLParam r "documentID", nextVersion (StoreNow E))
                          := (content, http.assoc "Language" (http.Header r))]> (gobin.db s))
    as Hst by by apply PatchDocument_A_store.
  unfold RoutesA.getDocument. rewrite Hst, Hparam.
  rewrite bool_decide_eq_false_2 by done. split.
  - intros Hbelow. by rewrite latest_after_insert.
  - intros (d & Hd & Habove). by rewrite (latest_kept _ _ _ _ _ d).
Qed.

End Visible.

(** ** Further properties: a document read back as JSON *)

Module RoundTripJSON.

Import db StoreOps StoreFacts Tokens gobin Spec HandlerStore.

(** X17. After a POST, a GET of the document under the new id returns
    the posted body. The first snapshot reports the version of the
    clock and the [Language] header of the POST; the second, asked
    without a version and without rendering, reports the version 0 and
    no language. *)
Theorem document_returns_the_posted_body (E : Env) s r r' (content : string) :
  http.Body r = Some content → content ≠ "" →
  (exceedsMaxDocumentSize E s http.newWriter r content).2 = false →
  documentsOf (gobin.db s) (randomID E) = [] → randomID E ≠ "" →
  http.URLParam r' "documentID" = randomID E →
  http.Method r' ≠ http.MethodHead →
  http.written
    (RoutesA.GetDocument
       (mkServer (version s) (cfg s) (RoutesA.PostDocument E s r http.newWriter).2)
       r' http.newWriter).1
  = [VDocument (DocumentResponse.mk (randomID E) (nextVersion (StoreNow E)) "" ""
                  content "" "" (http.assoc "Language" (http.Header r)) "")]
  ∧ (contextDone E = false → http.URLParam r' "version" = "" →
     http.assoc "render" (http.Query r') = "" →
     http.written
       (RoutesB.GetDocument E
          (mkServer (version s) (cfg s) (RoutesB.PostDocument E s r http.newWriter).2)
          r' http.newWriter).1
     = [VDocument (DocumentResponse.mk (randomID E) 0 "" "" content "" "" "" "")]).
Proof.
  intros Hbody Hne Hsize Hfresh Hid Hparam Hm. split.
  - unfold RoutesA.GetDocument.
    rewrite (PostDocument_then_getDocument_A E s r http.newWriter content) by done.
    rewrite bool_decide_eq_false_2 by done.
    unfold ok, json. rewrite bool_decide_eq_false_2 by done. reflexivity.
  - intros Hdone Hversion Hrender. unfold RoutesB.GetDocument.
    rewrite (PostDocument_then_getDocument_B E s r http.newWriter content) by done.
    rewrite bool_decide_eq_false_2 by done. rewrite Hrender, Hversion.
    rewrite !bool_decide_eq_true_2 by done.
    unfold ok, json. rewrite bool_decide_eq_false_2 by done. reflexivity.
Qed.

End RoundTripJSON.

(** ** The further properties at sample requests *)

Module FurtherSamples.

Import db StoreOps StoreFacts Tokens gobin Spec Samples More MoreSamples.

(** A GET of a document leaves the sample table as it was. *)
Lemma reads_leave_the_table_at_sample :
  (RoutesA.Routes env server readRequest).2 = table
  ∧ (RoutesB.Routes env server readRequest).2 = table.
Proof.
  refine (StoreThroughHandlers.reads_leave_the_table env server readRequest _).
  vm_compute. reflexivity.
Defined.

(** A delete with the token of "abcdefgh" leaves the row of "zzzzzzzz". *)
Lemma other_documents_untouched_at_sample :
  (RoutesB.mux env server
     (routed "DELETE" [("documentID", "abcdefgh")] fullClaims "") http.newWriter).2
    !! ("zzzzzzzz", 1650000000)
  = table !! ("zzzzzzzz", 1650000000).
Proof.
  refine (proj1 (Isolation.other_documents_untouched env server
            (routed "DELETE" [("documentID", "abcdefgh")] fullClaims "") http.newWriter
            "zzzzzzzz" 1650000000 _ _)).
  - discriminate.
  - discriminate.
Defined.

(** The rows of the sample table, under a limit of five characters. *)
Lemma stored_contents_stay_admissible_at_sample :
  Forall (admissible env small) (documents (RoutesA.Routes env small createRequest).2).
Proof.
  refine (proj2 (Forall_forall _ _)
            (proj1 (Admissible.stored_contents_stay_admissible env small createRequest _))).
  intros d Hd.
  assert (d ∈ [mkDocument "abcdefgh" 1600000000 "old" "go";
               mkDocument "abcdefgh" 1700000000 "hello" "go";
               mkDocument "zzzzzzzz" 1650000000 "other" "text"]) as Hin.
  { apply elem_of_documents in Hd. destruct d as [id v c l]. simpl in Hd.
    unfold table in Hd.
    destruct (decide ((id, v) = ("abcdefgh", 1700000000))) as [[= -> ->]|H1].
    { rewrite lookup_insert_eq in Hd. injection Hd as <- <-. set_solver. }
    rewrite lookup_insert_ne in Hd by done.
    destruct (decide ((id, v) = ("abcdefgh", 1600000000))) as [[= -> ->]|H2].
    { rewrite lookup_insert_eq in Hd. injection Hd as <- <-. set_solver. }
    rewrite lookup_insert_ne in Hd by done.
    destruct (decide ((id, v) = ("zzzzzzzz", 1650000000))) as [[= -> ->]|H3].
    { rewrite lookup_insert_eq in Hd. injection Hd as <- <-. set_solver. }
    rewrite lookup_insert_ne in Hd by done. by rewrite lookup_empty in Hd. }
  repeat (apply elem_of_cons in Hin as [->|Hin]); [| | |by apply not_elem_of_nil in Hin];
    (split; [discriminate|intros _; vm_compute; discriminate]).
Defined.


(** The POST of the sample body is answered with 200. *)
Lemma created_means_stored_at_sample :
  ∃ content token,
    http.Body post = Some content ∧ content ≠ ""
    ∧ table !! ("freshid0", 1700000000) = None
    ∧ (RoutesA.PostDocument env server post http.newWriter).2
      = <[("freshid0", 1700000000) := (content, "")]> table
    ∧ sign env (mkClaims "freshid0" [PermissionWrite; PermissionDelete; PermissionShare])
      = Some token
    ∧ (http.Method post ≠ http.MethodHead →
       ∃ answer,
         http.written (RoutesA.PostDocument env server post http.newWriter).1
         = [VDocument answer]
         ∧ DocumentResponse.Key answer = "freshid0"
         ∧ DocumentResponse.Version answer = 1700000000
         ∧ DocumentResponse.Token answer = token).
Proof.
  refine (Bodies.created_means_stored env server post _).
  vm_compute. reflexivity.
Defined.

(** The POST of the sample body when the signer fails. *)
Lemma unsigned_document_stays_at_sample :
  RoutesA.PostDocument unsigned server post http.newWriter
  = (error_ http.newWriter post ErrSign http.StatusInternalServerError,
     <[("freshid0", 1700000000) := ("package main", "")]> table).
Proof.
  refine (proj1 (Issued.unsigned_document_stays unsigned server post http.newWriter
                   "package main" eq_refl _ _ _ eq_refl)).
  - discriminate.
  - vm_compute. reflexivity.
  - vm_compute. reflexivity.
Defined.

(** The holder of the three permissions shares [write]. *)
Lemma shares_never_add_at_sample :
  Subject (mkClaims "abcdefgh" [PermissionWrite]) = Subject fullClaims
  ∧ Permissions (mkClaims "abcdefgh" [PermissionWrite]) ⊆ Permissions fullClaims.
Proof.
  refine (Issued.shares_never_add env fullClaims (mkClaims "abcdefgh" [PermissionWrite]) _).
  refine (shared_more env fullClaims
            (routed "POST" [("documentID", "abcdefgh")] fullClaims "[write]") server
            [PermissionWrite] (shared_none env fullClaims) _ _).
  - vm_compute. reflexivity.
  - vm_compute. reflexivity.
Defined.

(** A delete of the version -1 with the token of the document. *)
Lemma version_minus_one_gets_no_answer_at_sample :
  RoutesB.DeleteDocument server
    (routed "DELETE" [("documentID", "abcdefgh"); ("version", "-1")] fullClaims "")
    http.newWriter
  = (http.newWriter, table).
Proof.
  refine (proj1 (Issued.version_minus_one_gets_no_answer env server
            (routed "DELETE" [("documentID", "abcdefgh"); ("version", "-1")] fullClaims "")
            http.newWriter _)).
  reflexivity.
Defined.

(** A PATCH of a document that has no row in the sample table. *)
Lemma deleted_documents_stay_deleted_at_sample :
  gone "nothere00" (RoutesA.Routes env server
                      (request "PATCH" ["documents"; "nothere00"] "Bearer full" "x")).2
  ∧ gone "nothere00" (RoutesB.Routes env server
                        (request "PATCH" ["documents"; "nothere00"] "Bearer full" "x")).2.
Proof.
  refine (Gone.deleted_documents_stay_deleted env server
            (request "PATCH" ["documents"; "nothere00"] "Bearer full" "x") "nothere00" _ _).
  - intros v. simpl. unfold table.
    rewrite !lookup_insert_ne by discriminate. apply lookup_empty.
  - discriminate.
Defined.

(** A GET with [render=html] when the highlighting fails. *)
Lemma failed_render_answers_OK_at_sample :
  http.status (RoutesB.GetDocument unrendered server rendered http.newWriter).1
  = Some http.StatusOK
  ∧ http.written (RoutesB.GetDocument unrendered server rendered http.newWriter).1
    = [VError (ErrorResponse.mk ErrHighlight http.StatusInternalServerError [] "req-1")].
Proof.
  refine (Rendering.failed_render_answers_OK unrendered server rendered
            (mkDocument "abcdefgh" 1700000000 "hello" "go") _ _ _ _).
  - vm_compute. reflexivity.
  - discriminate.
  - discriminate.
  - reflexivity.
Defined.

(** A delete of the version 0 with the token of the document. *)
Lemma delete_of_version_zero_deletes_all_at_sample :
  http.status (RoutesB.DeleteDocument server
     (routed "DELETE" [("documentID", "abcdefgh"); ("version", "0")] fullClaims "")
     http.newWriter).1 = Some http.StatusNoContent
  ∧ http.written (RoutesB.DeleteDocument server
     (routed "DELETE" [("documentID", "abcdefgh"); ("version", "0")] fullClaims "")
     http.newWriter).1 = []
  ∧ documentsOf (RoutesB.DeleteDocument server
     (routed "DELETE" [("documentID", "abcdefgh"); ("version", "0")] fullClaims "")
     http.newWriter).2 "abcdefgh" = [].
Proof.
  refine (Rendering.delete_of_version_zero_deletes_all server
            (routed "DELETE" [("documentID", "abcdefgh"); ("version", "0")] fullClaims "")
            _ _ _).
  - unfold holds. decided.
  - right. vm_compute. reflexivity.
  - vm_compute. discriminate.
Defined.

(** Five seconds before the clock of the sample environment. *)
Lemma label_within_a_minute_at_sample :
  (FormatDocumentVersion env (Now env) 1700000055).1 = ago 5 "seconds".
Proof.
  refine (Labels.label_within_a_minute env (Now env) 1700000055 eq_refl _).
  vm_compute. reflexivity.
Defined.

(** The sample body, posted and read back under the new id. *)
Lemma raw_returns_the_posted_body_at_sample :
  http.written
    (RoutesA.GetRawDocument
       (mkServer "dev" config (RoutesA.PostDocument env server post http.newWriter).2)
       (routed "GET" [("documentID", "freshid0")] EmptyClaims "") http.newWriter).1
  = [VBytes "package main"].
Proof.
  refine (proj1 (proj1 (RoundTrip.raw_returns_the_posted_body env server post
            (routed "GET" [("documentID", "freshid0")] EmptyClaims "") "package main"
            eq_refl _ _ _ _ eq_refl))).
  - discriminate.
  - vm_compute. reflexivity.
  - vm_compute. reflexivity.
  - discriminate.
Defined.

(** A DELETE of the first version of "abcdefgh" without any token. *)
Lemma anyone_deletes_a_version_at_sample :
  http.status
    (RoutesA.Routes env server
       (request "DELETE" ["documents"; "abcdefgh"; "versions"; "1600000000"] "" "")).1
  = Some http.StatusOK
  ∧ (RoutesA.Routes env server
       (request "DELETE" ["documents"; "abcdefgh"; "versions"; "1600000000"] "" "")).2
    = delete ("abcdefgh", 1600000000) table.
Proof.
  refine (Open.anyone_deletes_a_version env server
            (request "DELETE" ["documents"; "abcdefgh"; "versions"; "1600000000"] "" "")
            "abcdefgh" "1600000000" 1600000000 eq_refl eq_refl eq_refl eq_refl _ _ _).
  - discriminate.
  - vm_compute. reflexivity.
  - exists ("old", "go"). vm_compute. reflexivity.
Defined.

(** An update of "abcdefgh" one hundred seconds after its latest
    version. *)
Lemma update_is_latest_by_the_clock_at_sample :
  RoutesA.getDocument
    (mkServer "dev" config
       (RoutesA.PatchDocument later server
          (routed "PATCH" [("documentID", "abcdefgh")] fullClaims "world") http.newWriter).2)
    (routed "GET" [("documentID", "abcdefgh")] EmptyClaims "") http.newWriter
  = (http.newWriter, Some (mkDocument "abcdefgh" 1700000100 "world" "")).
Proof.
  refine (proj1 (Visible.update_is_latest_by_the_clock later server
            (routed "PATCH" [("documentID", "abcdefgh")] fullClaims "world") "world"
            (routed "GET" [("documentID", "abcdefgh")] EmptyClaims "")
            http.newWriter http.newWriter _ eq_refl _ _ _ _ _ eq_refl) _).
  - unfold holds. decided.
  - discriminate.
  - vm_compute. reflexivity.
  - discriminate.
  - vm_compute. discriminate.
  - vm_compute. reflexivity.
  - intros [id v c l] [Hid Hrow]%elem_of_documentsOf. simpl in *.
    change (table !! ("abcdefgh", v) = Some (c, l)) in Hrow. unfold table in Hrow.
    change (v < 1700000100).
    destruct (decide (v = 1700000000)) as [->|H1]; [lia|].
    rewrite lookup_insert_ne in Hrow by congruence.
    destruct (decide (v = 1600000000)) as [->|H2]; [lia|].
    rewrite lookup_insert_ne in Hrow by congruence.
    rewrite lookup_insert_ne in Hrow by discriminate.
    by rewrite lookup_empty in Hrow.
Defined.

(** The sample body, posted and read back as a document. *)
Lemma document_returns_the_posted_body_at_sample :
  http.written
    (RoutesA.GetDocument
       (mkServer "dev" config (RoutesA.PostDocument env server post http.newWriter).2)
       (routed "GET" [("documentID", "freshid0")] EmptyClaims "") http.newWriter).1
  = [VDocument (DocumentResponse.mk "freshid0" 1700000000 "" "" "package main" "" "" "" "")].
Proof.
  refine (proj1 (RoundTripJSON.document_returns_the_posted_body env server post
            (routed "GET" [("documentID", "freshid0")] EmptyClaims "") "package main"
            eq_refl _ _ _ _ eq_refl _)).
  - discriminate.
  - vm_compute. reflexivity.
  - vm_compute. reflexivity.
  - discriminate.
  - discriminate.
Defined.

End FurtherSamples.

(** ** Sample runs *)

Module Runs.

Import Tokens gobin Samples.

(** An update with the full token adds a version, which becomes the
    latest; within the second of the latest version it collides with it
    and is refused. A share of [write] gives a token; a delete with a
    token that holds [write] only is answered with 404 and deletes
    nothing; with the full token it removes the document. *)
Example scenario :
  http.StatusCode (RoutesA.Routes later server updateRequest).1 = http.StatusOK
  ∧ db.GetDocument (RoutesA.Routes later server updateRequest).2 "abcdefgh"
    = inr (db.mkDocument "abcdefgh" 1700000100 "world" "")
  ∧ db.GetVersionCount (RoutesA.Routes later server updateRequest).2 "abcdefgh" = 3
  ∧ http.StatusCode (RoutesA.Routes env server updateRequest).1
    = http.StatusInternalServerError
  ∧ (RoutesA.Routes env server updateRequest).2 = table
  ∧ http.written (RoutesA.Routes env server shareWriteRequest).1 = [VShare "signed:abcdefgh"]
  ∧ http.StatusCode (RoutesA.Routes env server deleteWithWriteToken).1 = http.StatusNotFound
  ∧ (RoutesA.Routes env server deleteWithWriteToken).2 = table
  ∧ http.StatusCode (RoutesA.Routes env server deleteWithFullToken).1 = http.StatusNoContent
  ∧ db.GetVersionCount (RoutesA.Routes env server deleteWithFullToken).2 "abcdefgh" = 0
  ∧ db.GetVersionCount (RoutesA.Routes env server deleteWithFullToken).2 "zzzzzzzz" = 1.
Proof. split_and!; vm_compute; reflexivity. Qed.

(** The same requests on the other snapshot; the language stored is the
    name of the fallback lexer, and the delete reports what is left. *)
Example scenario_B :
  http.StatusCode (RoutesB.Routes later server updateRequest).1 = http.StatusOK
  ∧ db.GetDocument (RoutesB.Routes later server updateRequest).2 "abcdefgh"
    = inr (db.mkDocument "abcdefgh" 1700000100 "world" "fallback")
  ∧ http.StatusCode (RoutesB.Routes env server deleteWithWriteToken).1 = http.StatusNotFound
  ∧ http.StatusCode (RoutesB.Routes env server deleteWithFullToken).1 = http.StatusNoContent
  ∧ http.written (RoutesB.Routes env server deleteWithFullToken).1 = []
  ∧ db.GetVersionCount (RoutesB.Routes env server deleteWithFullToken).2 "abcdefgh" = 0.
Proof. split_and!; vm_compute; reflexivity. Qed.

Example ParseInt_examples :
  strconv.ParseInt "1700000000" = inr 1700000000
  /\ strconv.ParseInt "-1" = inr (-1)
  /\ strconv.ParseInt "+7" = inr 7
  /\ strconv.ParseInt "" = inl strconv.ErrSyntax
  /\ strconv.ParseInt "-" = inl strconv.ErrSyntax
  /\ strconv.ParseInt "1_0" = inl strconv.ErrSyntax
  /\ strconv.ParseInt "9223372036854775807" = inr 9223372036854775807
  /\ strconv.ParseInt "9223372036854775808" = inl strconv.ErrRange
  /\ strconv.ParseInt "-9223372036854775808" = inr (-9223372036854775808)
  /\ strconv.ParseInt "99999999999999999999999x" = inl strconv.ErrRange.
Proof. repeat split; vm_compute; reflexivity. Qed.

Example Format_examples :
  time.Format (time.Unix time.UTC 1700000000) = "14/11/2023 22:13:20"
  /\ time.Format (time.Unix time.UTC 0) = "01/01/1970 00:00:00"
  /\ time.Format (time.Unix time.UTC 951782400) = "29/02/2000 00:00:00"
  /\ time.Format (time.Unix (fun _ => 3600) 1704067199) = "01/01/2024 00:59:59".
Proof. repeat split; vm_compute; reflexivity. Qed.

Example db_examples :
  let st0 : db.DB := ∅ in
  match db.CreateDocument st0 "abc" (time.Unix time.UTC 100) "hello" "go" with
  | inr (d, st1) =>
      match db.UpdateDocument st1 "abc" (time.Unix time.UTC 200) "world" "go" with
      | inr (d2, st2) =>
          db.GetDocument st2 "abc" = inr (db.mkDocument "abc" 200 "world" "go")
          /\ db.GetVersionCount st2 "abc" = 2
          /\ db.Version <$> db.GetDocumentVersions st2 "abc" false = [100; 200]
          /\ db.UpdateDocument st2 "abc" (time.Unix time.UTC 200) "again" "go" = inl db.ErrConflict
          /\ match db.DeleteDocumentByVersion st2 "abc" 100 with
             | inr st3 => db.GetDocument st3 "abc" = inr (db.mkDocument "abc" 200 "world" "go")
             | _ => False
             end
      | _ => False
      end
  | _ => False
  end.
Proof. vm_compute. repeat split; reflexivity. Qed.

End Runs.
